(** * train_gpt2.py: a GPT-2 style decoder, embedded in Rocq

    The development follows [src/train_gpt2.py] class by class:
    [GPTConfig], [CausalSelfAttention], [MLP], [Block] and [GPT].  The
    tensor library the program is written against is modelled first
    (module [torch]): tensors are a shape together with row-major data,
    every library call that can raise returns a [result], and module
    construction runs in a small state-and-error monad that hands out
    identities to freshly allocated parameters.

    Numbers are idealised: a [float] is an exact real or one of the
    special values NaN, -inf, +inf.  Rounding, overflow and signed
    zeros are not modelled, neither is memory exhaustion.  Statements
    that would be sensitive to overflow, or to the 64-bit range of the
    library's sizes, carry the bounds [dot_fits] and [tensor_fits] as
    hypotheses. *)

From Stdlib Require Import ZArith List Reals Lra Lia.
From stdpp Require Import gmap strings.
Import ListNotations.

Set Default Proof Using "Type".

(** ** Python exceptions and fallible computations *)

Inductive exn : Type :=
  | AssertionError
  | ZeroDivisionError
  | ValueError
  | IndexError
  | RuntimeError
  | NotImplementedError
  | UnboundLocalError (name : string).

Inductive result (A : Type) : Type :=
  | Ok (a : A)
  | Err (e : exn).
Arguments Ok {A} a.
Arguments Err {A} e.

#[global] Instance result_ret : MRet result := fun _ a => Ok a.
#[global] Instance result_bind : MBind result := fun _ _ k m =>
  match m with Ok a => k a | Err e => Err e end.

Definition is_Ok {A} (m : result A) : Prop := exists a, m = Ok a.

(** Python integer division and remainder: both raise on a zero divisor
    and round towards minus infinity, as [Z.div] and [Z.modulo] do. *)
Definition py_mod (a b : Z) : result Z :=
  if (b =? 0)%Z then Err ZeroDivisionError else Ok (a mod b)%Z.
Definition py_floordiv (a b : Z) : result Z :=
  if (b =? 0)%Z then Err ZeroDivisionError else Ok (a / b)%Z.
Definition py_assert (b : bool) : result unit :=
  if b then Ok tt else Err AssertionError.

(** ** Idealised floating point numbers

    Arithmetic on two reals is exact: the sum or product of two finite
    numbers is finite, where float32 would round it or overflow to an
    infinity. *)

Inductive float : Type :=
  | NaN
  | NInf
  | PInf
  | Fin (r : R).

Definition Rsgn (x : R) : comparison :=
  if Rlt_dec 0 x then Gt else if Rlt_dec x 0 then Lt else Eq.

Definition fsgn (a : float) : option comparison :=
  match a with
  | NaN => None
  | NInf => Some Lt
  | PInf => Some Gt
  | Fin x => Some (Rsgn x)
  end.

(** The infinity whose sign is the product of two signs; a zero factor
    gives NaN. *)
Definition inf_of (s1 s2 : comparison) : float :=
  match s1, s2 with
  | Eq, _ | _, Eq => NaN
  | Lt, Lt | Gt, Gt => PInf
  | _, _ => NInf
  end.

Definition fadd (a b : float) : float :=
  match a, b with
  | Fin x, Fin y => Fin (x + y)
  | NaN, _ | _, NaN => NaN
  | PInf, NInf | NInf, PInf => NaN
  | PInf, _ | _, PInf => PInf
  | NInf, _ | _, NInf => NInf
  end.

Definition fneg (a : float) : float :=
  match a with
  | NaN => NaN
  | NInf => PInf
  | PInf => NInf
  | Fin x => Fin (- x)
  end.

Definition fsub (a b : float) : float := fadd a (fneg b).

Definition fmul (a b : float) : float :=
  match a, b with
  | Fin x, Fin y => Fin (x * y)
  | _, _ =>
      match fsgn a, fsgn b with
      | Some s1, Some s2 => inf_of s1 s2
      | _, _ => NaN
      end
  end.

Definition fdiv (a b : float) : float :=
  match a, b with
  | NaN, _ | _, NaN => NaN
  | Fin x, Fin y =>
      if Req_dec_T y 0 then inf_of (Rsgn x) Gt else Fin (x / y)
  | Fin _, _ => Fin 0
  | _, Fin y => inf_of (if a is PInf then Gt else Lt)
                       (if Req_dec_T y 0 then Gt else Rsgn y)
  | _, _ => NaN
  end.

Definition fexp (a : float) : float :=
  match a with
  | NaN => NaN
  | NInf => Fin 0
  | PInf => PInf
  | Fin x => Fin (exp x)
  end.

Definition fsqrt (a : float) : float :=
  match a with
  | NaN | NInf => NaN
  | PInf => PInf
  | Fin x => if Rlt_dec x 0 then NaN else Fin (sqrt x)
  end.

(** [== 0] on a float. *)
Definition feq0 (a : float) : bool :=
  match a with
  | Fin x => if Req_dec_T x 0 then true else false
  | _ => false
  end.

Definition fsum (l : list float) : float := fold_left fadd l (Fin 0).

(** The error function, 2/sqrt(pi) times the integral of exp(-t^2) from
    0 to x. *)
Definition gauss (t : R) : R := exp (- (t * t)).

Lemma gauss_continuity : continuity gauss.
Proof.
  unfold gauss. apply derivable_continuous.
  intro x. reg.
Qed.

Lemma gauss_integrable (a b : R) : Riemann_integrable gauss a b.
Proof.
  destruct (Rle_dec a b) as [Hab | Hab].
  - apply continuity_implies_RiemannInt; [exact Hab |].
    intros x _. apply gauss_continuity.
  - apply RiemannInt_P1, continuity_implies_RiemannInt; [lra |].
    intros x _. apply gauss_continuity.
Qed.

Definition erf (x : R) : R :=
  (2 / sqrt PI * RiemannInt (gauss_integrable 0 x))%R.

Definition ferf (a : float) : float :=
  match a with
  | NaN => NaN
  | NInf => Fin (-1)
  | PInf => Fin 1
  | Fin x => Fin (erf x)
  end.

Definition ftanh (a : float) : float :=
  match a with
  | NaN => NaN
  | NInf => Fin (-1)
  | PInf => Fin 1
  | Fin x => Fin (tanh x)
  end.

Definition fmax (a b : float) : float :=
  match a, b with
  | NaN, _ | _, NaN => NaN
  | PInf, _ | _, PInf => PInf
  | NInf, c | c, NInf => c
  | Fin x, Fin y => Fin (Rmax x y)
  end.

(** ** Tensors: a shape and row-major data *)

Module torch.

Record tensor (A : Type) : Type := mkTensor {
  shape : list nat;
  data : list A;
}.
Arguments mkTensor {A} shape data.
Arguments shape {A} t.
Arguments data {A} t.

Definition numel (s : list nat) : nat := fold_right Nat.mul 1%nat s.

(** All index tuples of a shape, in storage order. *)
Fixpoint indices (s : list nat) : list (list nat) :=
  match s with
  | [] => [[]]
  | d :: s' => flat_map (fun i => map (cons i) (indices s')) (seq 0 d)
  end.

(** Offset of an index tuple in the storage. *)
Fixpoint ravel (s idx : list nat) : nat :=
  match s, idx with
  | _ :: s', i :: idx' => i * numel s' + ravel s' idx'
  | _, _ => 0
  end.

Definition get {A} (dflt : A) (t : tensor A) (idx : list nat) : A :=
  nth (ravel (shape t) idx) (data t) dflt.

Definition tabulate {A} (s : list nat) (f : list nat -> A) : tensor A :=
  mkTensor s (map f (indices s)).

Definition fget (t : tensor float) (idx : list nat) : float := get NaN t idx.

(** [idx] addresses an element of a tensor of shape [s]. *)
Definition in_range (idx s : list nat) : Prop := Forall2 lt idx s.

(** A tensor whose storage has as many elements as its shape says. *)
Definition wf {A} (t : tensor A) : Prop := length (data t) = numel (shape t).

(** *** Broadcasting *)

Fixpoint broadcast_rev (r1 r2 : list nat) : option (list nat) :=
  match r1, r2 with
  | [], r | r, [] => Some r
  | a :: r1', b :: r2' =>
      if (a =? b)%nat then cons a <$> broadcast_rev r1' r2'
      else if (a =? 1)%nat then cons b <$> broadcast_rev r1' r2'
      else if (b =? 1)%nat then cons a <$> broadcast_rev r1' r2'
      else None
  end.

Definition broadcast_shapes (s1 s2 : list nat) : option (list nat) :=
  option_map (@rev nat) (broadcast_rev (rev s1) (rev s2)).

(** The index at which a tensor of shape [s] is read when it is
    broadcast and the result is read at [idx]: leading indices are
    dropped and a dimension of size one is read at zero. *)
Definition bidx (s idx : list nat) : list nat :=
  zip_with (fun d i => if (d =? 1)%nat then 0%nat else i) s
           (drop (length idx - length s) idx).

Definition bget {A} (dflt : A) (t : tensor A) (idx : list nat) : A :=
  get dflt t (bidx (shape t) idx).

(** *** Dimension arguments *)

(** A dimension given as a Python integer, negative ones counting from
    the end. *)
Definition wrap_dim (rank : nat) (dim : Z) : result nat :=
  if ((- Z.of_nat rank <=? dim) && (dim <? Z.of_nat rank))%Z
  then Ok (Z.to_nat (if (dim <? 0)%Z then dim + Z.of_nat rank else dim)%Z)
  else Err IndexError.

(** [torch.empty], [torch.ones] and the like reject a negative size.
    (The library also rejects a size or a byte count outside the signed
    64-bit range, with another error; see [tensor_fits].) *)
Definition check_sizes (dims : list Z) : result (list nat) :=
  if forallb (fun d => (0 <=? d)%Z) dims
  then Ok (map Z.to_nat dims)
  else Err RuntimeError.

Definition full (s : list nat) (v : float) : tensor float :=
  tabulate s (fun _ => v).

Definition ones (dims : list Z) : result (tensor float) :=
  s ← check_sizes dims; Ok (full s (Fin 1)).

(** [torch.tril]: the entries above the diagonal of the last two
    dimensions are replaced by zero. *)
Definition tril (t : tensor float) : result (tensor float) :=
  if (length (shape t) <? 2)%nat then Err RuntimeError
  else Ok (tabulate (shape t) (fun idx =>
         match rev idx with
         | j :: i :: _ => if (j <=? i)%nat then fget t idx else Fin 0
         | _ => NaN
         end)).

(** [t.view(dims)]: the data is kept and the shape replaced; one size
    may be -1 and is then inferred.  Strides are not modelled: the
    program calls [contiguous()] before the one view that needs it. *)
Definition view {A} (t : tensor A) (dims : list Z) : result (tensor A) :=
  if existsb (fun d => (d <? -1)%Z) dims then Err RuntimeError
  else
    let n := numel (shape t) in
    let known := numel (map Z.to_nat (List.filter (fun d => negb (d =? -1)%Z) dims)) in
    match length (List.filter (fun d => (d =? -1)%Z) dims) with
    | 0%nat =>
        if (known =? n)%nat
        then Ok (mkTensor (map Z.to_nat dims) (data t))
        else Err RuntimeError
    | 1%nat =>
        if (known =? 0)%nat then Err RuntimeError
        else if (n mod known =? 0)%nat
        then Ok (mkTensor
                   (map (fun d => if (d =? -1)%Z then (n / known)%nat
                                  else Z.to_nat d) dims)
                   (data t))
        else Err RuntimeError
    | _ => Err RuntimeError
    end.

Definition contiguous {A} (t : tensor A) : tensor A := t.

Definition swap_at (i j : nat) (l : list nat) : list nat :=
  <[j := nth i l 0%nat]> (<[i := nth j l 0%nat]> l).

Definition transpose {A} (dflt : A) (t : tensor A) (dim0 dim1 : Z)
  : result (tensor A) :=
  d0 ← wrap_dim (length (shape t)) dim0;
  d1 ← wrap_dim (length (shape t)) dim1;
  Ok (tabulate (swap_at d0 d1 (shape t))
        (fun idx => get dflt t (swap_at d0 d1 idx))).

(** [t.narrow(dim, start, len)] *)
Definition narrow {A} (dflt : A) (t : tensor A) (d start len : nat)
  : tensor A :=
  tabulate (<[d := len]> (shape t))
    (fun idx => get dflt t (alter (fun i => (i + start)%nat) d idx)).

(** [t.split(split_size, dim)]: consecutive pieces of [split_size]
    along [dim], the last one possibly shorter; at least one piece. *)
Definition split {A} (dflt : A) (t : tensor A) (split_size dim : Z)
  : result (list (tensor A)) :=
  d ← wrap_dim (length (shape t)) dim;
  let n := nth d (shape t) 0%nat in
  if (split_size <? 0)%Z then Err RuntimeError
  else if ((split_size =? 0)%Z && negb (n =? 0)%nat)%bool then Err RuntimeError
  else
    let sz := Z.to_nat split_size in
    let num := if (sz =? 0)%nat then 1%nat
               else Nat.max ((n + sz - 1) / sz) 1 in
    Ok (map (fun j => narrow dflt t d (j * sz) (Nat.min sz (n - j * sz)))
            (seq 0 num)).

(** [t[:, :n, ...]]: each dimension is kept whole ([None]) or cut to
    its first [n] entries ([Some n]), as a Python slice [:n] does. *)
Definition slice_prefix {A} (dflt : A) (t : tensor A)
    (stops : list (option nat)) : result (tensor A) :=
  if (length (shape t) <? length stops)%nat then Err IndexError
  else
    let s := zip_with (fun d o => match o with
                                  | Some n => Nat.min n d
                                  | None => d
                                  end)
               (shape t) (stops ++ replicate (length (shape t)) None) in
    Ok (tabulate s (fun idx => get dflt t idx)).

(** *** Arithmetic on tensors *)

(** [a + b], with broadcasting. *)
Definition add (a b : tensor float) : result (tensor float) :=
  match broadcast_shapes (shape a) (shape b) with
  | Some s =>
      Ok (tabulate s (fun idx => fadd (bget NaN a idx) (bget NaN b idx)))
  | None => Err RuntimeError
  end.

(** [a * c] for a Python float [c]. *)
Definition mul_scalar (a : tensor float) (c : float) : tensor float :=
  mkTensor (shape a) (map (fun x => fmul x c) (data a)).

(** [a == 0] *)
Definition eq_zero (a : tensor float) : tensor bool :=
  mkTensor (shape a) (map feq0 (data a)).

(** [a.masked_fill(mask, v)] for a mask that broadcasts to the shape of
    [a].  (The library would also enlarge [a] to a mask with more
    entries; the mask of line 34 asks for that only when T = 1 and
    block_size = 0, a case no statement below relies on.) *)
Definition masked_fill_at (a : tensor float) (mask : tensor bool) (v : float)
    (idx : list nat) : float :=
  if bget false mask idx then v else fget a idx.

Definition masked_fill (a : tensor float) (mask : tensor bool) (v : float)
  : result (tensor float) :=
  match broadcast_shapes (shape a) (shape mask) with
  | Some s =>
      if decide (s = shape a)
      then Ok (tabulate (shape a) (masked_fill_at a mask v))
      else Err RuntimeError
  | None => Err RuntimeError
  end.

(** [a @ b] for operands of rank two or more: a matrix product over the
    last two dimensions, the leading ones broadcast.  Operands of rank
    below two never reach this call in the program. *)
Definition matmul_at (a b : tensor float) (ba bb : list nat) (nb m : nat)
    (idx : list nat) : float :=
  let bi := take nb idx in
  match drop nb idx with
  | [i; j] =>
      fsum (map (fun l => fmul (fget a (bidx ba bi ++ [i; l]))
                               (fget b (bidx bb bi ++ [l; j])))
                (seq 0 m))
  | _ => NaN
  end.

Definition matmul (a b : tensor float) : result (tensor float) :=
  let ba := take (length (shape a) - 2) (shape a) in
  let bb := take (length (shape b) - 2) (shape b) in
  match drop (length (shape a) - 2) (shape a),
        drop (length (shape b) - 2) (shape b) with
  | [n; m], [m'; p] =>
      if (m =? m')%nat then
        match broadcast_shapes ba bb with
        | Some bs =>
            Ok (tabulate (bs ++ [n; p]) (matmul_at a b ba bb (length bs) m))
        | None => Err RuntimeError
        end
      else Err RuntimeError
  | _, _ => Err RuntimeError
  end.

(** The entries of [t] along dimension [d] through [idx]. *)
Definition fiber (t : tensor float) (d : nat) (idx : list nat) : list float :=
  map (fun j => fget t (<[d := j]> idx)) (seq 0 (nth d (shape t) 0%nat)).

(** [F.softmax(t, dim)]: every entry is shifted by the maximum along
    [dim] before it is exponentiated. *)
Definition softmax1 (row : list float) (x : float) : float :=
  let m := fold_left fmax row NInf in
  fdiv (fexp (fsub x m)) (fsum (map (fun y => fexp (fsub y m)) row)).

Definition softmax (t : tensor float) (dim : Z) : result (tensor float) :=
  d ← wrap_dim (length (shape t)) dim;
  Ok (tabulate (shape t) (fun idx => softmax1 (fiber t d idx) (fget t idx))).

(** [F.linear(x, W, b)]: [x @ W.T + b] over the last dimension. *)
Definition linear_at (x W : tensor float) (b : option (tensor float))
    (inn : nat) (idx : list nat) : float :=
  let o := List.last idx 0%nat in
  let acc := fsum (map (fun l => fmul (fget x (List.removelast idx ++ [l]))
                                      (fget W [o; l]))
                       (seq 0 inn)) in
  match b with
  | Some bt => fadd acc (fget bt [o])
  | None => acc
  end.

Definition linear (x W : tensor float) (b : option (tensor float))
  : result (tensor float) :=
  match shape W, rev (shape x) with
  | [out; inn], c :: pre =>
      if (c =? inn)%nat
      then Ok (tabulate (rev pre ++ [out]) (linear_at x W b inn))
      else Err RuntimeError
  | _, _ => Err RuntimeError
  end.

(** [F.layer_norm(x, (n,), w, b, eps)]: each vector along the last
    dimension is centred, scaled by its biased standard deviation, then
    scaled by [w] and shifted by [b]. *)
Definition layer_norm_at (x : tensor float) (n : nat) (w b : tensor float)
    (eps : float) (idx : list nat) : float :=
  let row := fiber x (length (shape x) - 1) idx in
  let mean := fdiv (fsum row) (Fin (INR n)) in
  let var := fdiv (fsum (map (fun v => fmul (fsub v mean) (fsub v mean)) row))
                  (Fin (INR n)) in
  fadd (fmul (fdiv (fsub (fget x idx) mean) (fsqrt (fadd var eps)))
             (fget w [List.last idx 0%nat]))
       (fget b [List.last idx 0%nat]).

Definition layer_norm (x : tensor float) (n : nat) (w b : tensor float)
    (eps : float) : result (tensor float) :=
  match rev (shape x) with
  | c :: _ =>
      if (c =? n)%nat
      then Ok (tabulate (shape x) (layer_norm_at x n w b eps))
      else Err RuntimeError
  | [] => Err RuntimeError
  end.

(** [F.gelu(x, approximate)] on one number.  (At +inf the formula gives
    +inf; the library's vectorised kernel gives NaN there.  No statement
    below evaluates it at an infinity.) *)
Definition gelu1 (approximate : string) (x : float) : float :=
  if String.eqb approximate "tanh" then
    fmul (fmul (Fin (1 / 2)) x)
         (fadd (Fin 1)
               (ftanh (fmul (Fin (sqrt (2 / PI)))
                            (fadd x (fmul (Fin (44715 / 1000000))
                                          (fmul x (fmul x x)))))))
  else
    fmul (fmul x (Fin (1 / 2)))
         (fadd (Fin 1) (ferf (fmul x (Fin (/ sqrt 2))))).

Definition gelu (x : tensor float) (approximate : string)
  : result (tensor float) :=
  if (String.eqb approximate "none" || String.eqb approximate "tanh")%bool
  then Ok (mkTensor (shape x) (map (gelu1 approximate) (data x)))
  else Err RuntimeError.

(** [1.0 / math.sqrt(n)] for a size [n]: Python raises on the division
    by zero. *)
Definition inv_sqrt (n : nat) : result float :=
  if (n =? 0)%nat then Err ZeroDivisionError
  else Ok (Fin (1 / sqrt (INR n))).

(** *** Parameters and their allocation

    Constructing a module allocates parameters.  The state threaded
    through construction is the identity of the next object and the
    global random generator: a stream of numbers and a position in
    it. *)

Record Param : Type := mkParam {
  pid : nat;
  value : tensor float;
}.

Record alloc_state : Type := mkAlloc {
  next_id : nat;
  rng_pos : nat;
  rng : nat -> R;
}.

Definition M (A : Type) : Type := alloc_state -> result (A * alloc_state).

#[global] Instance M_ret : MRet M := fun _ a st => Ok (a, st).
#[global] Instance M_bind : MBind M := fun _ _ k m st =>
  match m st with
  | Ok (a, st') => k a st'
  | Err e => Err e
  end.

Definition lift {A} (r : result A) : M A := fun st =>
  match r with
  | Ok a => Ok (a, st)
  | Err e => Err e
  end.

(** A parameter of the given sizes drawn from the random generator. *)
Definition random_parameter (dims : list Z) : M Param := fun st =>
  match check_sizes dims with
  | Ok s =>
      Ok (mkParam (next_id st)
            (mkTensor s (map (fun i => Fin (rng st (rng_pos st + i)%nat))
                             (seq 0 (numel s)))),
          mkAlloc (S (next_id st)) (rng_pos st + numel s) (rng st))
  | Err e => Err e
  end.

(** A parameter of the given sizes filled with one number. *)
Definition constant_parameter (dims : list Z) (v : float) : M Param :=
  fun st =>
  match check_sizes dims with
  | Ok s =>
      Ok (mkParam (next_id st) (full s v),
          mkAlloc (S (next_id st)) (rng_pos st) (rng st))
  | Err e => Err e
  end.

End torch.

(** ** The layers of [torch.nn] the program uses *)

Module nn.
Import torch.

(** [nn.Linear(in_features, out_features, bias)] *)
Record Linear : Type := mkLinear {
  in_features : Z;
  out_features : Z;
  weight : Param;
  bias : option Param;
}.

Definition Linear_init (in_f out_f : Z) (with_bias : bool) : M Linear :=
  w ← random_parameter [out_f; in_f];
  b ← (if with_bias
       then (p ← random_parameter [out_f]; mret (Some p))
       else mret None);
  mret (mkLinear in_f out_f w b).

Definition Linear_forward (self : Linear) (x : tensor float)
  : result (tensor float) :=
  linear x (value (weight self)) (value <$> bias self).

(** [nn.LayerNorm(n)] with its default [eps = 1e-5]. *)
Record LayerNorm : Type := mkLayerNorm {
  normalized_shape : Z;
  eps : float;
  ln_weight : Param;
  ln_bias : Param;
}.

Definition LayerNorm_init (n : Z) : M LayerNorm :=
  w ← constant_parameter [n] (Fin 1);
  b ← constant_parameter [n] (Fin 0);
  mret (mkLayerNorm n (Fin (1 / 100000)) w b).

Definition LayerNorm_forward (self : LayerNorm) (x : tensor float)
  : result (tensor float) :=
  layer_norm x (Z.to_nat (normalized_shape self))
    (value (ln_weight self)) (value (ln_bias self)) (eps self).

(** [nn.Embedding(num_embeddings, embedding_dim)] *)
Record Embedding : Type := mkEmbedding {
  num_embeddings : Z;
  embedding_dim : Z;
  emb_weight : Param;
}.

Definition Embedding_init (num dim : Z) : M Embedding :=
  w ← random_parameter [num; dim];
  mret (mkEmbedding num dim w).

(** [nn.GELU(approximate)] *)
Record GELU : Type := mkGELU { approximate : string }.

Definition GELU_forward (self : GELU) (x : tensor float)
  : result (tensor float) :=
  gelu x (approximate self).

(** [nn.Module.forward] as a class inherits it when it defines none: the
    call raises. *)
Definition Module_forward {A B} (x : A) : result B := Err NotImplementedError.

End nn.

Import torch.

(** ** Local variables of a Python function

    The tensor-valued locals of a function body live in a frame.
    Reading a name that no earlier statement has assigned raises. *)

Definition load (f : gmap string (tensor float)) (name : string)
  : result (tensor float) :=
  match f !! name with
  | Some t => Ok t
  | None => Err (UnboundLocalError name)
  end.

(** [t.size(dim)] *)
Definition size {A} (t : tensor A) (dim : Z) : result nat :=
  d ← wrap_dim (length (shape t)) dim;
  Ok (nth d (shape t) 0%nat).

(** ** [class GPTConfig] (lines 69-75) *)

Module GPTConfig.

Record t : Type := mk {
  block_size : Z;
  vocab_size : Z;
  n_layer : Z;
  n_head : Z;
  n_embd : Z;
}.

Definition default : t := mk 256 65 6 6 384.

End GPTConfig.

(** ** [class CausalSelfAttention] (lines 7-40) *)

Module CausalSelfAttention.

Record t : Type := mk {
  c_attn : nn.Linear;
  c_proj : nn.Linear;
  n_head : Z;
  n_embd : Z;
  bias : tensor float;
}.

(** Lines 8-20. *)
Definition init (config : GPTConfig.t) : M t :=
  r ← lift (py_mod (GPTConfig.n_embd config) (GPTConfig.n_head config));
  _ ← lift (py_assert (r =? 0)%Z);
  c_attn ← nn.Linear_init (GPTConfig.n_embd config)
                          (3 * GPTConfig.n_embd config) true;
  c_proj ← nn.Linear_init (GPTConfig.n_embd config)
                          (GPTConfig.n_embd config) true;
  bias ← lift (o ← ones [GPTConfig.block_size config;
                         GPTConfig.block_size config];
               l ← tril o;
               view l [1; 1; GPTConfig.block_size config;
                       GPTConfig.block_size config]%Z);
  mret (mk c_attn c_proj (GPTConfig.n_head config) (GPTConfig.n_embd config)
           bias).

(** The body of [forward], one definition per assignment.  [B], [T] and
    [C] are the integers bound on line 23. *)
Section forward.
Variable self : t.
Variables B T C : nat.
Implicit Type f : gmap string (tensor float).

(** [view(B, T, self.n_head, C // self.n_head).transpose(1, 2)] of
    the tensor bound to [name], as on lines 29 to 31. *)
Definition heads f (name : string) : result (tensor float) :=
  a ← load f name;
  hs ← py_floordiv (Z.of_nat C) (n_head self);
  a ← view a [Z.of_nat B; Z.of_nat T; n_head self; hs];
  transpose NaN a 1 2.

Definition line27 f : result (gmap string (tensor float)) :=
  qkv ← (x ← load f "x"; nn.Linear_forward (c_attn self) x);
  Ok (<["qkv" := qkv]> f).

Definition line28 f : result (gmap string (tensor float)) :=
  parts ← (qkv ← load f "qkv"; split NaN qkv (n_embd self) 2);
  match parts with
  | [p0; p1; p2] => Ok (<["c" := p2]> (<["k" := p1]> (<["q" := p0]> f)))
  | _ => Err ValueError
  end.

Definition line29 f : result (gmap string (tensor float)) :=
  k ← heads f "k"; Ok (<["k" := k]> f).

Definition line30 f : result (gmap string (tensor float)) :=
  q ← heads f "q"; Ok (<["q" := q]> f).

Definition line31 f : result (gmap string (tensor float)) :=
  v ← heads f "v"; Ok (<["v" := v]> f).

Definition line33 f : result (gmap string (tensor float)) :=
  att ← (q ← load f "q";
         k ← load f "k";
         kt ← transpose NaN k (-2) (-1);
         qk ← matmul q kt;
         k ← load f "k";
         hs ← size k (-1);
         scale ← inv_sqrt hs;
         Ok (mul_scalar qk scale));
  Ok (<["att" := att]> f).

Definition line34 f : result (gmap string (tensor float)) :=
  att ← (att ← load f "att";
         b ← slice_prefix NaN (bias self) [None; None; Some T; Some T];
         masked_fill att (eq_zero b) NInf);
  Ok (<["att" := att]> f).

Definition line35 f : result (gmap string (tensor float)) :=
  att ← (att ← load f "att"; softmax att (-1));
  Ok (<["att" := att]> f).

Definition line36 f : result (gmap string (tensor float)) :=
  y ← (att ← load f "att"; v ← load f "v"; matmul att v);
  Ok (<["y" := y]> f).

Definition line37 f : result (gmap string (tensor float)) :=
  y ← (y ← load f "y";
       y ← transpose NaN y 1 2;
       view (contiguous y) [Z.of_nat B; Z.of_nat T; Z.of_nat C]);
  Ok (<["y" := y]> f).

Definition line39 f : result (gmap string (tensor float)) :=
  y ← (y ← load f "y"; nn.Linear_forward (c_proj self) y);
  Ok (<["y" := y]> f).

Definition body f : result (tensor float) :=
  f ← line27 f;
  f ← line28 f;
  f ← line29 f;
  f ← line30 f;
  f ← line31 f;
  f ← line33 f;
  f ← line34 f;
  f ← line35 f;
  f ← line36 f;
  f ← line37 f;
  f ← line39 f;
  load f "y".
End forward.

(** Lines 22-40.  Line 23 unpacks [x.size()] into three names. *)
Definition forward (self : t) (x : tensor float) : result (tensor float) :=
  match shape x with
  | [B; T; C] => body self B T C {["x" := x]}
  | _ => Err ValueError
  end.

End CausalSelfAttention.

(** ** [class MLP] (lines 42-53) *)

Module MLP.

Record t : Type := mk {
  c_fc : nn.Linear;
  gelu : nn.GELU;
  c_proj : nn.Linear;
}.

Definition init (config : GPTConfig.t) : M t :=
  c_fc ← nn.Linear_init (GPTConfig.n_embd config)
                        (4 * GPTConfig.n_embd config) true;
  c_proj ← nn.Linear_init (4 * GPTConfig.n_embd config)
                          (GPTConfig.n_embd config) true;
  mret (mk c_fc (nn.mkGELU "none") c_proj).

Definition forward (self : t) (x : tensor float) : result (tensor float) :=
  x ← nn.Linear_forward (c_fc self) x;
  x ← nn.GELU_forward (gelu self) x;
  x ← nn.Linear_forward (c_proj self) x;
  Ok x.

End MLP.

(** ** [class Block] (lines 55-66) *)

Module Block.

Record t : Type := mk {
  ln_1 : nn.LayerNorm;
  attn : CausalSelfAttention.t;
  ln_2 : nn.LayerNorm;
  mlp : MLP.t;
}.

Definition init (config : GPTConfig.t) : M t :=
  ln_1 ← nn.LayerNorm_init (GPTConfig.n_embd config);
  attn ← CausalSelfAttention.init config;
  ln_2 ← nn.LayerNorm_init (GPTConfig.n_embd config);
  mlp ← MLP.init config;
  mret (mk ln_1 attn ln_2 mlp).

(** [x = x + sub(norm(x))], the shape of lines 64 and 65. *)
Definition residual (norm sub : tensor float -> result (tensor float))
    (x : tensor float) : result (tensor float) :=
  r ← (n ← norm x; sub n);
  add x r.

Definition forward (self : t) (x : tensor float) : result (tensor float) :=
  x ← residual (nn.LayerNorm_forward (ln_1 self))
               (CausalSelfAttention.forward (attn self)) x;
  x ← residual (nn.LayerNorm_forward (ln_2 self))
               (MLP.forward (mlp self)) x;
  Ok x.

End Block.

(** ** [class GPT] (lines 77-88), nested in [GPTConfig] *)

Module GPT.

(** The [nn.ModuleDict] of lines 82-87. *)
Record transformer_t : Type := mkTransformer {
  wte : nn.Embedding;
  wpe : nn.Embedding;
  h : list Block.t;
  ln_f : nn.LayerNorm;
}.

Record t : Type := mk {
  config : GPTConfig.t;
  transformer : transformer_t;
  lm_head : nn.Linear;
}.

(** [[Block(config) for _ in range(n)]] *)
Fixpoint blocks (config : GPTConfig.t) (n : nat) : M (list Block.t) :=
  match n with
  | O => mret []
  | S n' => b ← Block.init config; bs ← blocks config n'; mret (b :: bs)
  end.

Definition init (config : GPTConfig.t) : M t :=
  wte ← nn.Embedding_init (GPTConfig.vocab_size config)
                          (GPTConfig.n_embd config);
  wpe ← nn.Embedding_init (GPTConfig.block_size config)
                          (GPTConfig.n_embd config);
  h ← blocks config (Z.to_nat (GPTConfig.n_layer config));
  ln_f ← nn.LayerNorm_init (GPTConfig.n_embd config);
  lm_head ← nn.Linear_init (GPTConfig.n_embd config)
                           (GPTConfig.vocab_size config) false;
  mret (mk config (mkTransformer wte wpe h ln_f) lm_head).

(** The class defines [__init__] only: calling the model runs the
    [forward] it inherits from [nn.Module]. *)
Definition forward (self : t) (idx : tensor Z) : result (tensor float) :=
  nn.Module_forward idx.

End GPT.

(** ** [nn.Module.parameters()]

    The identities of the parameters a module holds, in registration
    order. *)

Definition Linear_parameters (l : nn.Linear) : list nat :=
  pid (nn.weight l) :: match nn.bias l with Some b => [pid b] | None => [] end.

Definition LayerNorm_parameters (l : nn.LayerNorm) : list nat :=
  [pid (nn.ln_weight l); pid (nn.ln_bias l)].

Definition Embedding_parameters (e : nn.Embedding) : list nat :=
  [pid (nn.emb_weight e)].

Definition CausalSelfAttention_parameters (a : CausalSelfAttention.t)
  : list nat :=
  Linear_parameters (CausalSelfAttention.c_attn a) ++
  Linear_parameters (CausalSelfAttention.c_proj a).

Definition MLP_parameters (m : MLP.t) : list nat :=
  Linear_parameters (MLP.c_fc m) ++ Linear_parameters (MLP.c_proj m).

Definition Block_parameters (b : Block.t) : list nat :=
  LayerNorm_parameters (Block.ln_1 b) ++
  CausalSelfAttention_parameters (Block.attn b) ++
  LayerNorm_parameters (Block.ln_2 b) ++
  MLP_parameters (Block.mlp b).

Definition GPT_parameters (m : GPT.t) : list nat :=
  Embedding_parameters (GPT.wte (GPT.transformer m)) ++
  Embedding_parameters (GPT.wpe (GPT.transformer m)) ++
  flat_map Block_parameters (GPT.h (GPT.transformer m)) ++
  LayerNorm_parameters (GPT.ln_f (GPT.transformer m)) ++
  Linear_parameters (GPT.lm_head m).

(** The mask buffer of lines 19-20 for a maximum length [bs]: ones on
    and below the diagonal, viewed with two leading dimensions of size
    one. *)
Definition mask_buffer (bs : nat) : tensor float :=
  mkTensor [1; 1; bs; bs]%nat
    (data (tabulate [bs; bs] (fun idx =>
       match rev idx with
       | j :: i :: _ =>
           if (j <=? i)%nat then fget (full [bs; bs] (Fin 1)) idx else Fin 0
       | _ => NaN
       end))).

(** ** Reading idealised floats as reals *)

Definition fval (a : float) : R :=
  match a with
  | Fin r => r
  | _ => 0%R
  end.

Definition Rsum (l : list R) : R := fold_left Rplus l 0%R.

(** Every entry of the tensor is a real number. *)
Definition finite_on (t : tensor float) : Prop :=
  forall idx, in_range idx (shape t) -> exists r, fget t idx = Fin r.

(** The dot product of row [i] of [q] and row [j] of [k] in batch [b]
    and head [h], both of width [hs]. *)
Definition dot (q k : tensor float) (hs b h i j : nat) : R :=
  Rsum (map (fun l => fval (fget q [b; h; i; l]) * fval (fget k [b; h; j; l]))%R
            (seq 0 hs)).

(** An entry of a masked row of scores: a real score or minus
    infinity. *)
Definition masked_entry (a : float) : Prop := a = NInf \/ exists r, a = Fin r.

(** The weight of an entry of a row once shifted by [M]. *)
Definition shifted (M : R) (a : float) : R :=
  match a with
  | Fin r => exp (r + - M)
  | _ => 0%R
  end.

(** ** Configurations and failure conditions *)

(** What makes [Block(config)] raise. *)
Definition bad_block_config (cfg : GPTConfig.t) : Prop :=
  (GPTConfig.n_embd cfg < 0)%Z \/ GPTConfig.n_head cfg = 0%Z \/
  (GPTConfig.n_embd cfg mod GPTConfig.n_head cfg)%Z <> 0%Z \/
  (GPTConfig.block_size cfg < 0)%Z.

(** The failure conditions the specification names, read as the
    exceptions that signal them: the assertion of line 10 for an invalid
    configuration; an explicit check or the bounds failure of a table
    lookup for a sequence that is too long. *)
Definition InvalidConfiguration (e : exn) : Prop := e = AssertionError.
Definition SequenceTooLong (e : exn) : Prop :=
  e = AssertionError \/ e = IndexError.

(** ** Concrete inputs *)

(** The configuration block_size=8, vocab_size=10, n_layer=2, n_head=2,
    n_embd=8. *)
Definition small_config : GPTConfig.t := GPTConfig.mk 8 10 2 2 8.

(** A fresh allocation state whose generator yields zeros. *)
Definition fresh : alloc_state := mkAlloc 0 0 (fun _ => 0%R).

Definition zeros (s : list nat) : tensor float := full s (Fin 0).

(** A (1, 4, 8) input that is zero except at the last position. *)
Definition bump : tensor float :=
  tabulate [1; 4; 8]%nat
    (fun idx => if (nth 1 idx 0 =? 3)%nat then Fin 1 else Fin 0).

(** Index batches of shape (1, 4) and (1, 9). *)
Definition idx_1_4 : tensor Z := mkTensor [1; 4]%nat [0; 1; 2; 3]%Z.
Definition idx_1_9 : tensor Z :=
  mkTensor [1; 9]%nat [0; 1; 2; 3; 4; 5; 6; 7; 8]%Z.

(** ** The attention computation after line 31 *)

(** Lines 33 to 40, the statements [body] runs after line 31. *)
Definition lines33_40 (self : CausalSelfAttention.t) (B T C : nat)
    (f : gmap string (tensor float)) : result (tensor float) :=
  f ← CausalSelfAttention.line33 f;
  f ← CausalSelfAttention.line34 self T f;
  f ← CausalSelfAttention.line35 f;
  f ← CausalSelfAttention.line36 f;
  f ← CausalSelfAttention.line37 B T C f;
  f ← CausalSelfAttention.line39 self f;
  load f "y".

(** The masked, scaled score of query position [i] and key position
    [j], and the weight the softmax gives it among the [T] positions. *)
Definition masked_score (q k : tensor float) (hs b h i j : nat) : float :=
  if (j <=? i)%nat
  then Fin (dot q k hs b h i j * (1 / sqrt (INR hs)))
  else NInf.

Definition attention_weight (q k : tensor float) (T hs b h i j : nat)
  : float :=
  softmax1 (map (masked_score q k hs b h i) (seq 0 T))
           (masked_score q k hs b h i j).

(** A (1, 2, 4, 4) tensor that is zero except at the last position. *)
Definition late_bump : tensor float :=
  tabulate [1; 2; 4; 4]%nat
    (fun idx => if (nth 2 idx 0 =? 3)%nat then Fin 1 else Fin 0).

(** ** Counting parameters

    The number of scalars in the parameters of a module, as
    [sum(p.numel() for p in module.parameters())] counts them.  A
    buffer is not a parameter. *)

Definition Param_numel (p : Param) : nat := numel (shape (value p)).

Definition Linear_numel (l : nn.Linear) : nat :=
  (Param_numel (nn.weight l)
   + match nn.bias l with Some b => Param_numel b | None => 0 end)%nat.

Definition LayerNorm_numel (l : nn.LayerNorm) : nat :=
  (Param_numel (nn.ln_weight l) + Param_numel (nn.ln_bias l))%nat.

Definition Embedding_numel (e : nn.Embedding) : nat :=
  Param_numel (nn.emb_weight e).

Definition CausalSelfAttention_numel (a : CausalSelfAttention.t) : nat :=
  (Linear_numel (CausalSelfAttention.c_attn a)
   + Linear_numel (CausalSelfAttention.c_proj a))%nat.

Definition MLP_numel (m : MLP.t) : nat :=
  (Linear_numel (MLP.c_fc m) + Linear_numel (MLP.c_proj m))%nat.

Definition Block_numel (b : Block.t) : nat :=
  (LayerNorm_numel (Block.ln_1 b) + CausalSelfAttention_numel (Block.attn b)
   + LayerNorm_numel (Block.ln_2 b) + MLP_numel (Block.mlp b))%nat.

Definition GPT_numel (m : GPT.t) : nat :=
  (Embedding_numel (GPT.wte (GPT.transformer m))
   + Embedding_numel (GPT.wpe (GPT.transformer m))
   + fold_right Nat.add 0%nat (map Block_numel (GPT.h (GPT.transformer m)))
   + LayerNorm_numel (GPT.ln_f (GPT.transformer m))
   + Linear_numel (GPT.lm_head m))%nat.

(** The error [Block(config)] raises, if any: the first failing
    statement of lines 58 to 61 decides. *)
Definition block_error (cfg : GPTConfig.t) : option exn :=
  if (GPTConfig.n_embd cfg <? 0)%Z then Some RuntimeError
  else if (GPTConfig.n_head cfg =? 0)%Z then Some ZeroDivisionError
  else if negb (GPTConfig.n_embd cfg mod GPTConfig.n_head cfg =? 0)%Z
       then Some AssertionError
  else if (GPTConfig.block_size cfg <? 0)%Z then Some RuntimeError
  else None.

(** The error [GPT(config)] raises, if any: the tables of lines 83 and
    84 are allocated before the first block is built. *)
Definition model_error (cfg : GPTConfig.t) : option exn :=
  if ((GPTConfig.vocab_size cfg <? 0) || (GPTConfig.n_embd cfg <? 0)
      || (GPTConfig.block_size cfg <? 0))%Z then Some RuntimeError
  else if (GPTConfig.n_layer cfg <=? 0)%Z then None
  else block_error cfg.

(** ** The ranges in which the idealisations hold *)

(** The library keeps every size and every byte count in a signed 64-bit
    integer and rejects a request outside that range before it
    allocates anything.  [tensor_fits s] says that a request for a
    float32 tensor of sizes [s] is inside the range: every size is, and
    so is the number of bytes, four for each entry. *)
Definition int64b (z : Z) : bool := ((- 2 ^ 63 <=? z) && (z <? 2 ^ 63))%Z.

Definition tensor_fits (s : list Z) : bool :=
  forallb int64b s && int64b (4 * fold_right Z.mul 1 (map Z.abs s))%Z.

(** The largest tensors the constructors request: the weight of
    [c_attn] and the mask for the attention module, the weight of
    [c_fc] in a block, the two tables in the model. *)
Definition attention_fits (cfg : GPTConfig.t) : bool :=
  tensor_fits [3 * GPTConfig.n_embd cfg; GPTConfig.n_embd cfg]%Z
  && tensor_fits [GPTConfig.block_size cfg; GPTConfig.block_size cfg].

Definition block_fits (cfg : GPTConfig.t) : bool :=
  tensor_fits [4 * GPTConfig.n_embd cfg; GPTConfig.n_embd cfg]%Z
  && tensor_fits [GPTConfig.block_size cfg; GPTConfig.block_size cfg].

Definition model_fits (cfg : GPTConfig.t) : bool :=
  tensor_fits [GPTConfig.vocab_size cfg; GPTConfig.n_embd cfg]
  && tensor_fits [GPTConfig.block_size cfg; GPTConfig.n_embd cfg]
  && ((GPTConfig.n_layer cfg <=? 0)%Z || block_fits cfg).

(** The largest finite float32 number, (2 - 2^-23) * 2^127, and the
    unit roundoff 2^-24 of float32 arithmetic. *)
Definition float32_max : R := 340282346638528859811704183484516925440%R.
Definition float32_u : R := (/ 16777216)%R.

(** Every entry of the tensor is a real number of magnitude at most
    [M]. *)
Definition bounded_on (M : R) (t : tensor float) : Prop :=
  forall idx, in_range idx (shape t) ->
    exists r, fget t idx = Fin r /\ (Rabs r <= M)%R.

(** A dot product of [hs] terms, each a product of two numbers of
    magnitude at most [M], stays finite in float32: the exact sum of
    the magnitudes, enlarged by the rounding of [hs] operations, is
    below the largest finite number. *)
Definition dot_fits (hs : nat) (M : R) : Prop :=
  (INR hs * (M * M) * (1 + float32_u) ^ hs <= float32_max)%R.

(** ** The attention computation before line 31 *)

(** Lines 27 to 30, the statements [body] runs before line 31. *)
Definition lines27_30 (self : CausalSelfAttention.t) (B T C : nat)
    (f : gmap string (tensor float))
  : result (gmap string (tensor float)) :=
  f ← CausalSelfAttention.line27 self f;
  f ← CausalSelfAttention.line28 self f;
  f ← CausalSelfAttention.line29 self B T C f;
  CausalSelfAttention.line30 self B T C f.

(** * Properties of the tensor model *)

Section tensor_facts.
Import torch.
Context {A : Type}.
Implicit Types (s idx : list nat) (t : tensor A).

Lemma flat_map_blocks_length {X} (g : nat -> list X) (len a n : nat) :
  (forall k, length (g k) = len) ->
  length (flat_map g (seq a n)) = (n * len)%nat.
Proof.
  intros Hg. revert a. induction n as [|n IH]; intros a; simpl; [done|].
  rewrite length_app, Hg, IH. lia.
Qed.

Lemma flat_map_blocks_nth {X} (g : nat -> list X) (len a n i j : nat) (d : X) :
  (forall k, length (g k) = len) ->
  (i < n)%nat -> (j < len)%nat ->
  nth (i * len + j) (flat_map g (seq a n)) d = nth j (g (a + i)%nat) d.
Proof.
  intros Hg. revert a i. induction n as [|n IH]; intros a i Hi Hj; [lia|].
  simpl. destruct i as [|i].
  - rewrite app_nth1 by (rewrite Hg; lia).
    simpl. by rewrite Nat.add_0_r.
  - rewrite app_nth2 by (rewrite Hg; lia).
    rewrite Hg.
    replace (S i * len + j - len)%nat with (i * len + j)%nat by lia.
    rewrite IH by lia. f_equal. f_equal. lia.
Qed.

Lemma length_indices s : length (indices s) = numel s.
Proof.
  induction s as [|d s IH]; [done|]. simpl.
  rewrite (flat_map_blocks_length _ (numel s)); [done|].
  intros k. by rewrite length_map.
Qed.

Lemma ravel_lt s idx : in_range idx s -> (ravel s idx < numel s)%nat.
Proof.
  unfold in_range. intros H. induction H as [|i d idx s Hi _ IH]; simpl; [lia|].
  nia.
Qed.

Lemma nth_indices s idx :
  in_range idx s -> nth (ravel s idx) (indices s) [] = idx.
Proof.
  unfold in_range. intros H.
  induction H as [|i d idx s Hi Hr IH]; [done|]. simpl.
  rewrite (flat_map_blocks_nth _ (numel s)).
  - simpl. rewrite (nth_indep _ [] (i :: [])).
    + change (i :: []) with (cons i []). rewrite map_nth. by rewrite IH.
    + rewrite length_map, length_indices. by apply ravel_lt.
  - intros k. by rewrite length_map, length_indices.
  - done.
  - by apply ravel_lt.
Qed.

(** Reading a tabulated tensor inside its shape gives the tabulated
    function. *)
Lemma get_tabulate (d : A) s (f : list nat -> A) idx :
  in_range idx s -> get d (tabulate s f) idx = f idx.
Proof.
  intros H. unfold get, tabulate. simpl.
  rewrite (nth_indep _ d (f [])).
  - rewrite map_nth. by rewrite nth_indices.
  - rewrite length_map, length_indices. by apply ravel_lt.
Qed.

Lemma wf_tabulate s (f : list nat -> A) : wf (tabulate s f).
Proof. unfold wf. simpl. by rewrite length_map, length_indices. Qed.
End tensor_facts.

(** * Shapes through the library calls *)

Section shape_facts.
Import torch.

Lemma check_sizes_ok (dims : list Z) :
  Forall (fun d => 0 <= d)%Z dims -> check_sizes dims = Ok (map Z.to_nat dims).
Proof.
  intros H. unfold check_sizes.
  replace (forallb _ dims) with true; [done|].
  symmetry. apply forallb_forall. intros d Hd.
  rewrite Forall_forall in H. apply Z.leb_le, H.
  by apply list_elem_of_In.
Qed.

Lemma check_sizes_neg (dims : list Z) :
  Exists (fun d => d < 0)%Z dims -> check_sizes dims = Err RuntimeError.
Proof.
  intros H. unfold check_sizes.
  destruct (forallb _ dims) eqn:E; [|done].
  rewrite forallb_forall in E. apply Exists_exists in H as (d & Hd & Hlt).
  apply list_elem_of_In, E, Z.leb_le in Hd. lia.
Qed.

(** A view with non-negative sizes whose product is the number of
    elements succeeds and keeps the data. *)
Lemma view_ok {A} (t : tensor A) (dims : list Z) :
  Forall (fun d => 0 <= d)%Z dims ->
  numel (map Z.to_nat dims) = numel (shape t) ->
  view t dims = Ok (mkTensor (map Z.to_nat dims) (data t)).
Proof.
  intros Hpos Hn. unfold view.
  assert (List.existsb (fun d => (d <? -1)%Z) dims = false) as ->.
  { apply not_true_is_false. intros (d & Hd & Hlt)%existsb_exists.
    rewrite Forall_forall in Hpos. apply list_elem_of_In, Hpos in Hd. lia. }
  assert (List.filter (fun d => (d =? -1)%Z) dims = []) as ->.
  { clear Hn. induction Hpos as [|d l Hd _ IH]; [done|]. simpl.
    destruct (Z.eqb_spec d (-1)); [lia | exact IH]. }
  assert (List.filter (fun d => negb (d =? -1)%Z) dims = dims) as ->.
  { clear Hn. induction Hpos as [|d l Hd _ IH]; [done|]. simpl.
    destruct (Z.eqb_spec d (-1)); [lia |]. simpl. by rewrite IH. }
  simpl. by rewrite Hn, Nat.eqb_refl.
Qed.
End shape_facts.

(** * Construction *)

Ltac seq_eq :=
  repeat match goal with
         | |- _ ++ _ = _ ++ _ => f_equal
         | |- seq _ _ = seq _ _ => f_equal; lia
         | |- _ :: _ = _ :: _ => f_equal; try lia
         end;
  try done.

Section construction_facts.
Import torch.

Lemma check_sizes_spec (dims : list Z) :
  match check_sizes dims with
  | Ok s => Forall (fun d => 0 <= d)%Z dims /\ s = map Z.to_nat dims
  | Err e => e = RuntimeError /\ Exists (fun d => d < 0)%Z dims
  end.
Proof.
  unfold check_sizes. induction dims as [|d dims IH]; simpl; [by split|].
  destruct (Z.leb_spec 0 d); simpl.
  - destruct (forallb _ dims).
    + destruct IH as [IH _]. split; [by constructor | done].
    + destruct IH as [_ IH]. split; [done | by right].
  - split; [done | by left].
Qed.

Lemma random_parameter_spec (dims : list Z) (st : alloc_state) :
  match random_parameter dims st with
  | Ok (p, st') =>
      Forall (fun d => 0 <= d)%Z dims /\
      pid p = next_id st /\
      shape (value p) = map Z.to_nat dims /\
      wf (value p) /\
      next_id st' = S (next_id st)
  | Err e => e = RuntimeError /\ Exists (fun d => d < 0)%Z dims
  end.
Proof.
  unfold random_parameter.
  pose proof (check_sizes_spec dims) as H.
  destruct (check_sizes dims) as [s|e]; [|done].
  destruct H as [H ->]. repeat split; [done|].
  unfold wf. simpl. by rewrite length_map, length_seq.
Qed.

Lemma constant_parameter_spec (dims : list Z) (v : float) (st : alloc_state) :
  match constant_parameter dims v st with
  | Ok (p, st') =>
      Forall (fun d => 0 <= d)%Z dims /\
      pid p = next_id st /\
      value p = full (map Z.to_nat dims) v /\
      next_id st' = S (next_id st)
  | Err e => e = RuntimeError /\ Exists (fun d => d < 0)%Z dims
  end.
Proof.
  unfold constant_parameter.
  pose proof (check_sizes_spec dims) as H.
  destruct (check_sizes dims) as [s|e]; [|done].
  by destruct H as [H ->].
Qed.

Lemma Linear_init_spec (i o : Z) (b : bool) (st : alloc_state) :
  match nn.Linear_init i o b st with
  | Ok (l, st') =>
      (0 <= i)%Z /\ (0 <= o)%Z /\
      nn.in_features l = i /\ nn.out_features l = o /\
      shape (value (nn.weight l)) = [Z.to_nat o; Z.to_nat i] /\
      (if b then exists p, nn.bias l = Some p /\ shape (value p) = [Z.to_nat o]
       else nn.bias l = None) /\
      Linear_parameters l = seq (next_id st) (if b then 2 else 1) /\
      next_id st' = (next_id st + (if b then 2 else 1))%nat
  | Err e => e = RuntimeError /\ ((i < 0)%Z \/ (o < 0)%Z)
  end.
Proof.
  unfold nn.Linear_init. unfold mbind at 1. unfold M_bind.
  pose proof (random_parameter_spec [o; i] st) as Hw.
  destruct (random_parameter [o; i] st) as [[w st1]|e].
  2:{ destruct Hw as [-> Hw]. split; [done|].
      apply Exists_cons in Hw as [?|Hw]; [by right|].
      apply Exists_cons in Hw as [?|Hw]; [by left|]. by apply Exists_nil in Hw. }
  destruct Hw as (Hpos & Hid & Hsh & _ & Hn).
  apply Forall_cons in Hpos as [Ho Hpos]. apply Forall_cons in Hpos as [Hi _].
  destruct b.
  - unfold mbind at 1. unfold M_bind. unfold mbind at 1. unfold M_bind.
    pose proof (random_parameter_spec [o] st1) as Hb.
    destruct (random_parameter [o] st1) as [[p st2]|e].
    2:{ destruct Hb as [_ Hb]. apply Exists_cons in Hb as [?|Hb]; [lia|].
        by apply Exists_nil in Hb. }
    destruct Hb as (_ & Hid' & Hsh' & _ & Hn').
    simpl. repeat split; try done.
    + by exists p.
    + unfold Linear_parameters. simpl. by rewrite Hid, Hid', Hn.
    + lia.
  - simpl. repeat split; try done.
    + unfold Linear_parameters. simpl. by rewrite Hid.
    + lia.
Qed.

Lemma LayerNorm_init_spec (n : Z) (st : alloc_state) :
  match nn.LayerNorm_init n st with
  | Ok (l, st') =>
      (0 <= n)%Z /\
      nn.normalized_shape l = n /\
      value (nn.ln_weight l) = full [Z.to_nat n] (Fin 1) /\
      value (nn.ln_bias l) = full [Z.to_nat n] (Fin 0) /\
      LayerNorm_parameters l = seq (next_id st) 2 /\
      next_id st' = (next_id st + 2)%nat
  | Err e => e = RuntimeError /\ (n < 0)%Z
  end.
Proof.
  unfold nn.LayerNorm_init, mbind, M_bind, mret, M_ret.
  pose proof (constant_parameter_spec [n] (Fin 1) st) as Hw.
  destruct (constant_parameter [n] (Fin 1) st) as [[w st1]|e].
  2:{ destruct Hw as [-> Hw]. split; [done|].
      apply Exists_cons in Hw as [?|Hw]; [done|]. by apply Exists_nil in Hw. }
  destruct Hw as (Hpos & Hid & Hv & Hn).
  apply Forall_cons in Hpos as [Hpos _].
  pose proof (constant_parameter_spec [n] (Fin 0) st1) as Hb.
  destruct (constant_parameter [n] (Fin 0) st1) as [[b st2]|e].
  2:{ destruct Hb as [_ Hb]. apply Exists_cons in Hb as [?|Hb]; [lia|].
      by apply Exists_nil in Hb. }
  destruct Hb as (_ & Hid' & Hv' & Hn').
  simpl. repeat split; try done.
  - unfold LayerNorm_parameters. simpl. by rewrite Hid, Hid', Hn.
  - lia.
Qed.

Lemma Embedding_init_spec (num dim : Z) (st : alloc_state) :
  match nn.Embedding_init num dim st with
  | Ok (e, st') =>
      (0 <= num)%Z /\ (0 <= dim)%Z /\
      nn.num_embeddings e = num /\ nn.embedding_dim e = dim /\
      shape (value (nn.emb_weight e)) = [Z.to_nat num; Z.to_nat dim] /\
      Embedding_parameters e = [next_id st] /\
      next_id st' = S (next_id st)
  | Err e => e = RuntimeError /\ ((num < 0)%Z \/ (dim < 0)%Z)
  end.
Proof.
  unfold nn.Embedding_init, mbind, M_bind, mret, M_ret.
  pose proof (random_parameter_spec [num; dim] st) as Hw.
  destruct (random_parameter [num; dim] st) as [[w st1]|e].
  2:{ destruct Hw as [-> Hw]. split; [done|].
      apply Exists_cons in Hw as [?|Hw]; [by left|].
      apply Exists_cons in Hw as [?|Hw]; [by right|]. by apply Exists_nil in Hw. }
  destruct Hw as (Hpos & Hid & Hsh & _ & Hn).
  apply Forall_cons in Hpos as [Ho Hpos]. apply Forall_cons in Hpos as [Hi _].
  simpl. repeat split; try done.
  unfold Embedding_parameters. simpl. by rewrite Hid.
Qed.

Lemma mask_buffer_ok (bs : Z) :
  (0 <= bs)%Z ->
  (o ← ones [bs; bs]; l ← tril o; view l [1; 1; bs; bs]%Z)
  = Ok (mask_buffer (Z.to_nat bs)).
Proof.
  intros Hbs. unfold ones. rewrite check_sizes_ok by (repeat constructor; lia).
  cbn [mbind result_bind map]. unfold tril.
  cbn [shape full tabulate length Nat.ltb Nat.leb mbind result_bind].
  rewrite view_ok; [done | repeat constructor; lia |].
  simpl. lia.
Qed.

Lemma mask_buffer_neg (bs : Z) :
  (bs < 0)%Z ->
  (o ← ones [bs; bs]; l ← tril o; view l [1; 1; bs; bs]%Z)
  = Err RuntimeError.
Proof.
  intros Hbs. unfold ones. by rewrite check_sizes_neg by (left; lia).
Qed.

Lemma CausalSelfAttention_init_spec (cfg : GPTConfig.t) (st : alloc_state) :
  let nh := GPTConfig.n_head cfg in
  let ne := GPTConfig.n_embd cfg in
  let bs := GPTConfig.block_size cfg in
  match CausalSelfAttention.init cfg st with
  | Ok (a, st') =>
      nh <> 0%Z /\ (ne mod nh = 0)%Z /\ (0 <= ne)%Z /\ (0 <= bs)%Z /\
      CausalSelfAttention.n_head a = nh /\
      CausalSelfAttention.n_embd a = ne /\
      shape (value (nn.weight (CausalSelfAttention.c_attn a)))
        = [Z.to_nat (3 * ne); Z.to_nat ne] /\
      (exists p, nn.bias (CausalSelfAttention.c_attn a) = Some p /\
                 shape (value p) = [Z.to_nat (3 * ne)]) /\
      shape (value (nn.weight (CausalSelfAttention.c_proj a)))
        = [Z.to_nat ne; Z.to_nat ne] /\
      (exists p, nn.bias (CausalSelfAttention.c_proj a) = Some p /\
                 shape (value p) = [Z.to_nat ne]) /\
      CausalSelfAttention.bias a = mask_buffer (Z.to_nat bs) /\
      CausalSelfAttention_parameters a = seq (next_id st) 4 /\
      next_id st' = (next_id st + 4)%nat
  | Err e =>
      (nh = 0%Z /\ e = ZeroDivisionError) \/
      (nh <> 0%Z /\ (ne mod nh)%Z <> 0%Z /\ e = AssertionError) \/
      (nh <> 0%Z /\ (ne mod nh = 0)%Z /\ ((ne < 0)%Z \/ (bs < 0)%Z) /\
       e = RuntimeError)
  end.
Proof.
  intros nh ne bs.
  unfold CausalSelfAttention.init. fold nh ne bs.
  assert (exists r, (o ← ones [bs; bs]; l ← tril o; view l [1; 1; bs; bs]%Z) = r
            /\ if Z_lt_dec bs 0 then r = Err RuntimeError
               else r = Ok (mask_buffer (Z.to_nat bs))) as (r & -> & Hr).
  { eexists. split; [done|]. destruct (Z_lt_dec bs 0).
    - by apply mask_buffer_neg.
    - apply mask_buffer_ok. lia. }
  unfold mbind, M_bind, mret, M_ret, lift, py_mod.
  destruct (Z.eqb_spec nh 0) as [Hnh|Hnh]; [by left|].
  unfold py_assert. destruct (Z.eqb_spec (ne mod nh) 0) as [Hmod|Hmod].
  2:{ right. by left. }
  pose proof (Linear_init_spec ne (3 * ne) true st) as H1.
  destruct (nn.Linear_init ne (3 * ne) true st) as [[l1 st1]|e].
  2:{ destruct H1 as [-> H1]. right. right. repeat split; try done. left. lia. }
  destruct H1 as (Hne & _ & _ & _ & Hw1 & Hb1 & Hp1 & Hn1).
  pose proof (Linear_init_spec ne ne true st1) as H2.
  destruct (nn.Linear_init ne ne true st1) as [[l2 st2]|e].
  2:{ destruct H2 as [_ H2]. lia. }
  destruct H2 as (_ & _ & _ & _ & Hw2 & Hb2 & Hp2 & Hn2).
  destruct (Z_lt_dec bs 0) as [Hbs|Hbs]; subst r.
  { right. right. repeat split; try done. by right. }
  unfold CausalSelfAttention_parameters.
  cbn [CausalSelfAttention.c_attn CausalSelfAttention.c_proj
       CausalSelfAttention.n_head CausalSelfAttention.n_embd
       CausalSelfAttention.bias].
  repeat split; try done; try lia.
  rewrite Hp1, Hp2, Hn1. simpl. repeat f_equal; lia.
Qed.

Lemma MLP_init_spec (cfg : GPTConfig.t) (st : alloc_state) :
  let ne := GPTConfig.n_embd cfg in
  match MLP.init cfg st with
  | Ok (m, st') =>
      (0 <= ne)%Z /\
      nn.in_features (MLP.c_fc m) = ne /\
      nn.out_features (MLP.c_fc m) = (4 * ne)%Z /\
      nn.in_features (MLP.c_proj m) = (4 * ne)%Z /\
      nn.out_features (MLP.c_proj m) = ne /\
      shape (value (nn.weight (MLP.c_fc m)))
        = [Z.to_nat (4 * ne); Z.to_nat ne] /\
      shape (value (nn.weight (MLP.c_proj m)))
        = [Z.to_nat ne; Z.to_nat (4 * ne)] /\
      nn.approximate (MLP.gelu m) = "none" /\
      MLP_parameters m = seq (next_id st) 4 /\
      next_id st' = (next_id st + 4)%nat
  | Err e => e = RuntimeError /\ (ne < 0)%Z
  end.
Proof.
  intros ne. unfold MLP.init, mbind, M_bind, mret, M_ret. fold ne.
  pose proof (Linear_init_spec ne (4 * ne) true st) as H1.
  destruct (nn.Linear_init ne (4 * ne) true st) as [[l1 st1]|e].
  2:{ destruct H1 as [-> H1]. split; [done | lia]. }
  destruct H1 as (Hne & _ & Hi1 & Ho1 & Hw1 & _ & Hp1 & Hn1).
  pose proof (Linear_init_spec (4 * ne) ne true st1) as H2.
  destruct (nn.Linear_init (4 * ne) ne true st1) as [[l2 st2]|e].
  2:{ destruct H2 as [_ H2]. lia. }
  destruct H2 as (_ & _ & Hi2 & Ho2 & Hw2 & _ & Hp2 & Hn2).
  unfold MLP_parameters. cbn [MLP.c_fc MLP.c_proj MLP.gelu nn.approximate].
  repeat split; try done; try lia.
  rewrite Hp1, Hp2, Hn1. simpl. repeat f_equal; lia.
Qed.

Lemma Block_init_spec (cfg : GPTConfig.t) (st : alloc_state) :
  match Block.init cfg st with
  | Ok (b, st') =>
      (exists st1 st2,
          nn.LayerNorm_init (GPTConfig.n_embd cfg) st = Ok (Block.ln_1 b, st1) /\
          CausalSelfAttention.init cfg st1 = Ok (Block.attn b, st2)) /\
      (exists st1 st2,
          nn.LayerNorm_init (GPTConfig.n_embd cfg) st1 = Ok (Block.ln_2 b, st2) /\
          MLP.init cfg st2 = Ok (Block.mlp b, st')) /\
      Block_parameters b = seq (next_id st) 12 /\
      next_id st' = (next_id st + 12)%nat
  | Err e => bad_block_config cfg
  end.
Proof.
  unfold Block.init, mbind, M_bind, mret, M_ret, bad_block_config.
  pose proof (LayerNorm_init_spec (GPTConfig.n_embd cfg) st) as H1.
  destruct (nn.LayerNorm_init _ st) as [[l1 st1]|e] eqn:E1; [|left; apply H1].
  destruct H1 as (Hne & _ & _ & _ & Hp1 & Hn1).
  pose proof (CausalSelfAttention_init_spec cfg st1) as H2. cbv zeta in H2.
  destruct (CausalSelfAttention.init cfg st1) as [[a st2]|e] eqn:E2.
  2:{ destruct H2 as [[? _]|[(_ & ? & _)|(_ & _ & [?|?] & _)]]; tauto. }
  destruct H2 as (_ & _ & _ & _ & _ & _ & _ & _ & _ & _ & _ & Hp2 & Hn2).
  pose proof (LayerNorm_init_spec (GPTConfig.n_embd cfg) st2) as H3.
  destruct (nn.LayerNorm_init _ st2) as [[l2 st3]|e] eqn:E3; [|lia].
  destruct H3 as (_ & _ & _ & _ & Hp3 & Hn3).
  pose proof (MLP_init_spec cfg st3) as H4. cbv zeta in H4.
  destruct (MLP.init cfg st3) as [[m st4]|e] eqn:E4; [|lia].
  destruct H4 as (_ & _ & _ & _ & _ & _ & _ & _ & Hp4 & Hn4).
  unfold Block_parameters. cbn [Block.ln_1 Block.attn Block.ln_2 Block.mlp].
  split; [by exists st1, st2|]. split; [by exists st2, st3|].
  split; [|lia].
  rewrite Hp1, Hp2, Hp3, Hp4, Hn1, Hn2, Hn3.
  replace 12%nat with (2 + (4 + (2 + 4)))%nat by done.
  rewrite !seq_app. seq_eq.
Qed.

Lemma blocks_spec (cfg : GPTConfig.t) (n : nat) (st : alloc_state) :
  match GPT.blocks cfg n st with
  | Ok (bs, st') =>
      length bs = n /\
      Forall (fun b => exists st1 st2, Block.init cfg st1 = Ok (b, st2)) bs /\
      flat_map Block_parameters bs = seq (next_id st) (12 * n) /\
      next_id st' = (next_id st + 12 * n)%nat
  | Err e => n <> 0%nat /\ bad_block_config cfg
  end.
Proof.
  revert st. induction n as [|n IH]; intros st.
  { simpl. unfold mret, M_ret. repeat split; [by constructor | lia]. }
  cbn [GPT.blocks]. unfold mbind, M_bind, mret, M_ret.
  pose proof (Block_init_spec cfg st) as H1.
  destruct (Block.init cfg st) as [[b st1]|e] eqn:E1; [|by split].
  destruct H1 as (_ & _ & Hp1 & Hn1).
  specialize (IH st1).
  destruct (GPT.blocks cfg n st1) as [[bs st2]|e]; [|split; [done|tauto]].
  destruct IH as (Hlen & Hall & Hp & Hn).
  repeat split.
  - simpl. by rewrite Hlen.
  - constructor; [by exists st, st1 | done].
  - cbn [flat_map]. rewrite Hp1, Hp, Hn1.
    replace (12 * S n)%nat with (12 + 12 * n)%nat by lia.
    by rewrite seq_app.
  - lia.
Qed.

Lemma GPT_init_spec (cfg : GPTConfig.t) (st : alloc_state) :
  let nl := Z.to_nat (GPTConfig.n_layer cfg) in
  match GPT.init cfg st with
  | Ok (m, st') =>
      GPT.config m = cfg /\
      shape (value (nn.emb_weight (GPT.wte (GPT.transformer m))))
        = [Z.to_nat (GPTConfig.vocab_size cfg); Z.to_nat (GPTConfig.n_embd cfg)] /\
      shape (value (nn.emb_weight (GPT.wpe (GPT.transformer m))))
        = [Z.to_nat (GPTConfig.block_size cfg); Z.to_nat (GPTConfig.n_embd cfg)] /\
      length (GPT.h (GPT.transformer m)) = nl /\
      Forall (fun b => exists st1 st2, Block.init cfg st1 = Ok (b, st2))
             (GPT.h (GPT.transformer m)) /\
      nn.normalized_shape (GPT.ln_f (GPT.transformer m)) = GPTConfig.n_embd cfg /\
      shape (value (nn.weight (GPT.lm_head m)))
        = [Z.to_nat (GPTConfig.vocab_size cfg); Z.to_nat (GPTConfig.n_embd cfg)] /\
      nn.in_features (GPT.lm_head m) = GPTConfig.n_embd cfg /\
      nn.out_features (GPT.lm_head m) = GPTConfig.vocab_size cfg /\
      nn.bias (GPT.lm_head m) = None /\
      GPT_parameters m = seq (next_id st) (5 + 12 * nl) /\
      next_id st' = (next_id st + (5 + 12 * nl))%nat
  | Err e =>
      (GPTConfig.vocab_size cfg < 0)%Z \/ (GPTConfig.n_embd cfg < 0)%Z \/
      (GPTConfig.block_size cfg < 0)%Z \/
      (nl <> 0%nat /\ bad_block_config cfg)
  end.
Proof.
  intros nl. unfold GPT.init, mbind, M_bind, mret, M_ret. fold nl.
  pose proof (Embedding_init_spec (GPTConfig.vocab_size cfg)
                (GPTConfig.n_embd cfg) st) as H1.
  destruct (nn.Embedding_init _ _ st) as [[e1 st1]|e]; [|tauto].
  destruct H1 as (Hv & Hne & _ & _ & Hs1 & Hp1 & Hn1).
  pose proof (Embedding_init_spec (GPTConfig.block_size cfg)
                (GPTConfig.n_embd cfg) st1) as H2.
  destruct (nn.Embedding_init _ _ st1) as [[e2 st2]|e]; [|tauto].
  destruct H2 as (Hbs & _ & _ & _ & Hs2 & Hp2 & Hn2).
  pose proof (blocks_spec cfg nl st2) as H3.
  destruct (GPT.blocks cfg nl st2) as [[bs st3]|e]; [|tauto].
  destruct H3 as (Hlen & Hall & Hp3 & Hn3).
  pose proof (LayerNorm_init_spec (GPTConfig.n_embd cfg) st3) as H4.
  destruct (nn.LayerNorm_init _ st3) as [[l st4]|e]; [|lia].
  destruct H4 as (_ & Hns & _ & _ & Hp4 & Hn4).
  pose proof (Linear_init_spec (GPTConfig.n_embd cfg)
                (GPTConfig.vocab_size cfg) false st4) as H5.
  destruct (nn.Linear_init _ _ false st4) as [[lm st5]|e]; [|lia].
  destruct H5 as (_ & _ & Hi5 & Ho5 & Hw5 & Hb5 & Hp5 & Hn5).
  unfold GPT_parameters.
  cbn [GPT.config GPT.transformer GPT.lm_head GPT.wte GPT.wpe GPT.h GPT.ln_f].
  repeat split; try done; try lia.
  rewrite Hp1, Hp2, Hp3, Hp4, Hp5, Hn4, Hn3, Hn2, Hn1.
  replace (5 + 12 * nl)%nat with (1 + (1 + (12 * nl + (2 + 1))))%nat by lia.
  rewrite !seq_app. simpl. seq_eq.
Qed.

(** Construction succeeds on sound configurations. *)
Lemma CausalSelfAttention_init_ok (cfg : GPTConfig.t) (st : alloc_state) :
  GPTConfig.n_head cfg <> 0%Z ->
  (GPTConfig.n_embd cfg mod GPTConfig.n_head cfg = 0)%Z ->
  (0 <= GPTConfig.n_embd cfg)%Z -> (0 <= GPTConfig.block_size cfg)%Z ->
  exists self st', CausalSelfAttention.init cfg st = Ok (self, st').
Proof.
  intros Hnh Hmod Hne Hbs.
  pose proof (CausalSelfAttention_init_spec cfg st) as Hs. cbv zeta in Hs.
  destruct (CausalSelfAttention.init cfg st) as [[self st']|e].
  - by exists self, st'.
  - exfalso.
    destruct Hs as [[? _]|[(_ & ? & _)|(_ & _ & [?|?] & _)]];
      first [done | lia].
Qed.

Lemma MLP_init_ok (cfg : GPTConfig.t) (st : alloc_state) :
  (0 <= GPTConfig.n_embd cfg)%Z ->
  exists self st', MLP.init cfg st = Ok (self, st').
Proof.
  intros Hne. pose proof (MLP_init_spec cfg st) as Hs. cbv zeta in Hs.
  destruct (MLP.init cfg st) as [[self st']|e].
  - by exists self, st'.
  - exfalso. lia.
Qed.

Lemma Block_init_ok (cfg : GPTConfig.t) (st : alloc_state) :
  ~ bad_block_config cfg ->
  exists self st', Block.init cfg st = Ok (self, st').
Proof.
  intros Hgood. pose proof (Block_init_spec cfg st) as Hs.
  destruct (Block.init cfg st) as [[self st']|e]; [by exists self, st' | done].
Qed.

Lemma small_config_good : ~ bad_block_config small_config.
Proof.
  unfold bad_block_config, small_config. simpl.
  intros [?|[?|[?|?]]]; first [done | lia].
Qed.

(** The outcome of constructing the attention module, case by case:
    line 10 decides first, the allocations after it. *)
Lemma attention_construction_cases (cfg : GPTConfig.t) (st : alloc_state) :
  let nh := GPTConfig.n_head cfg in
  let ne := GPTConfig.n_embd cfg in
  let bs := GPTConfig.block_size cfg in
  (nh = 0%Z -> CausalSelfAttention.init cfg st = Err ZeroDivisionError) /\
  (nh <> 0%Z -> ~ (nh | ne)%Z ->
   CausalSelfAttention.init cfg st = Err AssertionError) /\
  (nh <> 0%Z -> (nh | ne)%Z -> (ne < 0)%Z \/ (bs < 0)%Z ->
   CausalSelfAttention.init cfg st = Err RuntimeError) /\
  (nh <> 0%Z -> (nh | ne)%Z -> (0 <= ne)%Z -> (0 <= bs)%Z ->
   exists self st', CausalSelfAttention.init cfg st = Ok (self, st')).
Proof.
  intros nh ne bs.
  pose proof (CausalSelfAttention_init_spec cfg st) as Hs. cbv zeta in Hs.
  fold nh ne bs in Hs.
  assert (nh <> 0%Z -> ((nh | ne)%Z <-> (ne mod nh = 0)%Z)) as Hdiv.
  { intros Hnh. symmetry. by apply Z.mod_divide. }
  destruct (CausalSelfAttention.init cfg st) as [[self st']|e].
  - destruct Hs as (Hnh & Hmod & Hne & Hbs & _).
    repeat split; intros; first [done | lia | idtac].
    + exfalso. apply Hdiv in Hmod; done.
    + by exists self, st'.
  - repeat split.
    + intros Hnh. destruct Hs as [[_ ->]|[(? & _)|(? & _)]]; done.
    + intros Hnh Hnd.
      destruct Hs as [[? _]|[(_ & _ & ->)|(_ & Hmod & _)]]; [done|done|].
      exfalso. by apply Hnd, Hdiv.
    + intros Hnh Hd _.
      destruct Hs as [[? _]|[(_ & Hmod & _)|(_ & _ & _ & ->)]]; [done| |done].
      exfalso. by apply Hmod, Hdiv.
    + intros Hnh Hd Hne Hbs. exfalso.
      destruct Hs as [[? _]|[(_ & Hmod & _)|(_ & _ & [?|?] & _)]];
        [done| |lia|lia].
      by apply Hmod, Hdiv.
Qed.
End construction_facts.

(** * The attention forward pass *)

Section attention_facts.
Import torch.
Implicit Type f : gmap string (tensor float).

Lemma linear_ok (x W : tensor float) (b : option (tensor float))
    (pre : list nat) (inn out : nat) :
  shape W = [out; inn] ->
  shape x = pre ++ [inn] ->
  linear x W b = Ok (tabulate (pre ++ [out]) (linear_at x W b inn)).
Proof.
  intros HW Hx. unfold linear. rewrite HW, Hx, rev_app_distr. simpl.
  by rewrite Nat.eqb_refl, rev_involutive.
Qed.

(** Splitting a dimension of size [k * sz] into pieces of size [sz]
    gives [k] pieces, each of size [sz]. *)
Lemma split_even {A} (dflt : A) (t : tensor A) (dim : Z) (d k sz : nat) :
  wrap_dim (length (shape t)) dim = Ok d ->
  nth d (shape t) 0%nat = (k * sz)%nat ->
  (0 < sz)%nat -> (0 < k)%nat ->
  split dflt t (Z.of_nat sz) dim
  = Ok (map (fun j => narrow dflt t d (j * sz) sz) (seq 0 k)).
Proof.
  intros Hd Hn Hsz Hk. unfold split. rewrite Hd. cbn [mbind result_bind].
  rewrite Hn.
  destruct (Z.ltb_spec (Z.of_nat sz) 0); [lia|].
  destruct (Z.eqb_spec (Z.of_nat sz) 0); [lia|]. cbn [andb].
  rewrite Nat2Z.id.
  destruct (Nat.eqb_spec sz 0); [lia|].
  assert ((k * sz + sz - 1) / sz = k)%nat as ->.
  { symmetry. apply (Nat.div_unique _ _ _ (sz - 1)); [lia | nia]. }
  rewrite Nat.max_l by lia.
  f_equal. apply map_ext_in. intros j Hj%in_seq.
  f_equal. nia.
Qed.

Lemma load_bound f (name : string) (t : tensor float) :
  f !! name = Some t -> load f name = Ok t.
Proof. intros H. unfold load. by rewrite H. Qed.

Lemma load_unbound f (name : string) :
  f !! name = None -> load f name = Err (UnboundLocalError name).
Proof. intros H. unfold load. by rewrite H. Qed.

(** Line 31 reads [v]; in a frame that does not bind it the statement
    raises. *)
Lemma line31_unbound (self : CausalSelfAttention.t) (B T C : nat) f :
  f !! "v" = None ->
  CausalSelfAttention.line31 self B T C f = Err (UnboundLocalError "v").
Proof.
  intros H. unfold CausalSelfAttention.line31, CausalSelfAttention.heads.
  by rewrite (load_unbound _ _ H).
Qed.

Lemma bind_Ok_inv {X Y} (m : result X) (k : X -> result Y) (y : Y) :
  m ≫= k = Ok y -> exists x, m = Ok x /\ k x = Ok y.
Proof. destruct m as [x|e]; [|done]. intros H. by exists x. Qed.

Lemma line27_inv (self : CausalSelfAttention.t) f f' :
  CausalSelfAttention.line27 self f = Ok f' ->
  exists t, f' = <["qkv" := t]> f.
Proof.
  intros (t & _ & H)%bind_Ok_inv. exists t. by injection H.
Qed.

Lemma line28_inv (self : CausalSelfAttention.t) f f' :
  CausalSelfAttention.line28 self f = Ok f' ->
  exists p0 p1 p2, f' = <["c" := p2]> (<["k" := p1]> (<["q" := p0]> f)).
Proof.
  intros (parts & _ & H)%bind_Ok_inv.
  destruct parts as [|p0 [|p1 [|p2 [|]]]]; try done.
  exists p0, p1, p2. by injection H.
Qed.

Lemma line29_inv (self : CausalSelfAttention.t) (B T C : nat) f f' :
  CausalSelfAttention.line29 self B T C f = Ok f' ->
  exists t, f' = <["k" := t]> f.
Proof.
  intros (t & _ & H)%bind_Ok_inv. exists t. by injection H.
Qed.

Lemma line30_inv (self : CausalSelfAttention.t) (B T C : nat) f f' :
  CausalSelfAttention.line30 self B T C f = Ok f' ->
  exists t, f' = <["q" := t]> f.
Proof.
  intros (t & _ & H)%bind_Ok_inv. exists t. by injection H.
Qed.

(** Whatever the module and the input are, [forward] raises: when
    lines 27 to 30 succeed they have bound [qkv], [q], [k] and [c],
    and line 31 reads [v]. *)
Lemma forward_raises (self : CausalSelfAttention.t) (x : tensor float) :
  exists e, CausalSelfAttention.forward self x = Err e.
Proof.
  unfold CausalSelfAttention.forward.
  destruct (shape x) as [|B [|T [|C [|]]]]; try by eexists.
  unfold CausalSelfAttention.body.
  destruct (CausalSelfAttention.line27 self _) as [f1|e] eqn:E1; [|by eexists].
  apply line27_inv in E1 as [t1 ->]. cbn [mbind result_bind].
  destruct (CausalSelfAttention.line28 self _) as [f2|e] eqn:E2; [|by eexists].
  apply line28_inv in E2 as (p0 & p1 & p2 & ->). cbn [mbind result_bind].
  destruct (CausalSelfAttention.line29 self B T C _) as [f3|e] eqn:E3;
    [|by eexists].
  apply line29_inv in E3 as [t3 ->]. cbn [mbind result_bind].
  destruct (CausalSelfAttention.line30 self B T C _) as [f4|e] eqn:E4;
    [|by eexists].
  apply line30_inv in E4 as [t4 ->]. cbn [mbind result_bind].
  rewrite line31_unbound; [by eexists|].
  by rewrite !lookup_insert_ne.
Qed.

Lemma heads_ok (self : CausalSelfAttention.t) (B T C : nat) f
    (name : string) (a : tensor float) :
  f !! name = Some a ->
  shape a = [B; T; C] ->
  (0 < CausalSelfAttention.n_head self)%Z ->
  (Z.of_nat C mod CausalSelfAttention.n_head self = 0)%Z ->
  exists t,
    CausalSelfAttention.heads self B T C f name = Ok t /\
    shape t = [B; Z.to_nat (CausalSelfAttention.n_head self); T;
               Z.to_nat (Z.of_nat C / CausalSelfAttention.n_head self)].
Proof.
  intros Hf Ha Hnh Hmod. unfold CausalSelfAttention.heads.
  rewrite (load_bound _ _ _ Hf). cbn [mbind result_bind].
  unfold py_floordiv.
  destruct (Z.eqb_spec (CausalSelfAttention.n_head self) 0); [lia|].
  cbn [mbind result_bind].
  set (nh := CausalSelfAttention.n_head self) in *.
  assert (0 <= Z.of_nat C / nh)%Z by (apply Z.div_pos; lia).
  rewrite view_ok.
  - cbn [mbind result_bind]. eexists. split; [reflexivity|].
    cbn. by rewrite !Nat2Z.id.
  - repeat constructor; lia.
  - rewrite Ha. simpl. rewrite !Nat2Z.id.
    assert (Z.to_nat nh * Z.to_nat (Z.of_nat C / nh) = C)%nat as Hc.
    { rewrite <- Z2Nat.inj_mul by lia.
      rewrite <- Z_div_exact_full_2 by (done || lia). apply Nat2Z.id. }
    rewrite Nat.mul_1_r, Hc. lia.
Qed.

(** A module built by the constructor from a configuration with a
    positive head count and embedding width raises on line 31 for
    every input of shape (B, T, n_embd). *)
Lemma forward_unbound_v (cfg : GPTConfig.t) (st st' : alloc_state)
    (self : CausalSelfAttention.t) (x : tensor float) (B T : nat) :
  CausalSelfAttention.init cfg st = Ok (self, st') ->
  (0 < GPTConfig.n_head cfg)%Z ->
  (0 < GPTConfig.n_embd cfg)%Z ->
  shape x = [B; T; Z.to_nat (GPTConfig.n_embd cfg)] ->
  CausalSelfAttention.forward self x = Err (UnboundLocalError "v").
Proof.
  intros Hinit Hnh Hne Hx.
  pose proof (CausalSelfAttention_init_spec cfg st) as Hs. cbv zeta in Hs.
  rewrite Hinit in Hs.
  destruct Hs as (_ & Hmod & _ & _ & Hh & He & HW & _ & _ & _ & _ & _ & _).
  set (C := Z.to_nat (GPTConfig.n_embd cfg)) in *.
  assert (GPTConfig.n_embd cfg = Z.of_nat C) as HC by (unfold C; lia).
  unfold CausalSelfAttention.forward. rewrite Hx.
  unfold CausalSelfAttention.body.
  (* line 27 *)
  unfold CausalSelfAttention.line27 at 1.
  rewrite (load_bound _ _ x) by apply lookup_singleton_eq.
  cbn [mbind result_bind]. unfold nn.Linear_forward.
  rewrite (linear_ok _ _ _ [B; T] C _ HW Hx). cbn [mbind result_bind].
  (* line 28 *)
  unfold CausalSelfAttention.line28 at 1.
  rewrite (load_bound _ _ _ (lookup_insert_eq _ _ _)).
  cbn [mbind result_bind]. rewrite He, HC.
  rewrite (split_even NaN _ 2 2 3 C); [|done| |lia|lia].
  2:{ simpl. lia. }
  cbn [mbind result_bind map seq].
  (* lines 29 and 30 *)
  match goal with
  | |- context [<["c" := ?p2]> (<["k" := ?p1]> (<["q" := ?p0]> ?f0))] =>
      set (f2 := <["c" := p2]> (<["k" := p1]> (<["q" := p0]> f0)));
      assert (f2 !! "k" = Some p1) as Hk
        by (unfold f2; rewrite lookup_insert_ne by done;
            apply lookup_insert_eq);
      assert (f2 !! "q" = Some p0) as Hq
        by (unfold f2; rewrite !lookup_insert_ne by done;
            apply lookup_insert_eq);
      assert (f2 !! "v" = None) as Hv
        by (unfold f2; by rewrite !lookup_insert_ne by done)
  end.
  rewrite HC in Hmod. rewrite <- Hh in Hmod, Hnh.
  destruct (heads_ok self B T C f2 "k" _ Hk eq_refl Hnh Hmod) as (k' & Ek & _).
  unfold CausalSelfAttention.line29. rewrite Ek. cbn [mbind result_bind].
  assert (<["k" := k']> f2 !! "q" = Some _) as Hq'
    by (rewrite lookup_insert_ne by done; exact Hq).
  destruct (heads_ok self B T C _ "q" _ Hq' eq_refl Hnh Hmod) as (q' & Eq' & _).
  unfold CausalSelfAttention.line30. rewrite Eq'. cbn [mbind result_bind].
  (* line 31 *)
  rewrite line31_unbound; [done|].
  by rewrite !lookup_insert_ne by done.
Qed.

(** Lines 27 to 30 on a module built by the constructor and an input of
    shape (B, T, n_embd): they run, and the frame they leave binds [q]
    and [k], head by head, but neither [v] nor [att]. *)
Lemma lines27_30_ok (cfg : GPTConfig.t) (st st' : alloc_state)
    (self : CausalSelfAttention.t) (x : tensor float) (B T : nat) :
  CausalSelfAttention.init cfg st = Ok (self, st') ->
  (0 < GPTConfig.n_head cfg)%Z ->
  (0 < GPTConfig.n_embd cfg)%Z ->
  shape x = [B; T; Z.to_nat (GPTConfig.n_embd cfg)] ->
  let C := Z.to_nat (GPTConfig.n_embd cfg) in
  let nh := Z.to_nat (GPTConfig.n_head cfg) in
  let hs := Z.to_nat (GPTConfig.n_embd cfg / GPTConfig.n_head cfg) in
  exists f q k,
    lines27_30 self B T C {["x" := x]} = Ok f /\
    f !! "q" = Some q /\ shape q = [B; nh; T; hs] /\
    f !! "k" = Some k /\ shape k = [B; nh; T; hs] /\
    f !! "v" = None /\ f !! "att" = None.
Proof.
  intros Hinit Hnh Hne Hx C nh hs.
  pose proof (CausalSelfAttention_init_spec cfg st) as Hs. cbv zeta in Hs.
  rewrite Hinit in Hs.
  destruct Hs as (_ & Hmod & _ & _ & Hh & He & HW & _ & _ & _ & _ & _ & _).
  assert (GPTConfig.n_embd cfg = Z.of_nat C) as HC by (unfold C; lia).
  unfold lines27_30.
  (* line 27 *)
  unfold CausalSelfAttention.line27 at 1.
  rewrite (load_bound _ _ x) by apply lookup_singleton_eq.
  cbn [mbind result_bind]. unfold nn.Linear_forward.
  rewrite (linear_ok _ _ _ [B; T] C _ HW Hx). cbn [mbind result_bind].
  (* line 28 *)
  unfold CausalSelfAttention.line28 at 1.
  rewrite (load_bound _ _ _ (lookup_insert_eq _ _ _)).
  cbn [mbind result_bind]. rewrite He, HC.
  rewrite (split_even NaN _ 2 2 3 C); [|done| |lia|lia].
  2:{ simpl. lia. }
  cbn [mbind result_bind map seq].
  (* lines 29 and 30 *)
  match goal with
  | |- context [<["c" := ?p2]> (<["k" := ?p1]> (<["q" := ?p0]> ?f0))] =>
      set (f2 := <["c" := p2]> (<["k" := p1]> (<["q" := p0]> f0)));
      assert (f2 !! "k" = Some p1) as Hk
        by (unfold f2; rewrite lookup_insert_ne by done;
            apply lookup_insert_eq);
      assert (f2 !! "q" = Some p0) as Hq
        by (unfold f2; rewrite !lookup_insert_ne by done;
            apply lookup_insert_eq);
      assert (f2 !! "v" = None) as Hv
        by (unfold f2; by rewrite !lookup_insert_ne by done);
      assert (f2 !! "att" = None) as Ha
        by (unfold f2; by rewrite !lookup_insert_ne by done)
  end.
  rewrite HC in Hmod. rewrite <- Hh in Hmod, Hnh.
  destruct (heads_ok self B T C f2 "k" _ Hk eq_refl Hnh Hmod) as (k' & Ek & Hsk).
  unfold CausalSelfAttention.line29. rewrite Ek. cbn [mbind result_bind].
  assert (<["k" := k']> f2 !! "q" = Some _) as Hq'
    by (rewrite lookup_insert_ne by done; exact Hq).
  destruct (heads_ok self B T C _ "q" _ Hq' eq_refl Hnh Hmod) as (q' & Eq' & Hsq).
  unfold CausalSelfAttention.line30. rewrite Eq'. cbn [mbind result_bind].
  rewrite Hh, <- HC in Hsk, Hsq.
  exists (<["q" := q']> (<["k" := k']> f2)), q', k'.
  split; [done|].
  split; [apply lookup_insert_eq|]. split; [exact Hsq|].
  split; [rewrite lookup_insert_ne by done; apply lookup_insert_eq|].
  split; [exact Hsk|].
  split; by rewrite !lookup_insert_ne by done.
Qed.
End attention_facts.

(** * Softmax over a masked row *)

Section softmax_facts.
Import torch.
Open Scope R_scope.

Lemma fsum_acc_Fin (l : list R) (a : R) :
  fold_left fadd (map Fin l) (Fin a) = Fin (fold_left Rplus l a).
Proof. revert a. induction l as [|x l IH]; intros a; [done|]. simpl. apply IH. Qed.

Lemma fsum_Fin (l : list R) : fsum (map Fin l) = Fin (Rsum l).
Proof. apply fsum_acc_Fin. Qed.

Lemma Rsum_acc_ge (l : list R) (a : R) :
  Forall (fun x => 0 <= x) l -> a <= fold_left Rplus l a.
Proof.
  intros H. revert a. induction H as [|x l Hx _ IH]; intros a; simpl; [lra|].
  specialize (IH (a + x)). lra.
Qed.

Lemma Rsum_acc_pos (l : list R) (a : R) :
  Forall (fun x => 0 <= x) l -> Exists (fun x => 0 < x) l -> 0 <= a ->
  0 < fold_left Rplus l a.
Proof.
  intros H. revert a. induction H as [|x l Hx Hl IH]; intros a He Ha.
  { by apply Exists_nil in He. }
  simpl. apply Exists_cons in He as [He|He].
  - pose proof (Rsum_acc_ge l (a + x) Hl). lra.
  - apply IH; [done | lra].
Qed.

Lemma Rsum_acc_div (l : list R) (a S : R) :
  fold_left Rplus (map (fun x => x / S) l) (a / S) = fold_left Rplus l a / S.
Proof.
  revert a. induction l as [|x l IH]; intros a; [done|]. simpl.
  rewrite <- IH. f_equal. lra.
Qed.

Lemma Rsum_div (l : list R) (S : R) :
  Rsum (map (fun x => x / S) l) = Rsum l / S.
Proof.
  unfold Rsum. rewrite <- Rsum_acc_div. f_equal. lra.
Qed.

(** The maximum of a masked row with at least one real score is a
    real number. *)
Lemma row_max_Fin (row : list float) (acc : float) :
  Forall masked_entry row -> masked_entry acc ->
  (exists r, acc = Fin r) \/ Exists (fun a => exists r, a = Fin r) row ->
  exists M, fold_left fmax row acc = Fin M.
Proof.
  intros H. revert acc. induction H as [|a row Ha _ IH]; intros acc Hacc Hex.
  { destruct Hex as [Hex|Hex]; [done | by apply Exists_nil in Hex]. }
  simpl. apply IH.
  - destruct Hacc as [->|[x ->]], Ha as [->|[y ->]]; simpl;
      (by left) || (right; by eexists).
  - destruct Hex as [[x ->]|Hex].
    + left. destruct Ha as [->|[y ->]]; simpl; by eexists.
    + apply Exists_cons in Hex as [[y ->]|Hex]; [|by right].
      left. destruct Hacc as [->|[x ->]]; simpl; by eexists.
Qed.

Lemma fexp_shift (M : R) (a : float) :
  masked_entry a -> fexp (fsub a (Fin M)) = Fin (shifted M a).
Proof. by intros [->|[r ->]]. Qed.

Lemma shifted_nonneg (M : R) (a : float) : 0 <= shifted M a.
Proof. destruct a; simpl; try lra. left. apply exp_pos. Qed.

(** Softmax of a masked row with at least one real score: the result
    sums to one and gives zero to the masked entries. *)
Lemma softmax1_row (row : list float) :
  Forall masked_entry row ->
  Exists (fun a => exists r, a = Fin r) row ->
  exists M S,
    0 < S /\
    (forall a, masked_entry a -> softmax1 row a = Fin (shifted M a / S)) /\
    fsum (map (softmax1 row) row) = Fin 1.
Proof.
  intros Hrow Hex.
  destruct (row_max_Fin row NInf Hrow) as [M HM]; [by left | by right|].
  set (S := Rsum (map (shifted M) row)).
  assert (fsum (map (fun y => fexp (fsub y (Fin M))) row) = Fin S) as HS.
  { unfold S. rewrite <- fsum_Fin, map_map. f_equal.
    apply map_ext_in. intros a Ha. apply fexp_shift.
    rewrite Forall_forall in Hrow. by apply Hrow, list_elem_of_In. }
  assert (0 < S) as Hpos.
  { apply Rsum_acc_pos; [| |lra].
    - apply Forall_forall. intros x (a & <- & _)%list_elem_of_In%in_map_iff.
      apply shifted_nonneg.
    - apply Exists_exists in Hex as (a & Ha & r & ->).
      apply Exists_exists. exists (shifted M (Fin r)). split.
      + apply list_elem_of_In, in_map. by apply list_elem_of_In.
      + apply exp_pos. }
  assert (forall a, masked_entry a -> softmax1 row a = Fin (shifted M a / S))
    as Hentry.
  { intros a Ha. unfold softmax1. rewrite HM, HS, (fexp_shift M a Ha).
    simpl. destruct (Req_dec_T S 0); [lra | done]. }
  exists M, S. split; [done|]. split; [done|].
  rewrite (map_ext_in _ (fun a => Fin (shifted M a / S))).
  2:{ intros a Ha. apply Hentry. rewrite Forall_forall in Hrow.
      by apply Hrow, list_elem_of_In. }
  rewrite <- (map_map (fun a => shifted M a / S) Fin), fsum_Fin.
  rewrite <- (map_map (shifted M) (fun x => x / S)), Rsum_div.
  fold S. f_equal. field. lra.
Qed.
End softmax_facts.

(** * Lines 33 to 35: scores, mask and softmax *)

Section score_facts.
Import torch.
Implicit Type f : gmap string (tensor float).

Lemma get_mul_scalar (t : tensor float) (c : float) (idx : list nat) :
  fget (mul_scalar t c) idx = fmul (fget t idx) c.
Proof.
  unfold fget, get, mul_scalar. simpl.
  exact (map_nth (fun x => fmul x c) (data t) NaN _).
Qed.

Lemma get_eq_zero (t : tensor float) (idx : list nat) :
  get false (eq_zero t) idx = feq0 (fget t idx).
Proof.
  unfold fget, get, eq_zero. simpl.
  exact (map_nth feq0 (data t) NaN _).
Qed.

Lemma bidx_in_range (s idx : list nat) : in_range idx s -> bidx s idx = idx.
Proof.
  intros H. unfold bidx.
  rewrite (Forall2_length _ _ _ H), Nat.sub_diag, drop_0.
  induction H as [|i d idx s Hi _ IH]; [done|]. simpl. rewrite IH.
  destruct (Nat.eqb_spec d 1); [f_equal; lia | done].
Qed.

Lemma broadcast_rev_refl (r : list nat) : broadcast_rev r r = Some r.
Proof.
  induction r as [|a r IH]; [done|]. simpl. by rewrite Nat.eqb_refl, IH.
Qed.

Lemma broadcast_shapes_refl (s : list nat) : broadcast_shapes s s = Some s.
Proof.
  unfold broadcast_shapes. rewrite broadcast_rev_refl. simpl.
  by rewrite rev_involutive.
Qed.

(** The mask of shape (1, 1, T, T) broadcasts to any (B, nh, T, T). *)
Lemma broadcast_shapes_mask (B nh T : nat) :
  broadcast_shapes [B; nh; T; T] [1; 1; T; T]%nat = Some [B; nh; T; T].
Proof.
  unfold broadcast_shapes. simpl. rewrite !Nat.eqb_refl. simpl.
  destruct (Nat.eqb_spec nh 1) as [->|]; simpl;
    destruct (Nat.eqb_spec B 1) as [->|]; done.
Qed.

Lemma transpose_last2 (t : tensor float) (a b c d : nat) :
  shape t = [a; b; c; d] ->
  transpose NaN t (-2) (-1)
  = Ok (tabulate [a; b; d; c] (fun idx => get NaN t (swap_at 2 3 idx))).
Proof. intros H. unfold transpose. by rewrite H. Qed.

Lemma matmul_4 (x y : tensor float) (B nh n m p : nat) :
  shape x = [B; nh; n; m] ->
  shape y = [B; nh; m; p] ->
  matmul x y
  = Ok (tabulate [B; nh; n; p] (matmul_at x y [B; nh] [B; nh] 2 m)).
Proof.
  intros Hx Hy. unfold matmul. rewrite Hx, Hy. simpl.
  by rewrite Nat.eqb_refl, broadcast_shapes_refl.
Qed.

Lemma size_last {A} (t : tensor A) (a b c d : nat) :
  shape t = [a; b; c; d] -> size t (-1) = Ok d.
Proof. intros H. unfold size. by rewrite H. Qed.

Lemma inv_sqrt_ok (n : nat) :
  (0 < n)%nat -> inv_sqrt n = Ok (Fin (1 / sqrt (INR n))).
Proof. intros H. unfold inv_sqrt. destruct (Nat.eqb_spec n 0); [lia | done]. Qed.

Lemma in_range_3 (b t c B T C : nat) :
  (b < B)%nat -> (t < T)%nat -> (c < C)%nat ->
  in_range [b; t; c] [B; T; C].
Proof. intros. by repeat constructor. Qed.

Lemma in_range_4 (b h i j B nh T U : nat) :
  (b < B)%nat -> (h < nh)%nat -> (i < T)%nat -> (j < U)%nat ->
  in_range [b; h; i; j] [B; nh; T; U].
Proof. intros. by repeat constructor. Qed.

(** An entry of the mask buffer: one on and below the diagonal, zero
    above it. *)
Lemma mask_buffer_entry (bs i j : nat) :
  (i < bs)%nat -> (j < bs)%nat ->
  fget (mask_buffer bs) [0; 0; i; j]%nat
  = if (j <=? i)%nat then Fin 1 else Fin 0.
Proof.
  intros Hi Hj. unfold mask_buffer.
  match goal with
  | |- context [tabulate [bs; bs] ?g] =>
      transitivity (fget (tabulate [bs; bs] g) [i; j])
  end.
  { reflexivity. }
  unfold fget at 1. rewrite get_tabulate by (by repeat constructor).
  cbn [rev app].
  destruct (j <=? i)%nat; [|done].
  unfold fget, full. by rewrite get_tabulate by (by repeat constructor).
Qed.

(** Line 33 on a frame that binds [q] and [k] to real-valued tensors
    of shape (B, nh, T, hs): the scaled dot products. *)
Lemma line33_ok f (q k : tensor float) (B nh T hs : nat) :
  f !! "q" = Some q -> f !! "k" = Some k ->
  shape q = [B; nh; T; hs] -> shape k = [B; nh; T; hs] ->
  finite_on q -> finite_on k -> (0 < hs)%nat ->
  exists s,
    CausalSelfAttention.line33 f = Ok (<["att" := s]> f) /\
    shape s = [B; nh; T; T] /\
    forall b h i j, (b < B)%nat -> (h < nh)%nat -> (i < T)%nat -> (j < T)%nat ->
      fget s [b; h; i; j]
      = Fin (dot q k hs b h i j * (1 / sqrt (INR hs))).
Proof.
  intros Hfq Hfk Hq Hk Fq Fk Hhs. unfold CausalSelfAttention.line33.
  rewrite (load_bound _ _ _ Hfq), (load_bound _ _ _ Hfk).
  cbn [mbind result_bind].
  rewrite (transpose_last2 k B nh T hs Hk). cbn [mbind result_bind].
  rewrite (matmul_4 q _ B nh T hs T) by done. cbn [mbind result_bind].
  rewrite (size_last k B nh T hs Hk). cbn [mbind result_bind].
  rewrite (inv_sqrt_ok hs Hhs). cbn [mbind result_bind].
  eexists. split; [reflexivity|]. split; [reflexivity|].
  intros b h i j Hb Hh Hi Hj.
  rewrite get_mul_scalar. unfold fget at 1.
  rewrite get_tabulate by (by apply in_range_4).
  unfold matmul_at. cbn [take drop].
  rewrite (bidx_in_range [B; nh] [b; h]) by (by repeat constructor).
  rewrite (map_ext_in _ (fun l => Fin (fval (fget q [b; h; i; l])
                                       * fval (fget k [b; h; j; l])))).
  2:{ intros l Hl%in_seq. cbn [app].
      match goal with
      | |- context [fget (tabulate ?s ?g) ?idx] =>
          replace (fget (tabulate s g) idx) with (fget k [b; h; j; l])
            by (unfold fget; rewrite get_tabulate by (apply in_range_4; lia);
                reflexivity)
      end.
      destruct (Fq [b; h; i; l]) as [x ->];
        [rewrite Hq; apply in_range_4; lia|].
      destruct (Fk [b; h; j; l]) as [y ->];
        [rewrite Hk; apply in_range_4; lia|].
      done. }
  rewrite <- (map_map (fun l => fval (fget q [b; h; i; l])
                                * fval (fget k [b; h; j; l]))%R Fin).
  by rewrite fsum_Fin.
Qed.

(** Line 34: the entries above the diagonal become minus infinity,
    the others are kept. *)
Lemma line34_ok (self : CausalSelfAttention.t) f (s : tensor float)
    (bs B nh T : nat) :
  CausalSelfAttention.bias self = mask_buffer bs ->
  f !! "att" = Some s ->
  shape s = [B; nh; T; T] -> (T <= bs)%nat ->
  exists m,
    CausalSelfAttention.line34 self T f = Ok (<["att" := m]> f) /\
    shape m = [B; nh; T; T] /\
    forall b h i j, (b < B)%nat -> (h < nh)%nat -> (i < T)%nat -> (j < T)%nat ->
      fget m [b; h; i; j]
      = if (j <=? i)%nat then fget s [b; h; i; j] else NInf.
Proof.
  intros Hbias Hf Hs HT. unfold CausalSelfAttention.line34.
  rewrite (load_bound _ _ _ Hf). cbn [mbind result_bind].
  rewrite Hbias. unfold slice_prefix.
  cbn [mask_buffer shape length Nat.ltb Nat.leb app replicate zip_with].
  rewrite (Nat.min_l T bs) by done. cbn [mbind result_bind].
  unfold masked_fill. cbn [eq_zero shape tabulate].
  rewrite Hs, broadcast_shapes_mask, decide_True by done.
  eexists. split; [reflexivity|]. split; [reflexivity|].
  intros b h i j Hb Hh Hi Hj. unfold fget at 1.
  rewrite get_tabulate by (by apply in_range_4).
  unfold masked_fill_at, bget.
  match goal with
  | |- context [shape (eq_zero ?t)] =>
      change (shape (eq_zero t)) with [1; 1; T; T]%nat
  end.
  assert (bidx [1; 1; T; T]%nat [b; h; i; j] = [0; 0; i; j]%nat) as ->.
  { unfold bidx. cbn.
    destruct (Nat.eqb_spec T 1); [repeat f_equal; lia | done]. }
  rewrite get_eq_zero. unfold fget at 1.
  rewrite get_tabulate by (apply in_range_4; lia).
  change (get NaN (mask_buffer bs) [0; 0; i; j]%nat)
    with (fget (mask_buffer bs) [0; 0; i; j]%nat).
  rewrite mask_buffer_entry by lia.
  destruct (j <=? i)%nat; simpl.
  - destruct (Req_dec_T 1 0); [lra | done].
  - destruct (Req_dec_T 0 0); [done | lra].
Qed.

(** Line 35: every row of the masked scores becomes a distribution
    that gives nothing to the positions above the diagonal. *)
Lemma line35_ok f (m : tensor float) (B nh T : nat) :
  f !! "att" = Some m ->
  shape m = [B; nh; T; T] ->
  (forall b h i j, (b < B)%nat -> (h < nh)%nat -> (i < T)%nat -> (j < T)%nat ->
     if (j <=? i)%nat then exists r, fget m [b; h; i; j] = Fin r
     else fget m [b; h; i; j] = NInf) ->
  exists p,
    CausalSelfAttention.line35 f = Ok (<["att" := p]> f) /\
    shape p = [B; nh; T; T] /\
    forall b h i, (b < B)%nat -> (h < nh)%nat -> (i < T)%nat ->
      fsum (map (fun j => fget p [b; h; i; j]) (seq 0 T)) = Fin 1 /\
      forall j, (j < T)%nat -> (i < j)%nat -> fget p [b; h; i; j] = Fin 0.
Proof.
  intros Hf Hm Hent. unfold CausalSelfAttention.line35.
  rewrite (load_bound _ _ _ Hf). cbn [mbind result_bind].
  unfold softmax. rewrite Hm. cbn [length wrap_dim]. cbn [mbind result_bind].
  eexists. split; [reflexivity|]. split; [reflexivity|].
  intros b h i Hb Hh Hi.
  set (row := map (fun j => fget m [b; h; i; j]) (seq 0 T)).
  assert (forall j, (j < T)%nat ->
            fget (tabulate [B; nh; T; T]
                    (fun idx => softmax1 (fiber m 3 idx) (fget m idx)))
                 [b; h; i; j]
            = softmax1 row (fget m [b; h; i; j])) as Hp.
  { intros j Hj. unfold fget at 1.
    rewrite get_tabulate by (by apply in_range_4).
    unfold fiber. by rewrite Hm. }
  assert (Forall masked_entry row) as Hrow.
  { apply Forall_forall. intros a (j & <- & Hj%in_seq)%list_elem_of_In%in_map_iff.
    specialize (Hent b h i j Hb Hh Hi ltac:(lia)).
    destruct (j <=? i)%nat; [by right | by left]. }
  assert (Exists (fun a => exists r, a = Fin r) row) as Hex.
  { apply Exists_exists. exists (fget m [b; h; i; i]). split.
    - apply list_elem_of_In, in_map_iff. exists i. split; [done|].
      apply in_seq. lia.
    - specialize (Hent b h i i Hb Hh Hi Hi). by rewrite Nat.leb_refl in Hent. }
  destruct (softmax1_row row Hrow Hex) as (M & S & HS & Hent1 & Hsum).
  change (Z.to_nat (if (-1 <? 0)%Z then (-1 + Z.of_nat 4)%Z else (-1)%Z))
    with 3%nat.
  split.
  - rewrite (map_ext_in _ (fun j => softmax1 row (fget m [b; h; i; j]))).
    2:{ intros j Hj%in_seq. apply Hp. lia. }
    rewrite <- (map_map (fun j => fget m [b; h; i; j]) (softmax1 row)).
    exact Hsum.
  - intros j Hj Hij. rewrite Hp by done.
    specialize (Hent b h i j Hb Hh Hi Hj).
    destruct (Nat.leb_spec j i); [lia|]. rewrite Hent.
    rewrite Hent1 by (by left). simpl. f_equal. lra.
Qed.
End score_facts.

(** * The feed-forward module and the block *)

Section mlp_facts.
Import torch.

Lemma linear_at_last (x W : tensor float) (b : option (tensor float))
    (inn : nat) (pre : list nat) (o : nat) :
  linear_at x W b inn (pre ++ [o])
  = let acc := fsum (map (fun l => fmul (fget x (pre ++ [l])) (fget W [o; l]))
                         (seq 0 inn)) in
    match b with
    | Some bt => fadd acc (fget bt [o])
    | None => acc
    end.
Proof. unfold linear_at. by rewrite last_last, removelast_last. Qed.

(** A linear layer acts on each vector along the last dimension on
    its own. *)
Lemma linear_at_local (x x' W : tensor float) (b : option (tensor float))
    (inn : nat) (pre : list nat) (o : nat) :
  (forall l, (l < inn)%nat -> fget x (pre ++ [l]) = fget x' (pre ++ [l])) ->
  linear_at x W b inn (pre ++ [o]) = linear_at x' W b inn (pre ++ [o]).
Proof.
  intros H. rewrite !linear_at_last. cbv zeta.
  rewrite (map_ext_in _ (fun l => fmul (fget x' (pre ++ [l])) (fget W [o; l]))).
  - done.
  - intros l Hl%in_seq. rewrite H by lia. done.
Qed.

Lemma gelu_none (x : tensor float) :
  gelu x "none" = Ok (mkTensor (shape x) (map (gelu1 "none") (data x))).
Proof. reflexivity. Qed.

Lemma get_gelu_none (x : tensor float) (idx : list nat) :
  fget (mkTensor (shape x) (map (gelu1 "none") (data x))) idx
  = gelu1 "none" (fget x idx).
Proof.
  unfold fget, get. simpl.
  exact (map_nth (gelu1 "none") (data x) NaN _).
Qed.

(** With [approximate = "none"] the activation of a real number [r]
    is [r * Phi(r)], [Phi] the standard normal distribution function
    written with the error function. *)
Lemma gelu1_none_Fin (r : R) :
  gelu1 "none" (Fin r) = Fin (r * (1 / 2) * (1 + erf (r * / sqrt 2))).
Proof. reflexivity. Qed.

Lemma in_range_app (pre s : list nat) (i d : nat) :
  in_range pre s -> (i < d)%nat -> in_range (pre ++ [i]) (s ++ [d]).
Proof. intros H Hi. apply Forall2_app; [done | by repeat constructor]. Qed.

(** The forward pass of a feed-forward module built by the
    constructor, on an input whose last dimension is the embedding
    width. *)
Lemma MLP_forward_ok (cfg : GPTConfig.t) (st st' : alloc_state)
    (self : MLP.t) (x : tensor float) (pre : list nat) :
  MLP.init cfg st = Ok (self, st') ->
  shape x = pre ++ [Z.to_nat (GPTConfig.n_embd cfg)] ->
  exists h g y,
    nn.Linear_forward (MLP.c_fc self) x = Ok h /\
    shape h = pre ++ [Z.to_nat (4 * GPTConfig.n_embd cfg)] /\
    nn.GELU_forward (MLP.gelu self) h = Ok g /\
    shape g = shape h /\
    (forall idx, fget g idx = gelu1 "none" (fget h idx)) /\
    nn.Linear_forward (MLP.c_proj self) g = Ok y /\
    MLP.forward self x = Ok y /\
    shape y = shape x /\
    forall idx o, in_range idx pre ->
      (o < Z.to_nat (GPTConfig.n_embd cfg))%nat ->
      fget y (idx ++ [o])
      = linear_at g (value (nn.weight (MLP.c_proj self)))
          (value <$> nn.bias (MLP.c_proj self))
          (Z.to_nat (4 * GPTConfig.n_embd cfg)) (idx ++ [o]).
Proof.
  intros Hinit Hx.
  pose proof (MLP_init_spec cfg st) as Hs. cbv zeta in Hs. rewrite Hinit in Hs.
  destruct Hs as (_ & _ & _ & _ & _ & HW1 & HW2 & Hg & _ & _).
  pose proof (linear_ok x _ (value <$> nn.bias (MLP.c_fc self)) pre _ _ HW1 Hx)
    as E1.
  set (h := tabulate _ _) in E1.
  set (g := mkTensor (shape h) (map (gelu1 "none") (data h))).
  assert (nn.GELU_forward (MLP.gelu self) h = Ok g) as E2.
  { unfold nn.GELU_forward. rewrite Hg. apply gelu_none. }
  pose proof (linear_ok g _ (value <$> nn.bias (MLP.c_proj self)) pre _ _
                HW2 eq_refl) as E3.
  set (y := tabulate _ _) in E3.
  exists h, g, y.
  split; [exact E1|]. split; [reflexivity|]. split; [exact E2|].
  split; [reflexivity|]. split; [intros idx; apply get_gelu_none|].
  split; [exact E3|]. split.
  { unfold MLP.forward. fold (nn.Linear_forward (MLP.c_fc self) x) in E1.
    rewrite E1. cbn [mbind result_bind]. rewrite E2. cbn [mbind result_bind].
    fold (nn.Linear_forward (MLP.c_proj self) g) in E3. by rewrite E3. }
  split; [by rewrite Hx|].
  intros idx o Hidx Ho. unfold fget at 1, y.
  rewrite get_tabulate by (by apply in_range_app). done.
Qed.

(** No mixing across positions: two inputs that agree on one vector
    along the last dimension give outputs that agree on it. *)
Lemma MLP_forward_local (cfg : GPTConfig.t) (st st' : alloc_state)
    (self : MLP.t) (x x' y y' : tensor float) (pre idx : list nat) :
  MLP.init cfg st = Ok (self, st') ->
  shape x = pre ++ [Z.to_nat (GPTConfig.n_embd cfg)] ->
  shape x' = shape x ->
  MLP.forward self x = Ok y ->
  MLP.forward self x' = Ok y' ->
  in_range idx pre ->
  (forall c, (c < Z.to_nat (GPTConfig.n_embd cfg))%nat ->
     fget x (idx ++ [c]) = fget x' (idx ++ [c])) ->
  forall c, (c < Z.to_nat (GPTConfig.n_embd cfg))%nat ->
    fget y (idx ++ [c]) = fget y' (idx ++ [c]).
Proof.
  intros Hinit Hx Hx' Hy Hy' Hidx Hagree c Hc.
  rewrite Hx in Hx'.
  destruct (MLP_forward_ok cfg st st' self x pre Hinit Hx)
    as (h & g & y0 & Hh & Hsh & _ & Hsg & Hg & _ & Hy0 & _ & Hent).
  destruct (MLP_forward_ok cfg st st' self x' pre Hinit Hx')
    as (h' & g' & y0' & Hh' & Hsh' & _ & Hsg' & Hg' & _ & Hy0' & _ & Hent').
  rewrite Hy in Hy0. injection Hy0 as <-.
  rewrite Hy' in Hy0'. injection Hy0' as <-.
  rewrite Hent, Hent' by done.
  apply linear_at_local. intros l Hl. rewrite Hg, Hg'. f_equal.
  pose proof (MLP_init_spec cfg st) as Hs. cbv zeta in Hs. rewrite Hinit in Hs.
  destruct Hs as (_ & _ & _ & _ & _ & HW1 & _).
  unfold nn.Linear_forward in Hh, Hh'.
  rewrite (linear_ok _ _ _ pre _ _ HW1 Hx) in Hh. injection Hh as <-.
  rewrite (linear_ok _ _ _ pre _ _ HW1 Hx') in Hh'. injection Hh' as <-.
  unfold fget.
  rewrite !get_tabulate by (by apply in_range_app).
  apply linear_at_local. intros c' Hc'. by apply Hagree.
Qed.
End mlp_facts.

Section block_facts.
Import torch.

Lemma layer_norm_ok (x w b : tensor float) (eps : float) (pre : list nat)
    (n : nat) :
  shape x = pre ++ [n] ->
  layer_norm x n w b eps = Ok (tabulate (shape x) (layer_norm_at x n w b eps)).
Proof.
  intros Hx. unfold layer_norm. rewrite Hx at 1. rewrite rev_app_distr. simpl.
  by rewrite Nat.eqb_refl.
Qed.

(** The sum of two tensors of one shape is taken entry by entry. *)
Lemma add_same_shape (x r : tensor float) :
  shape r = shape x ->
  exists y,
    add x r = Ok y /\ shape y = shape x /\
    forall idx, in_range idx (shape x) ->
      fget y idx = fadd (fget x idx) (fget r idx).
Proof.
  intros Hr. unfold add. rewrite Hr, broadcast_shapes_refl.
  eexists. split; [reflexivity|]. split; [reflexivity|].
  intros idx Hidx. unfold fget at 1. rewrite get_tabulate by done.
  unfold bget. by rewrite Hr, bidx_in_range.
Qed.

(** One residual step keeps the shape when the sub-layer does. *)
Lemma residual_ok (norm sub : tensor float -> result (tensor float))
    (x n r : tensor float) :
  norm x = Ok n -> sub n = Ok r -> shape r = shape x ->
  exists y,
    Block.residual norm sub x = Ok y /\ shape y = shape x /\
    forall idx, in_range idx (shape x) ->
      fget y idx = fadd (fget x idx) (fget r idx).
Proof.
  intros Hn Hs Hr. unfold Block.residual. rewrite Hn. cbn [mbind result_bind].
  rewrite Hs. cbn [mbind result_bind]. by apply add_same_shape.
Qed.

(** A residual step whose sub-layer raises raises the same error. *)
Lemma residual_raises (norm sub : tensor float -> result (tensor float))
    (x n : tensor float) (e : exn) :
  norm x = Ok n -> sub n = Err e -> Block.residual norm sub x = Err e.
Proof.
  intros Hn Hs. unfold Block.residual. rewrite Hn. cbn [mbind result_bind].
  by rewrite Hs.
Qed.

(** A block built by the constructor from a configuration with a
    positive head count and embedding width raises in its attention
    sub-layer for every input of shape (B, T, n_embd). *)
Lemma Block_forward_unbound_v (cfg : GPTConfig.t) (st st' : alloc_state)
    (self : Block.t) (x : tensor float) (B T : nat) :
  Block.init cfg st = Ok (self, st') ->
  (0 < GPTConfig.n_head cfg)%Z ->
  (0 < GPTConfig.n_embd cfg)%Z ->
  shape x = [B; T; Z.to_nat (GPTConfig.n_embd cfg)] ->
  Block.forward self x = Err (UnboundLocalError "v").
Proof.
  intros Hinit Hnh Hne Hx.
  pose proof (Block_init_spec cfg st) as Hs. rewrite Hinit in Hs.
  destruct Hs as ((st1 & st2 & Hln & Hattn) & _).
  pose proof (LayerNorm_init_spec (GPTConfig.n_embd cfg) st) as Hl.
  rewrite Hln in Hl. destruct Hl as (_ & Hns & _).
  unfold Block.forward.
  erewrite (residual_raises _ _ x); [done| |].
  - unfold nn.LayerNorm_forward. rewrite Hns.
    apply (layer_norm_ok _ _ _ _ [B; T]). exact Hx.
  - apply (forward_unbound_v cfg st1 st2 _ _ B T Hattn Hnh Hne). exact Hx.
Qed.
End block_facts.

(** * The claims *)

Section claims.
Import torch.

(** C1 (code defect).  The claim says the attention forward pass binds
    the three splits as query, key and value and returns a tensor of
    shape (B, T, C).  On the configuration (8, 10, 2, 2, 8) and the
    all-zero input of shape (1, 4, 8) the forward pass of the
    constructed module returns nothing: line 28 binds the third split
    to [c], and line 31 raises on the unassigned [v]. *)
Theorem C1_forward_returns_no_tensor :
  exists self st',
    CausalSelfAttention.init small_config fresh = Ok (self, st') /\
    CausalSelfAttention.forward self (zeros [1; 4; 8]%nat)
    = Err (UnboundLocalError "v") /\
    ~ exists y, CausalSelfAttention.forward self (zeros [1; 4; 8]%nat) = Ok y.
Proof.
  destruct (CausalSelfAttention_init_ok small_config fresh)
    as (self & st' & Hinit); [done..|].
  exists self, st'. split; [done|].
  assert (CausalSelfAttention.forward self (zeros [1; 4; 8]%nat)
          = Err (UnboundLocalError "v")) as E.
  { by apply (forward_unbound_v small_config fresh st' self _ 1 4). }
  split; [done|]. intros [y Hy]. by rewrite E in Hy.
Qed.

(** C2.  As written, the value tensor is never bound from the split:
    for every module built by the constructor (positive head count and
    embedding width) and every input of shape (B, T, n_embd), the
    forward pass fails with the unbound-variable error for [v], and so
    produces no output. *)
Theorem C2_value_is_never_bound (cfg : GPTConfig.t) (st st' : alloc_state)
    (self : CausalSelfAttention.t) (x : tensor float) (B T : nat) :
  CausalSelfAttention.init cfg st = Ok (self, st') ->
  (0 < GPTConfig.n_head cfg)%Z ->
  (0 < GPTConfig.n_embd cfg)%Z ->
  shape x = [B; T; Z.to_nat (GPTConfig.n_embd cfg)] ->
  CausalSelfAttention.forward self x = Err (UnboundLocalError "v").
Proof. apply forward_unbound_v. Qed.

Lemma C2_witness :
  exists self st',
    CausalSelfAttention.init GPTConfig.default fresh = Ok (self, st') /\
    CausalSelfAttention.forward self (zeros [2; 3; 384]%nat)
    = Err (UnboundLocalError "v").
Proof.
  destruct (CausalSelfAttention_init_ok GPTConfig.default fresh)
    as (self & st' & Hinit); [done..|].
  exists self, st'. split; [exact Hinit|].
  apply (C2_value_is_never_bound GPTConfig.default fresh st' self _ 2 3 Hinit);
    [reflexivity | reflexivity | reflexivity].
Defined.

(** C3 counterexample.  On the configuration (8, 10, 2, 2, 8) and an
    index batch of shape (1, 4) the constructed model produces no
    logits tensor of shape (1, 4, 10). *)
Lemma C3_counterexample :
  exists m st',
    GPT.init small_config fresh = Ok (m, st') /\
    ~ exists logits,
        GPT.forward m idx_1_4 = Ok logits /\ shape logits = [1; 4; 10]%nat.
Proof.
  pose proof (GPT_init_spec small_config fresh) as Hs. cbv zeta in Hs.
  destruct (GPT.init small_config fresh) as [[m st']|e].
  - exists m, st'. split; [done|]. by intros (logits & H & _).
  - exfalso. pose proof small_config_good.
    destruct Hs as [?|[?|[?|[_ ?]]]]; first [done | lia].
Qed.

(** C3 (amended).  The top-level model class defines its constructor
    only.  For every model and every index batch, forward evaluation
    is the one inherited from the framework's module base class: it
    fails with the not-implemented condition and produces no
    logits. *)
Theorem C3_forward_is_not_implemented (m : GPT.t) (idx : tensor Z) :
  GPT.forward m idx = Err NotImplementedError /\
  ~ exists logits, GPT.forward m idx = Ok logits.
Proof. split; [done|]. by intros [logits H]. Qed.

(** C4 (code defect).  The claim says the attention output at
    position i depends only on the inputs at positions up to i.  The
    inputs [zeros] and [bump] of shape (1, 4, 8) agree on positions 0
    to 2, yet the forward pass yields no output at any position for
    either: both calls raise on line 31. *)
Theorem C4_no_output_to_compare :
  exists self st',
    CausalSelfAttention.init small_config fresh = Ok (self, st') /\
    (forall t c, (t <= 2)%nat -> (c < 8)%nat ->
       fget (zeros [1; 4; 8]%nat) [0; t; c]%nat = fget bump [0; t; c]%nat) /\
    fget (zeros [1; 4; 8]%nat) [0; 3; 0]%nat <> fget bump [0; 3; 0]%nat /\
    CausalSelfAttention.forward self (zeros [1; 4; 8]%nat)
    = Err (UnboundLocalError "v") /\
    CausalSelfAttention.forward self bump = Err (UnboundLocalError "v").
Proof.
  destruct (CausalSelfAttention_init_ok small_config fresh)
    as (self & st' & Hinit); [done..|].
  exists self, st'. split; [done|]. split; [|split; [|split]].
  - intros t c Ht Hc. unfold fget, zeros, full, bump.
    rewrite !get_tabulate by (apply in_range_3; lia). simpl.
    destruct (Nat.eqb_spec t 3); [lia | done].
  - unfold fget, zeros, full, bump.
    rewrite !get_tabulate by (apply in_range_3; lia). simpl.
    intros [=H]. lra.
  - by apply (forward_unbound_v small_config fresh st' self _ 1 4).
  - by apply (forward_unbound_v small_config fresh st' self _ 1 4).
Qed.

(** C5 counterexample.  With embedding width 10 and head count 0 the
    width is not divisible by the head count, and construction fails
    with a division by zero, not with the InvalidConfiguration
    assertion; with embedding width -6 and head count 3 the width is
    divisible and construction fails all the same. *)
Lemma C5_counterexample :
  (~ (0 | 10)%Z /\
   exists e, CausalSelfAttention.init (GPTConfig.mk 8 10 2 0 10) fresh = Err e /\
             ~ InvalidConfiguration e) /\
  ((3 | -6)%Z /\
   exists e, CausalSelfAttention.init (GPTConfig.mk 8 10 2 3 (-6)) fresh = Err e).
Proof.
  split; split.
  - intros [k Hk]. lia.
  - exists ZeroDivisionError. split; [reflexivity | done].
  - exists (-2)%Z. lia.
  - exists RuntimeError. reflexivity.
Qed.

(** C5 (amended).  Line 10 decides first, on the integers of the
    configuration: a head count of zero fails with a division by zero,
    a non-zero head count that does not divide the embedding width
    fails with the InvalidConfiguration assertion.  When line 10
    passes, and the sizes and byte counts of the tensors the
    constructor requests are within the library's signed 64-bit range,
    construction fails in allocation when the embedding width or the
    maximum sequence length is negative and succeeds when both are
    non-negative.  (Requests outside that range, which the library
    rejects with another error, and an allocation the machine cannot
    serve are outside this statement.) *)
Theorem C5_attention_construction (cfg : GPTConfig.t) (st : alloc_state) :
  let nh := GPTConfig.n_head cfg in
  let ne := GPTConfig.n_embd cfg in
  let bs := GPTConfig.block_size cfg in
  (nh = 0%Z -> CausalSelfAttention.init cfg st = Err ZeroDivisionError) /\
  (nh <> 0%Z -> ~ (nh | ne)%Z ->
   exists e, CausalSelfAttention.init cfg st = Err e /\ InvalidConfiguration e) /\
  (nh <> 0%Z -> (nh | ne)%Z -> attention_fits cfg = true ->
   (ne < 0)%Z \/ (bs < 0)%Z ->
   CausalSelfAttention.init cfg st = Err RuntimeError) /\
  (nh <> 0%Z -> (nh | ne)%Z -> attention_fits cfg = true ->
   (0 <= ne)%Z -> (0 <= bs)%Z ->
   exists self st', CausalSelfAttention.init cfg st = Ok (self, st')).
Proof.
  intros nh ne bs.
  destruct (attention_construction_cases cfg st) as (H0 & Hnd & Hneg & Hok).
  split; [exact H0|]. split.
  { intros Hnh Hd. exists AssertionError. split; [by apply Hnd | done]. }
  split.
  - intros Hnh Hd _. by apply Hneg.
  - intros Hnh Hd _. by apply Hok.
Qed.

Lemma C5_witness :
  CausalSelfAttention.init (GPTConfig.mk 8 10 2 0 10) fresh
  = Err ZeroDivisionError /\
  (exists e, CausalSelfAttention.init (GPTConfig.mk 8 10 2 3 10) fresh = Err e /\
             InvalidConfiguration e) /\
  CausalSelfAttention.init (GPTConfig.mk 8 10 2 3 (-6)) fresh
  = Err RuntimeError /\
  exists self st', CausalSelfAttention.init small_config fresh = Ok (self, st').
Proof.
  split; [|split; [|split]].
  - apply (C5_attention_construction (GPTConfig.mk 8 10 2 0 10) fresh).
    reflexivity.
  - apply (C5_attention_construction (GPTConfig.mk 8 10 2 3 10) fresh).
    + simpl. lia.
    + simpl. intros [k Hk]. lia.
  - apply (C5_attention_construction (GPTConfig.mk 8 10 2 3 (-6)) fresh).
    + simpl. lia.
    + exists (-2)%Z. reflexivity.
    + reflexivity.
    + left. simpl. lia.
  - apply (C5_attention_construction small_config fresh).
    + simpl. lia.
    + exists 4%Z. reflexivity.
    + reflexivity.
    + simpl. lia.
    + simpl. lia.
Defined.

(** C6 (code defect).  The claim says the attention forward pass
    computes the scaled query-key scores, masks every pair (i, j) with
    j > i and takes the softmax of each row.  On the configuration
    (8, 10, 2, 2, 8) and the input [bump] of shape (1, 4, 8), lines 27
    to 30 run and leave a frame in which [q] and [k] are bound, of
    shape (1, 2, 4, 4), and [v] and [att] are not; line 31 raises on
    that frame, so lines 33 to 35 are never executed: the forward pass
    ends with no score, no mask applied and no weight computed. *)
Theorem C6_no_score_is_computed :
  exists self st' f q k,
    CausalSelfAttention.init small_config fresh = Ok (self, st') /\
    lines27_30 self 1 4 8 {["x" := bump]} = Ok f /\
    f !! "q" = Some q /\ shape q = [1; 2; 4; 4]%nat /\
    f !! "k" = Some k /\ shape k = [1; 2; 4; 4]%nat /\
    f !! "att" = None /\
    CausalSelfAttention.line31 self 1 4 8 f = Err (UnboundLocalError "v") /\
    CausalSelfAttention.forward self bump = Err (UnboundLocalError "v") /\
    ~ exists y, CausalSelfAttention.forward self bump = Ok y.
Proof.
  destruct (CausalSelfAttention_init_ok small_config fresh)
    as (self & st' & Hinit); [done..|].
  destruct (lines27_30_ok small_config fresh st' self bump 1 4 Hinit)
    as (f & q & k & Ef & Hq & Hsq & Hk & Hsk & Hv & Ha); [done..|].
  assert (CausalSelfAttention.forward self bump
          = Err (UnboundLocalError "v")) as E.
  { by apply (forward_unbound_v small_config fresh st' self _ 1 4). }
  exists self, st', f, q, k.
  split; [done|]. split; [exact Ef|].
  split; [done|]. split; [exact Hsq|]. split; [done|]. split; [exact Hsk|].
  split; [done|]. split; [by apply line31_unbound|]. split; [done|].
  intros [y Hy]. by rewrite E in Hy.
Qed.

Lemma finite_on_zeros (s : list nat) : finite_on (zeros s).
Proof.
  intros idx Hidx. exists 0%R. unfold fget, zeros, full.
  by rewrite get_tabulate.
Qed.

(** C7 (code defect).  The claim says the block returns
    x + Attention(Normalize1(x)) followed by
    x + FeedForward(Normalize2(x)), a tensor of the input's shape.  On
    the configuration (8, 10, 2, 2, 8) and the all-zero input of shape
    (1, 4, 8) the block's forward pass returns nothing: its first
    residual step calls the attention module, which raises on
    line 31. *)
Theorem C7_block_forward_returns_no_tensor :
  exists self st',
    Block.init small_config fresh = Ok (self, st') /\
    Block.forward self (zeros [1; 4; 8]%nat) = Err (UnboundLocalError "v") /\
    ~ exists y, Block.forward self (zeros [1; 4; 8]%nat) = Ok y.
Proof.
  destruct (Block_init_ok small_config fresh small_config_good)
    as (self & st' & Hinit).
  exists self, st'. split; [done|].
  assert (Block.forward self (zeros [1; 4; 8]%nat)
          = Err (UnboundLocalError "v")) as E.
  { by apply (Block_forward_unbound_v small_config fresh st' self _ 1 4). }
  split; [done|]. intros [y Hy]. by rewrite E in Hy.
Qed.

(** C8.  The feed-forward module built by the constructor maps the
    embedding width to four times that width with a linear layer,
    applies the exact Gaussian error linear unit
    x * 1/2 * (1 + erf (x / sqrt 2)), and maps back to the embedding
    width with a second linear layer.  On every input of shape
    (B, T, n_embd) it returns an output of that same shape, and the
    output at a position depends on the input at that position
    only. *)
Theorem C8_feed_forward (cfg : GPTConfig.t) (st st' : alloc_state)
    (self : MLP.t) (x : tensor float) (B T : nat) :
  let ne := GPTConfig.n_embd cfg in
  MLP.init cfg st = Ok (self, st') ->
  shape x = [B; T; Z.to_nat ne] ->
  nn.in_features (MLP.c_fc self) = ne /\
  nn.out_features (MLP.c_fc self) = (4 * ne)%Z /\
  nn.in_features (MLP.c_proj self) = (4 * ne)%Z /\
  nn.out_features (MLP.c_proj self) = ne /\
  nn.approximate (MLP.gelu self) = "none" /\
  exists h g y,
    nn.Linear_forward (MLP.c_fc self) x = Ok h /\
    shape h = [B; T; Z.to_nat (4 * ne)] /\
    nn.GELU_forward (MLP.gelu self) h = Ok g /\
    (forall idx r, fget h idx = Fin r ->
       fget g idx = Fin (r * (1 / 2) * (1 + erf (r * / sqrt 2)))) /\
    nn.Linear_forward (MLP.c_proj self) g = Ok y /\
    MLP.forward self x = Ok y /\
    shape y = [B; T; Z.to_nat ne] /\
    forall x' y', shape x' = shape x -> MLP.forward self x' = Ok y' ->
      forall b t, (b < B)%nat -> (t < T)%nat ->
        (forall c, (c < Z.to_nat ne)%nat ->
           fget x [b; t; c] = fget x' [b; t; c]) ->
        forall c, (c < Z.to_nat ne)%nat ->
          fget y [b; t; c] = fget y' [b; t; c].
Proof.
  intros ne Hinit Hx.
  pose proof (MLP_init_spec cfg st) as Hs. cbv zeta in Hs. rewrite Hinit in Hs.
  destruct Hs as (_ & Hi1 & Ho1 & Hi2 & Ho2 & _ & _ & Hg & _).
  destruct (MLP_forward_ok cfg st st' self x [B; T] Hinit Hx)
    as (h & g & y & Hh & Hsh & Hgel & _ & Hgent & Hproj & Hy & Hsy & _).
  repeat (split; [done|]).
  exists h, g, y. repeat (split; [done|]).
  split.
  { intros idx r Hr. by rewrite Hgent, Hr, gelu1_none_Fin. }
  split; [done|]. split; [done|]. split; [by rewrite Hsy|].
  intros x' y' Hx' Hy' b t Hb Ht Hagree c Hc.
  apply (MLP_forward_local cfg st st' self x x' y y' [B; T] [b; t]);
    try done.
  by repeat constructor.
Qed.

Lemma C8_witness :
  exists self st' y,
    MLP.init small_config fresh = Ok (self, st') /\
    nn.out_features (MLP.c_fc self) = 32%Z /\
    MLP.forward self (zeros [1; 4; 8]%nat) = Ok y /\
    shape y = [1; 4; 8]%nat.
Proof.
  destruct (MLP_init_ok small_config fresh) as (self & st' & Hinit); [done|].
  destruct (C8_feed_forward small_config fresh st' self
              (zeros [1; 4; 8]%nat) 1 4 Hinit eq_refl)
    as (_ & Ho & _ & _ & _ & h & g & y & _ & _ & _ & _ & _ & Hy & Hs & _).
  exists self, st', y. split; [exact Hinit|]. split; [exact Ho|].
  split; [exact Hy | exact Hs].
Defined.



(** C10 counterexample.  On the configuration (8, 10, 2, 2, 8), whose
    maximum sequence length is 8, an index batch with 9 positions does
    not make the forward evaluation fail with a SequenceTooLong
    condition. *)
Lemma C10_counterexample :
  exists m st',
    GPT.init small_config fresh = Ok (m, st') /\
    shape idx_1_9 = [1; 9]%nat /\
    (GPTConfig.block_size (GPT.config m) < 9)%Z /\
    ~ exists e, GPT.forward m idx_1_9 = Err e /\ SequenceTooLong e.
Proof.
  pose proof (GPT_init_spec small_config fresh) as Hs. cbv zeta in Hs.
  destruct (GPT.init small_config fresh) as [[m st']|e].
  - destruct Hs as (Hc & _).
    exists m, st'. split; [done|]. split; [done|].
    split; [rewrite Hc; simpl; lia|].
    intros (e & [= <-] & [?|?]); done.
  - exfalso. pose proof small_config_good.
    destruct Hs as [?|[?|[?|[_ ?]]]]; first [done | lia].
Qed.

(** C10 (amended).  Forward evaluation of the top-level model fails
    for every index batch whatever its sequence length: the outcome is
    the same for any two inputs, it is the not-implemented condition
    of the framework's module base class, and it is never a
    SequenceTooLong condition.  The code has no check of the sequence
    length. *)
Theorem C10_failure_ignores_length (m : GPT.t) (idx idx' : tensor Z) :
  GPT.forward m idx = GPT.forward m idx' /\
  exists e, GPT.forward m idx = Err e /\
            e = NotImplementedError /\ ~ SequenceTooLong e.
Proof.
  split; [done|]. exists NotImplementedError.
  split; [done|]. split; [done|]. by intros [?|?].
Qed.
End claims.

(** * Further properties of the program *)

Section storage_facts.
Import torch.
Context {A : Type}.

Lemma indices_in_range (s idx : list nat) :
  In idx (indices s) -> in_range idx s.
Proof.
  revert idx. induction s as [|d s IH]; intros idx H; simpl in H.
  { destruct H as [<-|[]]. constructor. }
  apply in_flat_map in H as (i & Hi%in_seq & H).
  apply in_map_iff in H as (idx' & <- & H).
  constructor; [lia | by apply IH].
Qed.

Lemma ravel_nth_indices (s : list nat) (n : nat) :
  (n < numel s)%nat -> ravel s (nth n (indices s) []) = n.
Proof.
  revert n. induction s as [|d s IH]; intros n Hn; simpl in *.
  { by replace n with 0%nat by lia. }
  assert (0 < numel s)%nat as Hpos by (destruct (numel s); lia).
  assert (n = (n / numel s) * numel s + n mod numel s)%nat as Hdiv.
  { rewrite Nat.mul_comm. apply Nat.div_mod. lia. }
  assert (n mod numel s < numel s)%nat as Hmod by (apply Nat.mod_upper_bound; lia).
  assert (n / numel s < d)%nat as Hq by (apply Nat.Div0.div_lt_upper_bound; lia).
  rewrite Hdiv at 1.
  rewrite (flat_map_blocks_nth _ (numel s)); [|by intros; rewrite length_map, length_indices|done..].
  simpl. rewrite (nth_indep _ [] (n / numel s :: [])) by (by rewrite length_map, length_indices).
  rewrite (map_nth (cons (n / numel s))). simpl. rewrite IH by done. lia.
Qed.

(** Reading every entry of a well-formed tensor back in storage order
    gives the tensor. *)
Lemma tabulate_get (d : A) (t : tensor A) :
  wf t -> tabulate (shape t) (get d t) = t.
Proof.
  intros Hwf. destruct t as [s l]. unfold wf in Hwf. simpl in *.
  unfold tabulate. f_equal. simpl.
  apply (nth_ext _ _ d d).
  { by rewrite length_map, length_indices. }
  intros n Hn. rewrite length_map, length_indices in Hn.
  rewrite (nth_indep _ d (get d (mkTensor s l) [])) by (by rewrite length_map, length_indices).
  rewrite (map_nth (get d (mkTensor s l))). unfold get. simpl.
  by rewrite ravel_nth_indices.
Qed.
End storage_facts.

Section head_facts.
Import torch.
Implicit Type f : gmap string (tensor float).

Lemma narrow_entry (t : tensor float) (B T D start len b i j : nat) :
  shape t = [B; T; D] ->
  (b < B)%nat -> (i < T)%nat -> (j < len)%nat ->
  shape (narrow NaN t 2 start len) = [B; T; len] /\
  fget (narrow NaN t 2 start len) [b; i; j] = fget t [b; i; (j + start)%nat].
Proof.
  intros Ht Hb Hi Hj. unfold narrow. rewrite Ht. split; [done|].
  unfold fget. rewrite get_tabulate by (by apply in_range_3). done.
Qed.

(** Line 28 on a frame that binds [qkv]: the three consecutive pieces
    of width [C] along the last dimension. *)
Lemma line28_ok (self : CausalSelfAttention.t) f (qkv : tensor float)
    (B T C : nat) :
  CausalSelfAttention.n_embd self = Z.of_nat C -> (0 < C)%nat ->
  f !! "qkv" = Some qkv ->
  shape qkv = [B; T; 3 * C]%nat ->
  CausalSelfAttention.line28 self f
  = Ok (<["c" := narrow NaN qkv 2 (2 * C) C]>
          (<["k" := narrow NaN qkv 2 (1 * C) C]>
             (<["q" := narrow NaN qkv 2 (0 * C) C]> f))).
Proof.
  intros He HC Hf Hs. unfold CausalSelfAttention.line28.
  rewrite (load_bound _ _ _ Hf). cbn [mbind result_bind]. rewrite He.
  rewrite (split_even NaN qkv 2 2 3 C);
    [| by rewrite Hs | by rewrite Hs | lia | lia].
  done.
Qed.

(** The tensor that lines 29 to 31 compute from a (B, T, C) tensor:
    its data seen with shape (B, T, H, hs), dimensions 1 and 2
    exchanged. *)
Lemma heads_explicit (self : CausalSelfAttention.t) (B T C H hs : nat) f
    (name : string) (a : tensor float) :
  f !! name = Some a ->
  shape a = [B; T; C] ->
  CausalSelfAttention.n_head self = Z.of_nat H ->
  (0 < H)%nat -> (H * hs = C)%nat ->
  CausalSelfAttention.heads self B T C f name
  = Ok (tabulate [B; H; T; hs]
          (fun idx => get NaN (mkTensor [B; T; H; hs] (data a))
                        (swap_at 1 2 idx))).
Proof.
  intros Hf Ha Hn HH HC. unfold CausalSelfAttention.heads.
  rewrite (load_bound _ _ _ Hf). cbn [mbind result_bind].
  rewrite Hn. unfold py_floordiv.
  destruct (Z.eqb_spec (Z.of_nat H) 0); [lia|]. cbn [mbind result_bind].
  assert (Z.of_nat C / Z.of_nat H = Z.of_nat hs)%Z as ->.
  { rewrite <- HC, Nat2Z.inj_mul, Z.mul_comm. apply Z.div_mul. lia. }
  rewrite view_ok.
  - cbn [mbind result_bind map]. rewrite !Nat2Z.id. by unfold transpose.
  - repeat constructor; lia.
  - rewrite Ha. simpl. rewrite !Nat2Z.id. nia.
Qed.

Lemma heads_entry (a : tensor float) (B T C H hs b h i d : nat) :
  shape a = [B; T; C] -> (H * hs = C)%nat ->
  (b < B)%nat -> (h < H)%nat -> (i < T)%nat -> (d < hs)%nat ->
  fget (tabulate [B; H; T; hs]
          (fun idx => get NaN (mkTensor [B; T; H; hs] (data a))
                        (swap_at 1 2 idx)))
       [b; h; i; d]
  = fget a [b; i; (h * hs + d)%nat].
Proof.
  intros Ha HC Hb Hh Hi Hd. unfold fget.
  rewrite get_tabulate by (by apply in_range_4).
  unfold get. rewrite Ha. cbn [shape data swap_at]. f_equal.
  simpl. rewrite <- HC. nia.
Qed.

(** Line 37 undoes the reshaping of lines 29 to 31. *)
Lemma line37_heads (B T C H hs : nat) f (a : tensor float) :
  wf a -> shape a = [B; T; C] -> (H * hs = C)%nat ->
  f !! "y" = Some (tabulate [B; H; T; hs]
                     (fun idx => get NaN (mkTensor [B; T; H; hs] (data a))
                                   (swap_at 1 2 idx))) ->
  CausalSelfAttention.line37 B T C f = Ok (<["y" := a]> f).
Proof.
  intros Hwf Ha HC Hf. unfold CausalSelfAttention.line37.
  rewrite (load_bound _ _ _ Hf). cbn [mbind result_bind].
  set (a4 := mkTensor [B; T; H; hs] (data a)).
  set (h := tabulate _ _).
  assert (transpose NaN h 1 2
          = Ok (tabulate [B; T; H; hs]
                  (fun idx => get NaN h (swap_at 1 2 idx)))) as ->
    by done.
  cbn [mbind result_bind]. unfold contiguous.
  rewrite view_ok; [|repeat constructor; lia|].
  2:{ simpl. rewrite !Nat2Z.id. nia. }
  cbn [map mbind result_bind]. rewrite !Nat2Z.id. do 2 f_equal.
  destruct a as [sa da]. simpl in Ha. subst sa. f_equal.
  cbn [tabulate data].
  rewrite (map_ext_in _ (get NaN a4)).
  - assert (wf a4) as Hwf4.
    { unfold wf, a4 in *. simpl in *. rewrite Hwf. nia. }
    pose proof (tabulate_get NaN a4 Hwf4) as E.
    apply (f_equal data) in E. exact E.
  - intros idx Hidx%indices_in_range.
    unfold in_range in Hidx.
    destruct idx as [|b [|i [|h' [|d [|]]]]];
      try (repeat (apply Forall2_cons_inv in Hidx as [? Hidx]);
           by apply Forall2_length in Hidx);
      try by apply Forall2_length in Hidx.
    apply Forall2_cons in Hidx as [Hb Hidx].
    apply Forall2_cons in Hidx as [Hi Hidx].
    apply Forall2_cons in Hidx as [Hh Hidx].
    apply Forall2_cons in Hidx as [Hd _].
    unfold h.
    change (swap_at 1 2 [b; i; h'; d]) with [b; h'; i; d].
    rewrite get_tabulate by (by apply in_range_4). done.
Qed.
End head_facts.

Section attention_extras.
Import torch.
Implicit Type f : gmap string (tensor float).

(** The sizes a constructed attention module works with: [H] heads of
    width [hs], [H * hs] channels. *)
Lemma built_dims (cfg : GPTConfig.t) (st st' : alloc_state)
    (self : CausalSelfAttention.t) :
  CausalSelfAttention.init cfg st = Ok (self, st') ->
  (0 < GPTConfig.n_head cfg)%Z -> (0 < GPTConfig.n_embd cfg)%Z ->
  let C := Z.to_nat (GPTConfig.n_embd cfg) in
  let H := Z.to_nat (GPTConfig.n_head cfg) in
  let hs := Z.to_nat (GPTConfig.n_embd cfg / GPTConfig.n_head cfg) in
  CausalSelfAttention.n_head self = Z.of_nat H /\
  CausalSelfAttention.n_embd self = Z.of_nat C /\
  (0 < H)%nat /\ (0 < C)%nat /\ (H * hs = C)%nat.
Proof.
  intros Hinit Hnh Hne C H hs.
  pose proof (CausalSelfAttention_init_spec cfg st) as Hs. cbv zeta in Hs.
  rewrite Hinit in Hs. destruct Hs as (_ & Hmod & _ & _ & Hh & He & _).
  unfold C, H, hs. rewrite Hh, He.
  repeat split; try lia.
  rewrite <- Z2Nat.inj_mul by (try apply Z.div_pos; lia).
  f_equal. symmetry. apply Z_div_exact_full_2; [lia | done].
Qed.

(** X1.  The mask buffer of a constructed attention module has shape
    (1, 1, block_size, block_size); its entry (i, j) is one when
    j <= i and zero when j > i. *)
Theorem X1_mask_is_lower_triangular (cfg : GPTConfig.t)
    (st st' : alloc_state) (self : CausalSelfAttention.t) :
  CausalSelfAttention.init cfg st = Ok (self, st') ->
  let bs := Z.to_nat (GPTConfig.block_size cfg) in
  shape (CausalSelfAttention.bias self) = [1; 1; bs; bs]%nat /\
  forall i j, (i < bs)%nat -> (j < bs)%nat ->
    fget (CausalSelfAttention.bias self) [0; 0; i; j]%nat
    = if (j <=? i)%nat then Fin 1 else Fin 0.
Proof.
  intros Hinit bs.
  pose proof (CausalSelfAttention_init_spec cfg st) as Hs. cbv zeta in Hs.
  rewrite Hinit in Hs.
  destruct Hs as (_ & _ & _ & _ & _ & _ & _ & _ & _ & _ & -> & _).
  split; [done|]. intros i j Hi Hj. by apply mask_buffer_entry.
Qed.

Lemma X1_witness :
  exists self st',
    CausalSelfAttention.init small_config fresh = Ok (self, st') /\
    shape (CausalSelfAttention.bias self) = [1; 1; 8; 8]%nat /\
    fget (CausalSelfAttention.bias self) [0; 0; 2; 5]%nat = Fin 0 /\
    fget (CausalSelfAttention.bias self) [0; 0; 5; 2]%nat = Fin 1.
Proof.
  destruct (CausalSelfAttention_init_ok small_config fresh)
    as (self & st' & Hinit); [done..|].
  destruct (X1_mask_is_lower_triangular small_config fresh st' self Hinit)
    as [Hs He].
  exists self, st'. split; [exact Hinit|]. split; [exact Hs|].
  split; [apply (He 2%nat 5%nat) | apply (He 5%nat 2%nat)]; simpl; lia.
Defined.

(** X2.  A constructed attention module keeps the head count and the
    embedding width of its configuration and owns exactly four
    parameter tensors, all distinct: the weight (3 n_embd, n_embd) and
    bias (3 n_embd) of the combined projection and the weight
    (n_embd, n_embd) and bias (n_embd) of the output projection. *)
Theorem X2_attention_allocation (cfg : GPTConfig.t) (st st' : alloc_state)
    (self : CausalSelfAttention.t) :
  CausalSelfAttention.init cfg st = Ok (self, st') ->
  let ne := GPTConfig.n_embd cfg in
  CausalSelfAttention.n_head self = GPTConfig.n_head cfg /\
  CausalSelfAttention.n_embd self = ne /\
  shape (value (nn.weight (CausalSelfAttention.c_attn self)))
    = [Z.to_nat (3 * ne); Z.to_nat ne] /\
  (exists p, nn.bias (CausalSelfAttention.c_attn self) = Some p /\
             shape (value p) = [Z.to_nat (3 * ne)]) /\
  shape (value (nn.weight (CausalSelfAttention.c_proj self)))
    = [Z.to_nat ne; Z.to_nat ne] /\
  (exists p, nn.bias (CausalSelfAttention.c_proj self) = Some p /\
             shape (value p) = [Z.to_nat ne]) /\
  length (CausalSelfAttention_parameters self) = 4%nat /\
  NoDup (CausalSelfAttention_parameters self).
Proof.
  intros Hinit ne.
  pose proof (CausalSelfAttention_init_spec cfg st) as Hs. cbv zeta in Hs.
  rewrite Hinit in Hs.
  destruct Hs as (_ & _ & _ & _ & Hh & He & HW1 & Hb1 & HW2 & Hb2 & _ & Hp & _).
  repeat (split; [done|]). rewrite Hp.
  split; [by rewrite length_seq | apply NoDup_seq].
Qed.

Lemma X2_witness :
  exists self st',
    CausalSelfAttention.init small_config fresh = Ok (self, st') /\
    CausalSelfAttention.n_head self = 2%Z /\
    shape (value (nn.weight (CausalSelfAttention.c_attn self))) = [24; 8]%nat /\
    length (CausalSelfAttention_parameters self) = 4%nat.
Proof.
  destruct (CausalSelfAttention_init_ok small_config fresh)
    as (self & st' & Hinit); [done..|].
  destruct (X2_attention_allocation small_config fresh st' self Hinit)
    as (Hh & _ & HW & _ & _ & _ & Hl & _).
  exists self, st'. split; [exact Hinit|]. split; [exact Hh|].
  split; [exact HW | exact Hl].
Defined.

(** X3.  Line 28, run on a frame that binds [qkv] to a tensor of shape
    (B, T, 3 n_embd), binds [q], [k] and [c] to tensors of shape
    (B, T, n_embd): [q] holds channels 0 to n_embd - 1 of [qkv], [k]
    the next n_embd channels and [c] the last n_embd.  It binds no
    [v]. *)
Theorem X3_split_pieces (cfg : GPTConfig.t) (st st' : alloc_state)
    (self : CausalSelfAttention.t) f (qkv : tensor float) (B T : nat) :
  CausalSelfAttention.init cfg st = Ok (self, st') ->
  (0 < GPTConfig.n_head cfg)%Z -> (0 < GPTConfig.n_embd cfg)%Z ->
  let C := Z.to_nat (GPTConfig.n_embd cfg) in
  f !! "qkv" = Some qkv ->
  shape qkv = [B; T; 3 * C]%nat ->
  exists q k c,
    CausalSelfAttention.line28 self f
    = Ok (<["c" := c]> (<["k" := k]> (<["q" := q]> f))) /\
    shape q = [B; T; C] /\ shape k = [B; T; C] /\ shape c = [B; T; C] /\
    (forall b t j, (b < B)%nat -> (t < T)%nat -> (j < C)%nat ->
       fget q [b; t; j] = fget qkv [b; t; j] /\
       fget k [b; t; j] = fget qkv [b; t; (j + C)%nat] /\
       fget c [b; t; j] = fget qkv [b; t; (j + 2 * C)%nat]) /\
    (<["c" := c]> (<["k" := k]> (<["q" := q]> f))) !! "v" = f !! "v".
Proof.
  intros Hinit Hnh Hne C Hf Hs.
  destruct (built_dims cfg st st' self Hinit Hnh Hne) as (_ & He & _ & HC & _).
  fold C in He, HC.
  do 3 eexists. split; [by apply (line28_ok self f qkv B T C)|].
  split; [by unfold narrow; rewrite Hs|].
  split; [by unfold narrow; rewrite Hs|].
  split; [by unfold narrow; rewrite Hs|].
  split; [|by rewrite !lookup_insert_ne by done].
  intros b t j Hb Ht Hj.
  destruct (narrow_entry qkv B T (3 * C) (0 * C) C b t j Hs Hb Ht Hj) as [_ E0].
  destruct (narrow_entry qkv B T (3 * C) (1 * C) C b t j Hs Hb Ht Hj) as [_ E1].
  destruct (narrow_entry qkv B T (3 * C) (2 * C) C b t j Hs Hb Ht Hj) as [_ E2].
  rewrite E0, E1, E2. simpl. rewrite !Nat.add_0_r. done.
Qed.

Lemma X3_witness :
  let f : gmap string (tensor float) := {["qkv" := zeros [1; 4; 24]%nat]} in
  exists self st' q k c,
    CausalSelfAttention.init small_config fresh = Ok (self, st') /\
    CausalSelfAttention.line28 self f
    = Ok (<["c" := c]> (<["k" := k]> (<["q" := q]> f))) /\
    shape k = [1; 4; 8]%nat /\
    fget k [0; 1; 2]%nat = fget (zeros [1; 4; 24]%nat) [0; 1; 10]%nat.
Proof.
  intros f.
  destruct (CausalSelfAttention_init_ok small_config fresh)
    as (self & st' & Hinit); [done..|].
  destruct (X3_split_pieces small_config fresh st' self f
              (zeros [1; 4; 24]%nat) 1 4 Hinit)
    as (q & k & c & E & _ & Hk & _ & Hent & _);
    [reflexivity | reflexivity | reflexivity | reflexivity |].
  exists self, st', q, k, c. split; [exact Hinit|]. split; [exact E|].
  split; [exact Hk|].
  destruct (Hent 0%nat 1%nat 2%nat) as (_ & E1 & _); [simpl; lia..|].
  exact E1.
Defined.

(** X4.  Lines 29 and 30 (and the right-hand side of line 31) turn a
    (B, T, n_embd) tensor into one of shape (B, n_head, T, hs) with
    hs = n_embd / n_head: head [h] holds channels h * hs to
    h * hs + hs - 1 of every position. *)
Theorem X4_heads_layout (cfg : GPTConfig.t) (st st' : alloc_state)
    (self : CausalSelfAttention.t) f (name : string) (a : tensor float)
    (B T : nat) :
  CausalSelfAttention.init cfg st = Ok (self, st') ->
  (0 < GPTConfig.n_head cfg)%Z -> (0 < GPTConfig.n_embd cfg)%Z ->
  let C := Z.to_nat (GPTConfig.n_embd cfg) in
  let H := Z.to_nat (GPTConfig.n_head cfg) in
  let hs := Z.to_nat (GPTConfig.n_embd cfg / GPTConfig.n_head cfg) in
  f !! name = Some a ->
  shape a = [B; T; C] ->
  exists t,
    CausalSelfAttention.heads self B T C f name = Ok t /\
    shape t = [B; H; T; hs] /\
    (H * hs = C)%nat /\
    forall b h i d, (b < B)%nat -> (h < H)%nat -> (i < T)%nat -> (d < hs)%nat ->
      fget t [b; h; i; d] = fget a [b; i; (h * hs + d)%nat].
Proof.
  intros Hinit Hnh Hne C H hs Hf Ha.
  destruct (built_dims cfg st st' self Hinit Hnh Hne)
    as (Hh & _ & HH & _ & HC).
  fold C H hs in Hh, HH, HC.
  eexists. split; [by apply (heads_explicit self B T C H hs f name a)|].
  split; [done|]. split; [done|].
  intros b h i d Hb Hh' Hi Hd. by apply (heads_entry a B T C H hs).
Qed.

Lemma X4_witness :
  let f : gmap string (tensor float) := {["q" := bump]} in
  exists self st' t,
    CausalSelfAttention.init small_config fresh = Ok (self, st') /\
    CausalSelfAttention.heads self 1 4 8 f "q" = Ok t /\
    shape t = [1; 2; 4; 4]%nat /\
    fget t [0; 1; 3; 2]%nat = fget bump [0; 3; 6]%nat.
Proof.
  intros f.
  destruct (CausalSelfAttention_init_ok small_config fresh)
    as (self & st' & Hinit); [done..|].
  destruct (X4_heads_layout small_config fresh st' self f "q" bump 1 4 Hinit)
    as (t & E & Hs & _ & Hent);
    [reflexivity | reflexivity | reflexivity | reflexivity |].
  exists self, st', t. split; [exact Hinit|]. split; [exact E|].
  split; [exact Hs|].
  apply (Hent 0%nat 1%nat 3%nat 2%nat); vm_compute; lia.
Defined.

(** X5.  Line 37 undoes the reshaping into heads: when [y] is bound to
    the heads of a well-formed (B, T, n_embd) tensor, transposing
    dimensions 1 and 2 back and viewing the result as (B, T, n_embd)
    gives that tensor again. *)
Theorem X5_merge_undoes_heads (cfg : GPTConfig.t) (st st' : alloc_state)
    (self : CausalSelfAttention.t) f (name : string) (a : tensor float)
    (B T : nat) :
  CausalSelfAttention.init cfg st = Ok (self, st') ->
  (0 < GPTConfig.n_head cfg)%Z -> (0 < GPTConfig.n_embd cfg)%Z ->
  let C := Z.to_nat (GPTConfig.n_embd cfg) in
  f !! name = Some a ->
  shape a = [B; T; C] -> wf a ->
  exists t,
    CausalSelfAttention.heads self B T C f name = Ok t /\
    forall g : gmap string (tensor float),
      g !! "y" = Some t ->
      CausalSelfAttention.line37 B T C g = Ok (<["y" := a]> g).
Proof.
  intros Hinit Hnh Hne C Hf Ha Hwf.
  destruct (built_dims cfg st st' self Hinit Hnh Hne)
    as (Hh & _ & HH & _ & HC).
  fold C in HC.
  set (H := Z.to_nat (GPTConfig.n_head cfg)) in *.
  set (hs := Z.to_nat (GPTConfig.n_embd cfg / GPTConfig.n_head cfg)) in *.
  eexists. split; [by apply (heads_explicit self B T C H hs f name a)|].
  intros g Hg. by apply (line37_heads B T C H hs g a).
Qed.

Lemma X5_witness :
  let f : gmap string (tensor float) := {["q" := bump]} in
  exists self st' t,
    CausalSelfAttention.init small_config fresh = Ok (self, st') /\
    CausalSelfAttention.heads self 1 4 8 f "q" = Ok t /\
    CausalSelfAttention.line37 1 4 8 {["y" := t]}
    = Ok (<["y" := bump]> {["y" := t]}).
Proof.
  intros f.
  destruct (CausalSelfAttention_init_ok small_config fresh)
    as (self & st' & Hinit); [done..|].
  destruct (X5_merge_undoes_heads small_config fresh st' self f "q" bump 1 4
              Hinit)
    as (t & E & Hback);
    [reflexivity | reflexivity | reflexivity | reflexivity | apply wf_tabulate |].
  exists self, st', t. split; [exact Hinit|]. split; [exact E|].
  apply Hback. apply lookup_singleton_eq.
Defined.

(** X6.  The attention forward pass returns a tensor for no module and
    no input: every call raises. *)
Theorem X6_attention_forward_never_returns (self : CausalSelfAttention.t)
    (x : tensor float) :
  (exists e, CausalSelfAttention.forward self x = Err e) /\
  forall y, CausalSelfAttention.forward self x <> Ok y.
Proof.
  destruct (forward_raises self x) as [e He].
  split; [by exists e|]. intros y. by rewrite He.
Qed.

(** X7.  Inputs of the wrong shape are rejected before line 31: an
    input that is not three-dimensional fails the unpacking of line 23
    with a ValueError, and a three-dimensional input whose last size is
    not n_embd is rejected by the combined projection of line 27 with a
    RuntimeError. *)
Theorem X7_ill_shaped_input (cfg : GPTConfig.t) (st st' : alloc_state)
    (self : CausalSelfAttention.t) (x : tensor float) :
  CausalSelfAttention.init cfg st = Ok (self, st') ->
  (length (shape x) <> 3%nat ->
   CausalSelfAttention.forward self x = Err ValueError) /\
  (forall B T C, shape x = [B; T; C] ->
     C <> Z.to_nat (GPTConfig.n_embd cfg) ->
     CausalSelfAttention.forward self x = Err RuntimeError).
Proof.
  intros Hinit. split.
  - intros Hlen. unfold CausalSelfAttention.forward.
    by destruct (shape x) as [|? [|? [|? [|]]]].
  - intros B T C Hx HC.
    pose proof (CausalSelfAttention_init_spec cfg st) as Hs. cbv zeta in Hs.
    rewrite Hinit in Hs.
    destruct Hs as (_ & _ & _ & _ & _ & _ & HW & _).
    unfold CausalSelfAttention.forward. rewrite Hx.
    unfold CausalSelfAttention.body, CausalSelfAttention.line27.
    rewrite (load_bound _ _ x) by apply lookup_singleton_eq.
    cbn [mbind result_bind]. unfold nn.Linear_forward, linear.
    rewrite HW, Hx. simpl.
    by destruct (Nat.eqb_spec C (Z.to_nat (GPTConfig.n_embd cfg))).
Qed.

Lemma X7_witness :
  exists self st',
    CausalSelfAttention.init small_config fresh = Ok (self, st') /\
    CausalSelfAttention.forward self (zeros [4; 8]%nat) = Err ValueError /\
    CausalSelfAttention.forward self (zeros [1; 4; 6]%nat) = Err RuntimeError.
Proof.
  destruct (CausalSelfAttention_init_ok small_config fresh)
    as (self & st' & Hinit); [done..|].
  exists self, st'. split; [exact Hinit|]. split.
  - apply (X7_ill_shaped_input small_config fresh st' self _ Hinit).
    simpl. lia.
  - apply (X7_ill_shaped_input small_config fresh st' self _ Hinit) with 1%nat 4%nat 6%nat.
    + reflexivity.
    + simpl. lia.
Defined.
End attention_extras.

Section mask_bound_extras.
Import torch.
Implicit Type f : gmap string (tensor float).

(** The slice of the mask buffer read on line 34 has at most
    [block_size] rows and columns. *)
Lemma mask_slice (bs T : nat) :
  slice_prefix NaN (mask_buffer bs) [None; None; Some T; Some T]
  = Ok (tabulate [1; 1; Nat.min T bs; Nat.min T bs]%nat
          (fun idx => get NaN (mask_buffer bs) idx)).
Proof. reflexivity. Qed.

Lemma line34_too_long (self : CausalSelfAttention.t) f (s : tensor float)
    (bs B nh T : nat) :
  CausalSelfAttention.bias self = mask_buffer bs ->
  f !! "att" = Some s ->
  shape s = [B; nh; T; T] ->
  (bs < T)%nat -> (1 < bs)%nat ->
  CausalSelfAttention.line34 self T f = Err RuntimeError.
Proof.
  intros Hbias Hf Hs HT Hbs. unfold CausalSelfAttention.line34.
  rewrite (load_bound _ _ _ Hf). cbn [mbind result_bind].
  rewrite Hbias, mask_slice, (Nat.min_r T bs) by lia.
  cbn [mbind result_bind]. unfold masked_fill.
  cbn [eq_zero shape tabulate]. rewrite Hs.
  unfold broadcast_shapes. cbn [rev app broadcast_rev].
  destruct (Nat.eqb_spec T bs); [lia|].
  destruct (Nat.eqb_spec T 1); [lia|].
  by destruct (Nat.eqb_spec bs 1); [lia|].
Qed.

(** With a mask buffer of a single entry nothing is masked, whatever
    the sequence length. *)
Lemma line34_block_size_one (self : CausalSelfAttention.t) f
    (s : tensor float) (B nh T : nat) :
  CausalSelfAttention.bias self = mask_buffer 1 ->
  f !! "att" = Some s ->
  shape s = [B; nh; T; T] ->
  (1 <= T)%nat ->
  exists m,
    CausalSelfAttention.line34 self T f = Ok (<["att" := m]> f) /\
    shape m = [B; nh; T; T] /\
    forall b h i j, (b < B)%nat -> (h < nh)%nat -> (i < T)%nat -> (j < T)%nat ->
      fget m [b; h; i; j] = fget s [b; h; i; j].
Proof.
  intros Hbias Hf Hs HT. unfold CausalSelfAttention.line34.
  rewrite (load_bound _ _ _ Hf). cbn [mbind result_bind].
  rewrite Hbias, mask_slice, (Nat.min_r T 1) by lia.
  cbn [mbind result_bind]. unfold masked_fill.
  cbn [eq_zero shape tabulate]. rewrite Hs.
  assert (broadcast_shapes [B; nh; T; T] [1; 1; 1; 1]%nat
          = Some [B; nh; T; T]) as ->.
  { unfold broadcast_shapes. cbn [rev app broadcast_rev].
    destruct (Nat.eqb_spec T 1) as [->|]; simpl;
      destruct (Nat.eqb_spec nh 1) as [->|]; simpl;
        destruct (Nat.eqb_spec B 1) as [->|]; done. }
  rewrite decide_True by done.
  eexists. split; [reflexivity|]. split; [reflexivity|].
  intros b h i j Hb Hh Hi Hj. unfold fget at 1.
  rewrite get_tabulate by (by apply in_range_4).
  unfold masked_fill_at, bget.
  match goal with
  | |- context [shape (eq_zero ?t)] =>
      change (shape (eq_zero t)) with [1; 1; 1; 1]%nat
  end.
  change (bidx [1; 1; 1; 1]%nat [b; h; i; j]) with [0; 0; 0; 0]%nat.
  rewrite get_eq_zero. unfold fget at 1.
  rewrite get_tabulate by (apply in_range_4; lia).
  change (get NaN (mask_buffer 1) [0; 0; 0; 0]%nat)
    with (fget (mask_buffer 1) [0; 0; 0; 0]%nat).
  rewrite mask_buffer_entry by lia. simpl.
  destruct (Req_dec_T 1 0); [lra | done].
Qed.

Lemma built_bias (cfg : GPTConfig.t) (st st' : alloc_state)
    (self : CausalSelfAttention.t) :
  CausalSelfAttention.init cfg st = Ok (self, st') ->
  (0 <= GPTConfig.block_size cfg)%Z /\
  CausalSelfAttention.bias self
  = mask_buffer (Z.to_nat (GPTConfig.block_size cfg)).
Proof.
  intros Hinit.
  pose proof (CausalSelfAttention_init_spec cfg st) as Hs. cbv zeta in Hs.
  rewrite Hinit in Hs.
  by destruct Hs as (_ & _ & _ & ? & _ & _ & _ & _ & _ & _ & ? & _).
Qed.

(** X8.  Line 34 does not truncate or extend the mask: on scores of
    shape (B, nh, T, T) with T larger than a block_size of at least 2,
    the slice of the mask buffer has only block_size rows and columns,
    does not broadcast to the scores, and the statement raises a
    RuntimeError. *)
Theorem X8_mask_rejects_long_sequence (cfg : GPTConfig.t)
    (st st' : alloc_state) (self : CausalSelfAttention.t) f
    (s : tensor float) (B nh T : nat) :
  CausalSelfAttention.init cfg st = Ok (self, st') ->
  f !! "att" = Some s ->
  shape s = [B; nh; T; T] ->
  (GPTConfig.block_size cfg < Z.of_nat T)%Z ->
  (1 < GPTConfig.block_size cfg)%Z ->
  CausalSelfAttention.line34 self T f = Err RuntimeError.
Proof.
  intros Hinit Hf Hs HT Hbs.
  destruct (built_bias cfg st st' self Hinit) as [Hpos Hbias].
  apply (line34_too_long self f s _ B nh T Hbias Hf Hs); lia.
Qed.

Lemma X8_witness :
  let f : gmap string (tensor float) := {["att" := zeros [1; 2; 9; 9]%nat]} in
  exists self st',
    CausalSelfAttention.init small_config fresh = Ok (self, st') /\
    CausalSelfAttention.line34 self 9 f = Err RuntimeError.
Proof.
  intros f.
  destruct (CausalSelfAttention_init_ok small_config fresh)
    as (self & st' & Hinit); [done..|].
  exists self, st'. split; [exact Hinit|].
  apply (X8_mask_rejects_long_sequence small_config fresh st' self f
           (zeros [1; 2; 9; 9]%nat) 1 2 9 Hinit);
    [reflexivity | reflexivity | simpl; lia | simpl; lia].
Defined.

(** X9.  With block_size = 1 the mask buffer is the single entry 1 and
    its slice broadcasts to scores of any length: line 34 then masks
    nothing, and for T > 1 the entries above the diagonal keep their
    scores. *)
Theorem X9_block_size_one_masks_nothing (cfg : GPTConfig.t)
    (st st' : alloc_state) (self : CausalSelfAttention.t) f
    (s : tensor float) (B nh T : nat) :
  CausalSelfAttention.init cfg st = Ok (self, st') ->
  GPTConfig.block_size cfg = 1%Z ->
  f !! "att" = Some s ->
  shape s = [B; nh; T; T] ->
  (1 <= T)%nat ->
  exists m,
    CausalSelfAttention.line34 self T f = Ok (<["att" := m]> f) /\
    shape m = [B; nh; T; T] /\
    forall b h i j, (b < B)%nat -> (h < nh)%nat -> (i < T)%nat -> (j < T)%nat ->
      fget m [b; h; i; j] = fget s [b; h; i; j].
Proof.
  intros Hinit Hbs Hf Hs HT.
  destruct (built_bias cfg st st' self Hinit) as [_ Hbias].
  rewrite Hbs in Hbias.
  by apply (line34_block_size_one self f s B nh T).
Qed.

Lemma X9_witness :
  let f : gmap string (tensor float) := {["att" := zeros [1; 2; 3; 3]%nat]} in
  exists self st' m,
    CausalSelfAttention.init (GPTConfig.mk 1 10 2 2 8) fresh = Ok (self, st') /\
    CausalSelfAttention.line34 self 3 f = Ok (<["att" := m]> f) /\
    fget m [0; 0; 0; 2]%nat = fget (zeros [1; 2; 3; 3]%nat) [0; 0; 0; 2]%nat.
Proof.
  intros f.
  destruct (CausalSelfAttention_init_ok (GPTConfig.mk 1 10 2 2 8) fresh)
    as (self & st' & Hinit); [done..|].
  destruct (X9_block_size_one_masks_nothing (GPTConfig.mk 1 10 2 2 8) fresh st'
              self f (zeros [1; 2; 3; 3]%nat) 1 2 3 Hinit)
    as (m & E & _ & Hent);
    [reflexivity | reflexivity | reflexivity | lia |].
  exists self, st', m. split; [exact Hinit|]. split; [exact E|].
  apply Hent; lia.
Defined.
End mask_bound_extras.

Section weight_extras.
Import torch.
Implicit Type f : gmap string (tensor float).

Lemma Rsum_elem_le (l : list R) (x acc : R) :
  Forall (fun y => 0 <= y)%R l -> In x l -> (0 <= acc)%R ->
  (x <= fold_left Rplus l acc)%R.
Proof.
  intros H. revert acc. induction H as [|y l Hy Hl IH]; intros acc Hin Hacc.
  { destruct Hin. }
  simpl. destruct Hin as [->|Hin].
  - pose proof (Rsum_acc_ge l (acc + x) Hl). lra.
  - apply IH; [done | lra].
Qed.

(** Every entry of the softmax of a masked row with a real score is a
    real number between 0 and 1. *)
Lemma softmax1_row_bounds (row : list float) (a : float) :
  Forall masked_entry row ->
  Exists (fun a => exists r, a = Fin r) row ->
  In a row ->
  exists w, softmax1 row a = Fin w /\ (0 <= w <= 1)%R.
Proof.
  intros Hrow Hex Ha.
  destruct (softmax1_row row Hrow Hex) as (M & S & HS & Hent & Hsum).
  assert (masked_entry a) as Hma.
  { rewrite Forall_forall in Hrow. by apply Hrow, list_elem_of_In. }
  exists (shifted M a / S)%R. split; [by apply Hent|].
  assert (0 <= shifted M a / S)%R as Hlo.
  { apply Rmult_le_pos; [apply shifted_nonneg|].
    left. by apply Rinv_0_lt_compat. }
  split; [done|].
  rewrite (map_ext_in _ (fun a => Fin (shifted M a / S))) in Hsum.
  2:{ intros b Hb. apply Hent. rewrite Forall_forall in Hrow.
      by apply Hrow, list_elem_of_In. }
  rewrite <- (map_map (fun a => shifted M a / S)%R Fin), fsum_Fin in Hsum.
  injection Hsum as Hsum. unfold Rsum in Hsum. rewrite <- Hsum.
  apply Rsum_elem_le; [| |lra].
  - apply Forall_forall. intros y (b & <- & _)%list_elem_of_In%in_map_iff.
    apply Rmult_le_pos; [apply shifted_nonneg|].
    left. by apply Rinv_0_lt_compat.
  - by apply (in_map (fun a => shifted M a / S)%R).
Qed.

(** The tensor line 35 binds, and its entries. *)
Lemma line35_value f (m : tensor float) (B nh T : nat) :
  f !! "att" = Some m ->
  shape m = [B; nh; T; T] ->
  exists p,
    CausalSelfAttention.line35 f = Ok (<["att" := p]> f) /\
    shape p = [B; nh; T; T] /\
    forall b h i j, (b < B)%nat -> (h < nh)%nat -> (i < T)%nat -> (j < T)%nat ->
      fget p [b; h; i; j]
      = softmax1 (map (fun j' => fget m [b; h; i; j']) (seq 0 T))
                 (fget m [b; h; i; j]).
Proof.
  intros Hf Hm. unfold CausalSelfAttention.line35.
  rewrite (load_bound _ _ _ Hf). cbn [mbind result_bind].
  unfold softmax. rewrite Hm. cbn [length wrap_dim]. cbn [mbind result_bind].
  eexists. split; [reflexivity|]. split; [reflexivity|].
  intros b h i j Hb Hh Hi Hj. unfold fget at 1.
  rewrite get_tabulate by (by apply in_range_4).
  unfold fiber. by rewrite Hm.
Qed.

(** The rows of a masked score tensor are masked rows with a real score
    on the diagonal. *)
Lemma masked_rows (m : tensor float) (B nh T b h i : nat) :
  (forall b h i j, (b < B)%nat -> (h < nh)%nat -> (i < T)%nat -> (j < T)%nat ->
     if (j <=? i)%nat then exists r, fget m [b; h; i; j] = Fin r
     else fget m [b; h; i; j] = NInf) ->
  (b < B)%nat -> (h < nh)%nat -> (i < T)%nat ->
  let row := map (fun j => fget m [b; h; i; j]) (seq 0 T) in
  Forall masked_entry row /\ Exists (fun a => exists r, a = Fin r) row.
Proof.
  intros Hent Hb Hh Hi row. split.
  - apply Forall_forall. intros a (j & <- & Hj%in_seq)%list_elem_of_In%in_map_iff.
    specialize (Hent b h i j Hb Hh Hi ltac:(lia)).
    destruct (j <=? i)%nat; [by right | by left].
  - apply Exists_exists. exists (fget m [b; h; i; i]). split.
    + apply list_elem_of_In, in_map_iff. exists i. split; [done|].
      apply in_seq. lia.
    + specialize (Hent b h i i Hb Hh Hi Hi). by rewrite Nat.leb_refl in Hent.
Qed.

(** The three statements of lines 33 to 35 on a frame that binds real
    [q] and [k], with every intermediate tensor described. *)
Lemma lines33_35 (self : CausalSelfAttention.t) f (q k : tensor float)
    (bs B nh T hs : nat) :
  CausalSelfAttention.bias self = mask_buffer bs ->
  f !! "q" = Some q -> f !! "k" = Some k ->
  shape q = [B; nh; T; hs] -> shape k = [B; nh; T; hs] ->
  finite_on q -> finite_on k -> (0 < hs)%nat -> (T <= bs)%nat ->
  exists s m p,
    CausalSelfAttention.line33 f = Ok (<["att" := s]> f) /\
    CausalSelfAttention.line34 self T (<["att" := s]> f)
    = Ok (<["att" := m]> (<["att" := s]> f)) /\
    CausalSelfAttention.line35 (<["att" := m]> (<["att" := s]> f))
    = Ok (<["att" := p]> (<["att" := m]> (<["att" := s]> f))) /\
    shape p = [B; nh; T; T] /\
    forall b h i j, (b < B)%nat -> (h < nh)%nat -> (i < T)%nat -> (j < T)%nat ->
      fget m [b; h; i; j]
      = (if (j <=? i)%nat
         then Fin (dot q k hs b h i j * (1 / sqrt (INR hs))) else NInf) /\
      fget p [b; h; i; j]
      = softmax1 (map (fun j' => fget m [b; h; i; j']) (seq 0 T))
                 (fget m [b; h; i; j]).
Proof.
  intros Hbias Hfq Hfk Hq Hk Fq Fk Hhs HT.
  destruct (line33_ok f q k B nh T hs Hfq Hfk Hq Hk Fq Fk Hhs)
    as (s & E33 & Hs & Hsent).
  destruct (line34_ok self (<["att" := s]> f) s bs B nh T Hbias
              (lookup_insert_eq _ _ _) Hs HT)
    as (m & E34 & Hm & Hment).
  destruct (line35_value (<["att" := m]> (<["att" := s]> f)) m B nh T
              (lookup_insert_eq _ _ _) Hm)
    as (p & E35 & Hp & Hpent).
  exists s, m, p. repeat (split; [done|]).
  intros b h i j Hb Hh Hi Hj. split; [|by apply Hpent].
  rewrite Hment by done. destruct (j <=? i)%nat; [|done]. by apply Hsent.
Qed.

Lemma masked_scores_form (q k : tensor float) (m : tensor float)
    (B nh T hs : nat) :
  (forall b h i j, (b < B)%nat -> (h < nh)%nat -> (i < T)%nat -> (j < T)%nat ->
     fget m [b; h; i; j]
     = (if (j <=? i)%nat
        then Fin (dot q k hs b h i j * (1 / sqrt (INR hs))) else NInf)) ->
  forall b h i j, (b < B)%nat -> (h < nh)%nat -> (i < T)%nat -> (j < T)%nat ->
    if (j <=? i)%nat then exists r, fget m [b; h; i; j] = Fin r
    else fget m [b; h; i; j] = NInf.
Proof.
  intros H b h i j Hb Hh Hi Hj. rewrite H by done.
  destruct (j <=? i)%nat; [by eexists | done].
Qed.

Lemma bounded_finite (M : R) (t : tensor float) :
  bounded_on M t -> finite_on t.
Proof. intros H idx Hidx. destruct (H idx Hidx) as (r & Hr & _). by exists r. Qed.

Lemma bounded_on_zeros (M : R) (s : list nat) :
  (0 <= M)%R -> bounded_on M (zeros s).
Proof.
  intros HM idx Hidx. exists 0%R. unfold fget, zeros, full.
  rewrite get_tabulate by done. split; [done|]. by rewrite Rabs_R0.
Qed.

Lemma dot_fits_4_1 : dot_fits 4 1.
Proof. unfold dot_fits, float32_max, float32_u. simpl. lra. Qed.

(** X10.  The attention weights that lines 33 to 35 compute from [q]
    and [k] are probabilities: every entry of the softmax output is a
    real number between 0 and 1.  The entries of [q] and [k] are real
    numbers of magnitude at most [M], small enough for the float32 dot
    products of line 33 to stay finite. *)
Theorem X10_weights_are_probabilities (cfg : GPTConfig.t)
    (st st' : alloc_state) (self : CausalSelfAttention.t) f
    (q k : tensor float) (B nh T hs : nat) (M : R) :
  CausalSelfAttention.init cfg st = Ok (self, st') ->
  f !! "q" = Some q -> f !! "k" = Some k ->
  shape q = [B; nh; T; hs] -> shape k = [B; nh; T; hs] ->
  bounded_on M q -> bounded_on M k -> dot_fits hs M ->
  (0 < hs)%nat -> (Z.of_nat T <= GPTConfig.block_size cfg)%Z ->
  exists s m p,
    CausalSelfAttention.line33 f = Ok (<["att" := s]> f) /\
    CausalSelfAttention.line34 self T (<["att" := s]> f)
    = Ok (<["att" := m]> (<["att" := s]> f)) /\
    CausalSelfAttention.line35 (<["att" := m]> (<["att" := s]> f))
    = Ok (<["att" := p]> (<["att" := m]> (<["att" := s]> f))) /\
    forall b h i j, (b < B)%nat -> (h < nh)%nat -> (i < T)%nat -> (j < T)%nat ->
      exists w, fget p [b; h; i; j] = Fin w /\ (0 <= w <= 1)%R.
Proof.
  intros Hinit Hfq Hfk Hq Hk Bq%bounded_finite Bk%bounded_finite _ Hhs HT.
  destruct (built_bias cfg st st' self Hinit) as [Hpos Hbias].
  destruct (lines33_35 self f q k _ B nh T hs Hbias Hfq Hfk Hq Hk Bq Bk Hhs
              ltac:(lia))
    as (s & m & p & E33 & E34 & E35 & _ & Hent).
  exists s, m, p. repeat (split; [done|]).
  intros b h i j Hb Hh Hi Hj.
  destruct (Hent b h i j Hb Hh Hi Hj) as [_ ->].
  assert (forall b h i j, (b < B)%nat -> (h < nh)%nat -> (i < T)%nat ->
            (j < T)%nat ->
            fget m [b; h; i; j]
            = (if (j <=? i)%nat
               then Fin (dot q k hs b h i j * (1 / sqrt (INR hs))) else NInf))
    as Hm by (intros; by apply Hent).
  destruct (masked_rows m B nh T b h i
              (masked_scores_form q k m B nh T hs Hm) Hb Hh Hi) as [Hrow Hex].
  apply softmax1_row_bounds; [done | done |].
  apply in_map_iff. exists j. split; [done|]. apply in_seq. lia.
Qed.

Lemma X10_witness :
  let f : gmap string (tensor float) :=
    <["k" := zeros [1; 2; 4; 4]%nat]> {["q" := zeros [1; 2; 4; 4]%nat]} in
  exists self st' s m p w,
    CausalSelfAttention.init small_config fresh = Ok (self, st') /\
    CausalSelfAttention.line33 f = Ok (<["att" := s]> f) /\
    CausalSelfAttention.line34 self 4 (<["att" := s]> f)
    = Ok (<["att" := m]> (<["att" := s]> f)) /\
    CausalSelfAttention.line35 (<["att" := m]> (<["att" := s]> f))
    = Ok (<["att" := p]> (<["att" := m]> (<["att" := s]> f))) /\
    fget p [0; 1; 2; 1]%nat = Fin w /\ (0 <= w <= 1)%R.
Proof.
  intros f.
  destruct (CausalSelfAttention_init_ok small_config fresh)
    as (self & st' & Hinit); [done..|].
  destruct (X10_weights_are_probabilities small_config fresh st' self f
              (zeros [1; 2; 4; 4]%nat) (zeros [1; 2; 4; 4]%nat) 1 2 4 4 1 Hinit)
    as (s & m & p & E33 & E34 & E35 & H);
    [reflexivity | reflexivity | reflexivity | reflexivity
    | apply bounded_on_zeros; lra | apply bounded_on_zeros; lra
    | apply dot_fits_4_1 | lia | simpl; lia |].
  destruct (H 0%nat 1%nat 2%nat 1%nat) as (w & Hw & Hb); [lia..|].
  exists self, st', s, m, p, w.
  split; [exact Hinit|]. split; [exact E33|]. split; [exact E34|].
  split; [exact E35|]. split; [exact Hw | exact Hb].
Defined.

Lemma Rsum_acc_zeros {X} (l : list X) (S acc : R) :
  fold_left Rplus (map (fun _ => 0 / S)%R l) acc = acc.
Proof.
  revert acc. induction l as [|x l IH]; intros acc; [done|]. simpl.
  rewrite IH. unfold Rdiv. lra.
Qed.

(** X11.  The first position attends to itself only: in the softmax
    output of lines 33 to 35 the weight of position 0 on position 0 is
    exactly 1.  The entries of [q] and [k] are real numbers of
    magnitude at most [M], small enough for the float32 dot products of
    line 33 to stay finite. *)
Theorem X11_first_position_attends_to_itself (cfg : GPTConfig.t)
    (st st' : alloc_state) (self : CausalSelfAttention.t) f
    (q k : tensor float) (B nh T hs : nat) (M : R) :
  CausalSelfAttention.init cfg st = Ok (self, st') ->
  f !! "q" = Some q -> f !! "k" = Some k ->
  shape q = [B; nh; T; hs] -> shape k = [B; nh; T; hs] ->
  bounded_on M q -> bounded_on M k -> dot_fits hs M ->
  (0 < hs)%nat -> (0 < T)%nat -> (Z.of_nat T <= GPTConfig.block_size cfg)%Z ->
  exists s m p,
    CausalSelfAttention.line33 f = Ok (<["att" := s]> f) /\
    CausalSelfAttention.line34 self T (<["att" := s]> f)
    = Ok (<["att" := m]> (<["att" := s]> f)) /\
    CausalSelfAttention.line35 (<["att" := m]> (<["att" := s]> f))
    = Ok (<["att" := p]> (<["att" := m]> (<["att" := s]> f))) /\
    forall b h, (b < B)%nat -> (h < nh)%nat ->
      fget p [b; h; 0; 0]%nat = Fin 1.
Proof.
  intros Hinit Hfq Hfk Hq Hk Bq%bounded_finite Bk%bounded_finite _ Hhs HT0 HT.
  destruct (built_bias cfg st st' self Hinit) as [Hpos Hbias].
  destruct (lines33_35 self f q k _ B nh T hs Hbias Hfq Hfk Hq Hk Bq Bk Hhs
              ltac:(lia))
    as (s & m & p & E33 & E34 & E35 & _ & Hent).
  exists s, m, p. repeat (split; [done|]).
  intros b h Hb Hh.
  destruct (Hent b h 0%nat 0%nat Hb Hh HT0 HT0) as [Hm0 ->].
  destruct T as [|T']; [lia|].
  set (r0 := (dot q k hs b h 0 0 * (1 / sqrt (INR hs)))%R) in *.
  assert (map (fun j' => fget m [b; h; 0; j']%nat) (seq 0 (S T'))
          = Fin r0 :: map (fun _ => NInf) (seq 1 T')) as Hrow.
  { cbn [seq map]. f_equal; [exact Hm0|].
    apply map_ext_in. intros j Hj%in_seq.
    destruct (Hent b h 0%nat j Hb Hh HT0 ltac:(lia)) as [-> _].
    destruct (Nat.leb_spec j 0); [lia | done]. }
  rewrite Hrow, Hm0. set (row := Fin r0 :: _).
  destruct (softmax1_row row) as (mx & S & HS & Hent1 & Hsum).
  { constructor; [right; by eexists|].
    apply Forall_forall. intros a (j & <- & _)%list_elem_of_In%in_map_iff.
    by left. }
  { left. by eexists. }
  rewrite Hent1 by (right; by eexists).
  unfold row in Hsum at 2. cbn [map] in Hsum.
  rewrite Hent1 in Hsum by (right; by eexists).
  rewrite map_map in Hsum.
  rewrite (map_ext _ (fun _ => Fin (0 / S))) in Hsum.
  2:{ intros j. by rewrite Hent1 by (by left). }
  rewrite <- (map_map (fun _ => 0 / S)%R Fin) in Hsum.
  unfold fsum in Hsum. cbn [fold_left fadd] in Hsum.
  rewrite fsum_acc_Fin, Rsum_acc_zeros in Hsum.
  injection Hsum as Hsum. f_equal. rewrite Rplus_0_l in Hsum. exact Hsum.
Qed.

Lemma X11_witness :
  let f : gmap string (tensor float) :=
    <["k" := zeros [1; 2; 4; 4]%nat]> {["q" := zeros [1; 2; 4; 4]%nat]} in
  exists self st' s m p,
    CausalSelfAttention.init small_config fresh = Ok (self, st') /\
    CausalSelfAttention.line33 f = Ok (<["att" := s]> f) /\
    CausalSelfAttention.line34 self 4 (<["att" := s]> f)
    = Ok (<["att" := m]> (<["att" := s]> f)) /\
    CausalSelfAttention.line35 (<["att" := m]> (<["att" := s]> f))
    = Ok (<["att" := p]> (<["att" := m]> (<["att" := s]> f))) /\
    fget p [0; 1; 0; 0]%nat = Fin 1.
Proof.
  intros f.
  destruct (CausalSelfAttention_init_ok small_config fresh)
    as (self & st' & Hinit); [done..|].
  destruct (X11_first_position_attends_to_itself small_config fresh st' self f
              (zeros [1; 2; 4; 4]%nat) (zeros [1; 2; 4; 4]%nat) 1 2 4 4 1 Hinit)
    as (s & m & p & E33 & E34 & E35 & H);
    [reflexivity | reflexivity | reflexivity | reflexivity
    | apply bounded_on_zeros; lra | apply bounded_on_zeros; lra
    | apply dot_fits_4_1 | lia | lia | simpl; lia |].
  exists self, st', s, m, p.
  split; [exact Hinit|]. split; [exact E33|]. split; [exact E34|].
  split; [exact E35|]. apply H; lia.
Defined.
(** X21.  Lines 33 to 35, run on a frame that binds [q] and [k] to
    tensors of shape (B, nh, T, hs) with T within the maximum sequence
    length and entries of magnitude at most [M], small enough for the
    float32 dot products to stay finite: the raw scores are the
    query-key dot products scaled by 1/sqrt(hs); every entry (i, j)
    with j > i is minus infinity before the softmax and the others are
    kept; after the softmax every entry with j > i is exactly zero and
    every row sums to one (in the exact arithmetic of this development;
    within rounding in float32). *)
Theorem X21_scores_mask_softmax_on_a_frame (cfg : GPTConfig.t)
    (st st' : alloc_state) (self : CausalSelfAttention.t) f
    (q k : tensor float) (B nh T hs : nat) (M : R) :
  CausalSelfAttention.init cfg st = Ok (self, st') ->
  f !! "q" = Some q -> f !! "k" = Some k ->
  shape q = [B; nh; T; hs] -> shape k = [B; nh; T; hs] ->
  bounded_on M q -> bounded_on M k -> dot_fits hs M ->
  (0 < hs)%nat -> (Z.of_nat T <= GPTConfig.block_size cfg)%Z ->
  exists s m p,
    let f1 := <["att" := s]> f in
    let f2 := <["att" := m]> f1 in
    CausalSelfAttention.line33 f = Ok f1 /\
    CausalSelfAttention.line34 self T f1 = Ok f2 /\
    CausalSelfAttention.line35 f2 = Ok (<["att" := p]> f2) /\
    forall b h i, (b < B)%nat -> (h < nh)%nat -> (i < T)%nat ->
      (forall j, (j < T)%nat ->
         fget s [b; h; i; j] = Fin (dot q k hs b h i j * (1 / sqrt (INR hs)))) /\
      (forall j, (j < T)%nat -> (i < j)%nat -> fget m [b; h; i; j] = NInf) /\
      (forall j, (j < T)%nat -> (j <= i)%nat ->
         fget m [b; h; i; j] = fget s [b; h; i; j]) /\
      fsum (map (fun j => fget p [b; h; i; j]) (seq 0 T)) = Fin 1 /\
      (forall j, (j < T)%nat -> (i < j)%nat -> fget p [b; h; i; j] = Fin 0).
Proof.
  intros Hinit Hfq Hfk Hq Hk Fq%bounded_finite Fk%bounded_finite _ Hhs HT.
  destruct (built_bias cfg st st' self Hinit) as [Hbs Hbias].
  destruct (line33_ok f q k B nh T hs Hfq Hfk Hq Hk Fq Fk Hhs)
    as (s & E33 & Hs & Hsent).
  destruct (line34_ok self (<["att" := s]> f) s
              (Z.to_nat (GPTConfig.block_size cfg)) B nh T Hbias
              (lookup_insert_eq _ _ _) Hs ltac:(lia))
    as (m & E34 & Hm & Hment).
  destruct (line35_ok (<["att" := m]> (<["att" := s]> f)) m B nh T
              (lookup_insert_eq _ _ _) Hm)
    as (p & E35 & Hp & Hpent).
  { intros b h i j Hb Hh Hi Hj. rewrite Hment by done.
    destruct (j <=? i)%nat; [|done]. rewrite Hsent by done. by eexists. }
  exists s, m, p. cbv zeta. split; [done|]. split; [done|]. split; [done|].
  intros b h i Hb Hh Hi.
  destruct (Hpent b h i Hb Hh Hi) as [Hsum Hzero].
  split; [intros j Hj; by apply Hsent|].
  split.
  { intros j Hj Hij. rewrite Hment by done.
    destruct (Nat.leb_spec j i); [lia | done]. }
  split.
  { intros j Hj Hij. rewrite Hment by done.
    destruct (Nat.leb_spec j i); [done | lia]. }
  done.
Qed.

Lemma X21_witness :
  let f : gmap string (tensor float) :=
    <["k" := zeros [1; 2; 4; 4]%nat]> {["q" := zeros [1; 2; 4; 4]%nat]} in
  exists self st' s m p,
    CausalSelfAttention.init small_config fresh = Ok (self, st') /\
    CausalSelfAttention.line33 f = Ok (<["att" := s]> f) /\
    CausalSelfAttention.line34 self 4 (<["att" := s]> f)
    = Ok (<["att" := m]> (<["att" := s]> f)) /\
    CausalSelfAttention.line35 (<["att" := m]> (<["att" := s]> f))
    = Ok (<["att" := p]> (<["att" := m]> (<["att" := s]> f))) /\
    fget m [0; 1; 1; 2]%nat = NInf /\
    fsum (map (fun j => fget p [0; 1; 1; j]%nat) (seq 0 4)) = Fin 1 /\
    fget p [0; 1; 1; 2]%nat = Fin 0.
Proof.
  intros f.
  destruct (CausalSelfAttention_init_ok small_config fresh)
    as (self & st' & Hinit); [done..|].
  destruct (X21_scores_mask_softmax_on_a_frame small_config fresh st' self f
              (zeros [1; 2; 4; 4]%nat) (zeros [1; 2; 4; 4]%nat) 1 2 4 4 1 Hinit)
    as (s & m & p & E33 & E34 & E35 & H).
  - reflexivity.
  - reflexivity.
  - reflexivity.
  - reflexivity.
  - apply bounded_on_zeros. lra.
  - apply bounded_on_zeros. lra.
  - apply dot_fits_4_1.
  - lia.
  - simpl. lia.
  - exists self, st', s, m, p.
    destruct (H 0%nat 1%nat 1%nat) as (_ & Hm & _ & Hsum & Hz); [lia..|].
    split; [exact Hinit|]. split; [exact E33|]. split; [exact E34|].
    split; [exact E35|]. split; [apply Hm; lia|]. split; [exact Hsum|].
    apply Hz; lia.
Defined.
End weight_extras.


Section output_extras.
Import torch.
Implicit Type f : gmap string (tensor float).

(** Line 36 on a frame that binds the weights and [v]: weighted sums of
    the rows of [v]. *)
Lemma line36_ok f (p v : tensor float) (B H T hs : nat) :
  f !! "att" = Some p -> f !! "v" = Some v ->
  shape p = [B; H; T; T] -> shape v = [B; H; T; hs] ->
  exists y,
    CausalSelfAttention.line36 f = Ok (<["y" := y]> f) /\
    shape y = [B; H; T; hs] /\
    forall b h i d, (b < B)%nat -> (h < H)%nat -> (i < T)%nat -> (d < hs)%nat ->
      fget y [b; h; i; d]
      = fsum (map (fun j => fmul (fget p [b; h; i; j]) (fget v [b; h; j; d]))
                  (seq 0 T)).
Proof.
  intros Hfp Hfv Hp Hv. unfold CausalSelfAttention.line36.
  rewrite (load_bound _ _ _ Hfp), (load_bound _ _ _ Hfv).
  cbn [mbind result_bind].
  rewrite (matmul_4 p v B H T T hs Hp Hv). cbn [mbind result_bind].
  eexists. split; [reflexivity|]. split; [reflexivity|].
  intros b h i d Hb Hh Hi Hd. unfold fget at 1.
  rewrite get_tabulate by (by apply in_range_4).
  unfold matmul_at. cbn [take drop].
  by rewrite (bidx_in_range [B; H] [b; h]) by (by repeat constructor).
Qed.

(** Line 37 on a frame that binds [y] to a (B, H, T, hs) tensor: the
    heads are laid side by side along the last dimension. *)
Lemma line37_ok f (y : tensor float) (B T C H hs : nat) :
  f !! "y" = Some y ->
  shape y = [B; H; T; hs] -> (H * hs = C)%nat ->
  exists y',
    CausalSelfAttention.line37 B T C f = Ok (<["y" := y']> f) /\
    shape y' = [B; T; C] /\
    forall b h i d, (b < B)%nat -> (h < H)%nat -> (i < T)%nat -> (d < hs)%nat ->
      fget y' [b; i; (h * hs + d)%nat] = fget y [b; h; i; d].
Proof.
  intros Hf Hy HC. unfold CausalSelfAttention.line37.
  rewrite (load_bound _ _ _ Hf). cbn [mbind result_bind].
  assert (transpose NaN y 1 2
          = Ok (tabulate [B; T; H; hs]
                  (fun idx => get NaN y (swap_at 1 2 idx)))) as ->
    by (unfold transpose; by rewrite Hy).
  cbn [mbind result_bind]. unfold contiguous.
  rewrite view_ok; [|repeat constructor; lia|].
  2:{ simpl. rewrite !Nat2Z.id. nia. }
  cbn [map mbind result_bind]. rewrite !Nat2Z.id.
  eexists. split; [reflexivity|]. split; [reflexivity|].
  intros b h i d Hb Hh Hi Hd.
  transitivity (fget (tabulate [B; T; H; hs]
                        (fun idx => get NaN y (swap_at 1 2 idx)))
                     [b; i; h; d]).
  - unfold fget, get. cbn [shape data tabulate]. f_equal.
    simpl. rewrite <- HC. nia.
  - unfold fget. by rewrite get_tabulate by (by apply in_range_4).
Qed.

Lemma line39_ok (self : CausalSelfAttention.t) f (y : tensor float)
    (B T C : nat) :
  f !! "y" = Some y ->
  shape y = [B; T; C] ->
  shape (value (nn.weight (CausalSelfAttention.c_proj self))) = [C; C] ->
  CausalSelfAttention.line39 self f
  = Ok (<["y" := tabulate [B; T; C]
                   (linear_at y
                      (value (nn.weight (CausalSelfAttention.c_proj self)))
                      (value <$> nn.bias (CausalSelfAttention.c_proj self))
                      C)]> f).
Proof.
  intros Hf Hy HW. unfold CausalSelfAttention.line39.
  rewrite (load_bound _ _ _ Hf). cbn [mbind result_bind].
  unfold nn.Linear_forward.
  by rewrite (linear_ok y _ _ [B; T] C C HW Hy).
Qed.

Lemma built_proj (cfg : GPTConfig.t) (st st' : alloc_state)
    (self : CausalSelfAttention.t) :
  CausalSelfAttention.init cfg st = Ok (self, st') ->
  shape (value (nn.weight (CausalSelfAttention.c_proj self)))
  = [Z.to_nat (GPTConfig.n_embd cfg); Z.to_nat (GPTConfig.n_embd cfg)].
Proof.
  intros Hinit.
  pose proof (CausalSelfAttention_init_spec cfg st) as Hs. cbv zeta in Hs.
  rewrite Hinit in Hs.
  by destruct Hs as (_ & _ & _ & _ & _ & _ & _ & _ & ? & _).
Qed.

(** X12.  Lines 36 to 40 work once [v] is bound: on a frame that binds
    [att] to a (B, n_head, T, T) tensor and [v] to a (B, n_head, T, hs)
    tensor, line 36 forms the weighted sums of the rows of [v], line 37
    lays the heads side by side, line 39 applies the output projection,
    and the value returned on line 40 has shape (B, T, n_embd). *)
Theorem X12_lines_36_to_40 (cfg : GPTConfig.t) (st st' : alloc_state)
    (self : CausalSelfAttention.t) f (p v : tensor float) (B T : nat) :
  CausalSelfAttention.init cfg st = Ok (self, st') ->
  (0 < GPTConfig.n_head cfg)%Z -> (0 < GPTConfig.n_embd cfg)%Z ->
  let C := Z.to_nat (GPTConfig.n_embd cfg) in
  let H := Z.to_nat (GPTConfig.n_head cfg) in
  let hs := Z.to_nat (GPTConfig.n_embd cfg / GPTConfig.n_head cfg) in
  f !! "att" = Some p -> f !! "v" = Some v ->
  shape p = [B; H; T; T] -> shape v = [B; H; T; hs] ->
  exists y1 y2 y3,
    let f1 := <["y" := y1]> f in
    let f2 := <["y" := y2]> f1 in
    let f3 := <["y" := y3]> f2 in
    CausalSelfAttention.line36 f = Ok f1 /\
    CausalSelfAttention.line37 B T C f1 = Ok f2 /\
    CausalSelfAttention.line39 self f2 = Ok f3 /\
    load f3 "y" = Ok y3 /\
    shape y3 = [B; T; C] /\
    (forall b h i d, (b < B)%nat -> (h < H)%nat -> (i < T)%nat -> (d < hs)%nat ->
       fget y1 [b; h; i; d]
       = fsum (map (fun j => fmul (fget p [b; h; i; j]) (fget v [b; h; j; d]))
                   (seq 0 T)) /\
       fget y2 [b; i; (h * hs + d)%nat] = fget y1 [b; h; i; d]).
Proof.
  intros Hinit Hnh Hne C H hs Hfp Hfv Hp Hv.
  destruct (built_dims cfg st st' self Hinit Hnh Hne) as (_ & _ & _ & _ & HC).
  fold C H hs in HC.
  pose proof (built_proj cfg st st' self Hinit) as HW. fold C in HW.
  destruct (line36_ok f p v B H T hs Hfp Hfv Hp Hv) as (y1 & E36 & Hy1 & Hent1).
  destruct (line37_ok (<["y" := y1]> f) y1 B T C H hs
              (lookup_insert_eq _ _ _) Hy1 HC) as (y2 & E37 & Hy2 & Hent2).
  pose proof (line39_ok self (<["y" := y2]> (<["y" := y1]> f)) y2 B T C
                (lookup_insert_eq _ _ _) Hy2 HW) as E39.
  exists y1, y2. eexists. cbv zeta.
  split; [exact E36|]. split; [exact E37|]. split; [exact E39|].
  split; [apply load_bound, lookup_insert_eq|]. split; [reflexivity|].
  intros b h i d Hb Hh Hi Hd. split; [by apply Hent1 | by apply Hent2].
Qed.

Lemma X12_witness :
  let f : gmap string (tensor float) :=
    <["v" := zeros [1; 2; 4; 4]%nat]> {["att" := zeros [1; 2; 4; 4]%nat]} in
  exists self st' y1 y2 y3,
    CausalSelfAttention.init small_config fresh = Ok (self, st') /\
    CausalSelfAttention.line36 f = Ok (<["y" := y1]> f) /\
    CausalSelfAttention.line37 1 4 8 (<["y" := y1]> f)
    = Ok (<["y" := y2]> (<["y" := y1]> f)) /\
    CausalSelfAttention.line39 self (<["y" := y2]> (<["y" := y1]> f))
    = Ok (<["y" := y3]> (<["y" := y2]> (<["y" := y1]> f))) /\
    shape y3 = [1; 4; 8]%nat.
Proof.
  intros f.
  destruct (CausalSelfAttention_init_ok small_config fresh)
    as (self & st' & Hinit); [done..|].
  destruct (X12_lines_36_to_40 small_config fresh st' self f
              (zeros [1; 2; 4; 4]%nat) (zeros [1; 2; 4; 4]%nat) 1 4 Hinit)
    as (y1 & y2 & y3 & E36 & E37 & E39 & _ & Hs & _);
    [reflexivity | reflexivity | reflexivity | reflexivity | reflexivity
    | reflexivity |].
  exists self, st', y1, y2, y3.
  split; [exact Hinit|]. split; [exact E36|]. split; [exact E37|].
  split; [exact E39 | exact Hs].
Defined.
End output_extras.

Section causality_extras.
Import torch.
Implicit Type f : gmap string (tensor float).

(** [body] is lines 27 to 31 followed by [lines33_40]. *)
Lemma body_split (self : CausalSelfAttention.t) (B T C : nat) f :
  CausalSelfAttention.body self B T C f
  = (f ← CausalSelfAttention.line27 self f;
     f ← CausalSelfAttention.line28 self f;
     f ← CausalSelfAttention.line29 self B T C f;
     f ← CausalSelfAttention.line30 self B T C f;
     f ← CausalSelfAttention.line31 self B T C f;
     lines33_40 self B T C f).
Proof. reflexivity. Qed.

Lemma masked_score_row (q k : tensor float) (T hs b h i : nat) :
  (i < T)%nat ->
  let row := map (masked_score q k hs b h i) (seq 0 T) in
  Forall masked_entry row /\ Exists (fun a => exists r, a = Fin r) row.
Proof.
  intros Hi row. split.
  - apply Forall_forall. intros a (j & <- & _)%list_elem_of_In%in_map_iff.
    unfold masked_score. destruct (j <=? i)%nat; [right; by eexists | by left].
  - apply Exists_exists. exists (masked_score q k hs b h i i). split.
    + apply list_elem_of_In, in_map. apply in_seq. lia.
    + unfold masked_score. rewrite Nat.leb_refl. by eexists.
Qed.

(** A position above the diagonal gets the weight zero. *)
Lemma attention_weight_masked (q k : tensor float) (T hs b h i j : nat) :
  (i < T)%nat -> (i < j)%nat ->
  attention_weight q k T hs b h i j = Fin 0.
Proof.
  intros Hi Hij. unfold attention_weight.
  destruct (masked_score_row q k T hs b h i Hi) as [Hrow Hex].
  destruct (softmax1_row _ Hrow Hex) as (M & S & HS & Hent & _).
  unfold masked_score at 2. destruct (Nat.leb_spec j i); [lia|].
  rewrite Hent by (by left). simpl. f_equal. lra.
Qed.

(** The value lines 33 to 40 return on a frame that binds real [q] and
    [k] and some [v], entry by entry. *)
Lemma lines33_40_describes (self : CausalSelfAttention.t) f
    (q k v : tensor float) (bs B H T hs C : nat) :
  CausalSelfAttention.bias self = mask_buffer bs ->
  shape (value (nn.weight (CausalSelfAttention.c_proj self))) = [C; C] ->
  (H * hs = C)%nat -> (0 < hs)%nat -> (T <= bs)%nat ->
  f !! "q" = Some q -> f !! "k" = Some k -> f !! "v" = Some v ->
  shape q = [B; H; T; hs] -> shape k = [B; H; T; hs] ->
  shape v = [B; H; T; hs] ->
  finite_on q -> finite_on k ->
  exists y2 y3,
    lines33_40 self B T C f = Ok y3 /\
    shape y3 = [B; T; C] /\
    (forall b i c, (b < B)%nat -> (i < T)%nat -> (c < C)%nat ->
       fget y3 [b; i; c]
       = linear_at y2 (value (nn.weight (CausalSelfAttention.c_proj self)))
           (value <$> nn.bias (CausalSelfAttention.c_proj self)) C [b; i; c]) /\
    (forall b h i d, (b < B)%nat -> (h < H)%nat -> (i < T)%nat -> (d < hs)%nat ->
       fget y2 [b; i; (h * hs + d)%nat]
       = fsum (map (fun j => fmul (attention_weight q k T hs b h i j)
                                  (fget v [b; h; j; d]))
                   (seq 0 T))).
Proof.
  intros Hbias HW HC Hhs HT Hfq Hfk Hfv Hq Hk Hv Fq Fk.
  destruct (lines33_35 self f q k bs B H T hs Hbias Hfq Hfk Hq Hk Fq Fk Hhs HT)
    as (s & m & p & E33 & E34 & E35 & Hp & Hent).
  set (f3 := <["att" := p]> (<["att" := m]> (<["att" := s]> f))) in *.
  assert (f3 !! "att" = Some p) as Hf3p by apply lookup_insert_eq.
  assert (f3 !! "v" = Some v) as Hf3v
    by (unfold f3; by rewrite !lookup_insert_ne by done).
  destruct (line36_ok f3 p v B H T hs Hf3p Hf3v Hp Hv)
    as (y1 & E36 & Hy1 & Hent1).
  destruct (line37_ok (<["y" := y1]> f3) y1 B T C H hs
              (lookup_insert_eq _ _ _) Hy1 HC) as (y2 & E37 & Hy2 & Hent2).
  pose proof (line39_ok self (<["y" := y2]> (<["y" := y1]> f3)) y2 B T C
                (lookup_insert_eq _ _ _) Hy2 HW) as E39.
  exists y2. eexists. split.
  { unfold lines33_40. rewrite E33. cbn [mbind result_bind].
    rewrite E34. cbn [mbind result_bind]. rewrite E35. cbn [mbind result_bind].
    rewrite E36. cbn [mbind result_bind]. rewrite E37. cbn [mbind result_bind].
    rewrite E39. cbn [mbind result_bind].
    apply load_bound, lookup_insert_eq. }
  split; [reflexivity|]. split.
  { intros b i c Hb Hi Hc. unfold fget at 1.
    by rewrite get_tabulate by (by apply in_range_3). }
  intros b h i d Hb Hh Hi Hd.
  rewrite Hent2, Hent1 by done. f_equal.
  apply map_ext_in. intros j Hj%in_seq. f_equal.
  destruct (Hent b h i j Hb Hh Hi ltac:(lia)) as [_ ->].
  unfold attention_weight. f_equal.
  - apply map_ext_in. intros j' Hj'%in_seq.
    by destruct (Hent b h i j' Hb Hh Hi ltac:(lia)) as [-> _].
  - by destruct (Hent b h i j Hb Hh Hi ltac:(lia)) as [-> _].
Qed.

Lemma dot_agree (q k q' k' : tensor float) (hs b h i j : nat) :
  (forall d, (d < hs)%nat -> fget q [b; h; i; d] = fget q' [b; h; i; d]) ->
  (forall d, (d < hs)%nat -> fget k [b; h; j; d] = fget k' [b; h; j; d]) ->
  dot q k hs b h i j = dot q' k' hs b h i j.
Proof.
  intros Hq Hk. unfold dot. f_equal. apply map_ext_in.
  intros d Hd%in_seq. by rewrite Hq, Hk by lia.
Qed.


Lemma finite_on_late_bump : finite_on late_bump.
Proof.
  intros idx Hidx. unfold fget, late_bump.
  rewrite get_tabulate by done.
  destruct (_ =? _)%nat; by eexists.
Qed.


(** X14.  Lines 33 to 40 are causal.  Take two frames that bind real
    [q], [k], [v] of shape (B, n_head, T, hs) and that agree, in batch
    b, on the row of [q] at position i and on the rows of [k] and [v]
    at the positions up to i.  Then the tensors returned on line 40
    agree at position i of batch b, however the frames differ at later
    positions. *)
Theorem X14_lines_33_to_40_are_causal (cfg : GPTConfig.t)
    (st st' : alloc_state) (self : CausalSelfAttention.t) f f'
    (q k v q' k' v' : tensor float) (B T b i : nat) :
  CausalSelfAttention.init cfg st = Ok (self, st') ->
  (0 < GPTConfig.n_head cfg)%Z -> (0 < GPTConfig.n_embd cfg)%Z ->
  (Z.of_nat T <= GPTConfig.block_size cfg)%Z ->
  let C := Z.to_nat (GPTConfig.n_embd cfg) in
  let H := Z.to_nat (GPTConfig.n_head cfg) in
  let hs := Z.to_nat (GPTConfig.n_embd cfg / GPTConfig.n_head cfg) in
  f !! "q" = Some q -> f !! "k" = Some k -> f !! "v" = Some v ->
  f' !! "q" = Some q' -> f' !! "k" = Some k' -> f' !! "v" = Some v' ->
  shape q = [B; H; T; hs] -> shape k = [B; H; T; hs] ->
  shape v = [B; H; T; hs] ->
  shape q' = [B; H; T; hs] -> shape k' = [B; H; T; hs] ->
  shape v' = [B; H; T; hs] ->
  finite_on q -> finite_on k -> finite_on v ->
  finite_on q' -> finite_on k' -> finite_on v' ->
  (b < B)%nat -> (i < T)%nat ->
  (forall h d, (h < H)%nat -> (d < hs)%nat ->
     fget q [b; h; i; d] = fget q' [b; h; i; d]) ->
  (forall h j d, (h < H)%nat -> (j <= i)%nat -> (d < hs)%nat ->
     fget k [b; h; j; d] = fget k' [b; h; j; d] /\
     fget v [b; h; j; d] = fget v' [b; h; j; d]) ->
  exists y y',
    lines33_40 self B T C f = Ok y /\
    lines33_40 self B T C f' = Ok y' /\
    forall c, (c < C)%nat -> fget y [b; i; c] = fget y' [b; i; c].
Proof.
  intros Hinit Hnh Hne HT C H hs Hfq Hfk Hfv Hfq' Hfk' Hfv'
    Hq Hk Hv Hq' Hk' Hv' Fq Fk Fv Fq' Fk' Fv' Hb Hi Aq Akv.
  destruct (built_dims cfg st st' self Hinit Hnh Hne) as (_ & _ & _ & HC0 & HC).
  fold C H hs in HC0, HC.
  assert (0 < hs)%nat as Hhs by nia.
  destruct (built_bias cfg st st' self Hinit) as [Hpos Hbias].
  pose proof (built_proj cfg st st' self Hinit) as HW. fold C in HW.
  destruct (lines33_40_describes self f q k v _ B H T hs C Hbias HW HC Hhs
              ltac:(lia) Hfq Hfk Hfv Hq Hk Hv Fq Fk)
    as (y2 & y3 & E & _ & H3 & H2).
  destruct (lines33_40_describes self f' q' k' v' _ B H T hs C Hbias HW HC Hhs
              ltac:(lia) Hfq' Hfk' Hfv' Hq' Hk' Hv' Fq' Fk')
    as (y2' & y3' & E' & _ & H3' & H2').
  exists y3, y3'. split; [done|]. split; [done|].
  intros c Hc. rewrite H3, H3' by done.
  apply (linear_at_local y2 y2' _ _ C [b; i] c).
  intros l Hl. cbn [app].
  assert (l = (l / hs) * hs + l mod hs)%nat as Hdiv.
  { rewrite Nat.mul_comm. apply Nat.div_mod. lia. }
  assert (l mod hs < hs)%nat as Hd by (apply Nat.mod_upper_bound; lia).
  assert (l / hs < H)%nat as Hh
    by (apply Nat.Div0.div_lt_upper_bound; nia).
  rewrite Hdiv, H2, H2' by done. f_equal.
  apply map_ext_in. intros j Hj%in_seq.
  assert (forall j', masked_score q k hs b (l / hs) i j'
                     = masked_score q' k' hs b (l / hs) i j') as Hms.
  { intros j'. unfold masked_score.
    destruct (Nat.leb_spec j' i); [|done].
    do 2 f_equal. apply dot_agree.
    - intros d Hd'. by apply Aq.
    - intros d Hd'. by apply Akv. }
  assert (attention_weight q k T hs b (l / hs) i j
          = attention_weight q' k' T hs b (l / hs) i j) as Hw.
  { unfold attention_weight. rewrite Hms. f_equal.
    apply map_ext. intros j'. apply Hms. }
  rewrite <- Hw.
  destruct (le_lt_dec j i) as [Hji|Hji].
  - by destruct (Akv (l / hs)%nat j (l mod hs)%nat Hh Hji Hd) as [_ ->].
  - rewrite attention_weight_masked by done.
    destruct (Fv [b; l / hs; j; l mod hs])%nat as [x ->];
      [rewrite Hv; apply in_range_4; lia|].
    destruct (Fv' [b; l / hs; j; l mod hs])%nat as [x' ->];
      [rewrite Hv'; apply in_range_4; lia|].
    simpl. f_equal. lra.
Qed.

Lemma X14_witness :
  let f : gmap string (tensor float) :=
    <["v" := zeros [1; 2; 4; 4]%nat]>
      (<["k" := zeros [1; 2; 4; 4]%nat]> {["q" := zeros [1; 2; 4; 4]%nat]}) in
  let f' : gmap string (tensor float) :=
    <["v" := late_bump]>
      (<["k" := zeros [1; 2; 4; 4]%nat]> {["q" := zeros [1; 2; 4; 4]%nat]}) in
  exists self st' y y',
    CausalSelfAttention.init small_config fresh = Ok (self, st') /\
    fget (zeros [1; 2; 4; 4]%nat) [0; 0; 3; 0]%nat
    <> fget late_bump [0; 0; 3; 0]%nat /\
    lines33_40 self 1 4 8 f = Ok y /\
    lines33_40 self 1 4 8 f' = Ok y' /\
    forall c, (c < 8)%nat -> fget y [0; 2; c]%nat = fget y' [0; 2; c]%nat.
Proof.
  intros f f'.
  destruct (CausalSelfAttention_init_ok small_config fresh)
    as (self & st' & Hinit); [done..|].
  destruct (X14_lines_33_to_40_are_causal small_config fresh st' self f f'
              (zeros [1; 2; 4; 4]%nat) (zeros [1; 2; 4; 4]%nat)
              (zeros [1; 2; 4; 4]%nat) (zeros [1; 2; 4; 4]%nat)
              (zeros [1; 2; 4; 4]%nat) late_bump 1 4 0 2 Hinit)
    as (y & y' & E & E' & Hagree);
    [reflexivity | reflexivity | simpl; lia
    | reflexivity | reflexivity | reflexivity
    | reflexivity | reflexivity | reflexivity
    | reflexivity | reflexivity | reflexivity
    | reflexivity | reflexivity | reflexivity
    | apply finite_on_zeros | apply finite_on_zeros | apply finite_on_zeros
    | apply finite_on_zeros | apply finite_on_zeros | apply finite_on_late_bump
    | lia | lia | reflexivity | | ].
  - intros h j d Hh Hj Hd. split; [reflexivity|].
    vm_compute in Hh, Hd.
    unfold fget, zeros, full, late_bump.
    rewrite !get_tabulate by (apply in_range_4; lia).
    simpl. destruct (Nat.eqb_spec j 3); [lia | done].
  - exists self, st', y, y'. split; [exact Hinit|]. split.
    + unfold fget, zeros, full, late_bump.
      rewrite !get_tabulate by (apply in_range_4; lia).
      simpl. intros [=Hne]. lra.
    + split; [exact E|]. split; [exact E' | exact Hagree].
Defined.
End causality_extras.

Section construction_extras.
Import torch.

Lemma Linear_numel_spec (i o : Z) (b : bool) (st st' : alloc_state)
    (l : nn.Linear) :
  nn.Linear_init i o b st = Ok (l, st') ->
  Linear_numel l
  = (Z.to_nat o * Z.to_nat i + (if b then Z.to_nat o else 0))%nat.
Proof.
  intros Hinit. pose proof (Linear_init_spec i o b st) as Hs.
  rewrite Hinit in Hs. destruct Hs as (_ & _ & _ & _ & HW & Hb & _).
  unfold Linear_numel, Param_numel. rewrite HW.
  destruct b.
  - destruct Hb as (p & -> & ->). simpl. lia.
  - rewrite Hb. simpl. lia.
Qed.

Lemma LayerNorm_numel_spec (n : Z) (st st' : alloc_state) (l : nn.LayerNorm) :
  nn.LayerNorm_init n st = Ok (l, st') ->
  LayerNorm_numel l = (2 * Z.to_nat n)%nat.
Proof.
  intros Hinit. pose proof (LayerNorm_init_spec n st) as Hs.
  rewrite Hinit in Hs. destruct Hs as (_ & _ & HW & Hb & _).
  unfold LayerNorm_numel, Param_numel. rewrite HW, Hb. simpl. lia.
Qed.

Lemma Embedding_numel_spec (num dim : Z) (st st' : alloc_state)
    (e : nn.Embedding) :
  nn.Embedding_init num dim st = Ok (e, st') ->
  Embedding_numel e = (Z.to_nat num * Z.to_nat dim)%nat.
Proof.
  intros Hinit. pose proof (Embedding_init_spec num dim st) as Hs.
  rewrite Hinit in Hs. destruct Hs as (_ & _ & _ & _ & HW & _).
  unfold Embedding_numel, Param_numel. rewrite HW. simpl. lia.
Qed.

Lemma M_bind_Ok_inv {X Y} (m : M X) (k : X -> M Y) (st st' : alloc_state)
    (y : Y) :
  (m ≫= k) st = Ok (y, st') ->
  exists x st1, m st = Ok (x, st1) /\ k x st1 = Ok (y, st').
Proof.
  unfold mbind, M_bind. destruct (m st) as [[x st1]|e]; [|done].
  intros H. by exists x, st1.
Qed.

Lemma CausalSelfAttention_numel_spec (cfg : GPTConfig.t)
    (st st' : alloc_state) (a : CausalSelfAttention.t) :
  CausalSelfAttention.init cfg st = Ok (a, st') ->
  let N := Z.to_nat (GPTConfig.n_embd cfg) in
  CausalSelfAttention_numel a = (4 * N * N + 4 * N)%nat.
Proof.
  intros Hinit N.
  pose proof (CausalSelfAttention_init_spec cfg st) as Hs. cbv zeta in Hs.
  rewrite Hinit in Hs.
  destruct Hs as (_ & _ & Hne & _ & _ & _ & HW1 & (p1 & Hb1 & Hp1) & HW2
                  & (p2 & Hb2 & Hp2) & _).
  unfold CausalSelfAttention_numel, Linear_numel, Param_numel.
  rewrite HW1, Hb1, Hp1, HW2, Hb2, Hp2. simpl.
  rewrite Z2Nat.inj_mul by lia. fold N.
  change (Z.to_nat 3) with 3%nat. lia.
Qed.

Lemma MLP_numel_spec (cfg : GPTConfig.t) (st st' : alloc_state) (m : MLP.t) :
  MLP.init cfg st = Ok (m, st') ->
  let N := Z.to_nat (GPTConfig.n_embd cfg) in
  MLP_numel m = (8 * N * N + 5 * N)%nat.
Proof.
  intros Hinit N.
  pose proof (MLP_init_spec cfg st) as Hs. cbv zeta in Hs.
  rewrite Hinit in Hs. destruct Hs as (Hne & _).
  unfold MLP.init in Hinit.
  apply M_bind_Ok_inv in Hinit as (l1 & st1 & E1 & Hinit).
  apply M_bind_Ok_inv in Hinit as (l2 & st2 & E2 & Hinit).
  injection Hinit as <- <-.
  unfold MLP_numel. cbn [MLP.c_fc MLP.c_proj].
  rewrite (Linear_numel_spec _ _ _ _ _ _ E1), (Linear_numel_spec _ _ _ _ _ _ E2).
  rewrite Z2Nat.inj_mul by lia. fold N.
  change (Z.to_nat 4) with 4%nat. lia.
Qed.

Lemma Block_numel_spec (cfg : GPTConfig.t) (st st' : alloc_state)
    (b : Block.t) :
  Block.init cfg st = Ok (b, st') ->
  let N := Z.to_nat (GPTConfig.n_embd cfg) in
  Block_numel b = (12 * N * N + 13 * N)%nat.
Proof.
  intros Hinit N.
  pose proof (Block_init_spec cfg st) as Hs. rewrite Hinit in Hs.
  destruct Hs as ((st1 & st2 & E1 & E2) & (st3 & st4 & E3 & E4) & _).
  unfold Block_numel.
  rewrite (LayerNorm_numel_spec _ _ _ _ E1), (LayerNorm_numel_spec _ _ _ _ E3).
  rewrite (CausalSelfAttention_numel_spec _ _ _ _ E2).
  rewrite (MLP_numel_spec _ _ _ _ E4).
  fold N. lia.
Qed.

Lemma block_error_None (cfg : GPTConfig.t) :
  block_error cfg = None <-> ~ bad_block_config cfg.
Proof.
  unfold block_error, bad_block_config.
  destruct (Z.ltb_spec (GPTConfig.n_embd cfg) 0); [split; [done | tauto]|].
  destruct (Z.eqb_spec (GPTConfig.n_head cfg) 0); [split; [done | tauto]|].
  destruct (Z.eqb_spec (GPTConfig.n_embd cfg mod GPTConfig.n_head cfg) 0);
    simpl; [|split; [done | tauto]].
  destruct (Z.ltb_spec (GPTConfig.block_size cfg) 0); [split; [done | tauto]|].
  split; [|done]. intros _ [?|[?|[?|?]]]; first [done | lia].
Qed.

(** The outcome of [Block(config)]. *)
Lemma Block_init_outcome (cfg : GPTConfig.t) (st : alloc_state) :
  match Block.init cfg st with
  | Ok _ => block_error cfg = None
  | Err e => block_error cfg = Some e
  end.
Proof.
  pose proof (Block_init_spec cfg st) as Hspec.
  destruct (Block.init cfg st) as [[b st']|e] eqn:E.
  { destruct Hspec as ((st1 & st2 & E1 & E2) & _).
    pose proof (LayerNorm_init_spec (GPTConfig.n_embd cfg) st) as H1.
    rewrite E1 in H1. destruct H1 as (Hne & _).
    pose proof (CausalSelfAttention_init_spec cfg st1) as H2. cbv zeta in H2.
    rewrite E2 in H2. destruct H2 as (Hnh & Hmod & _ & Hbs & _).
    apply block_error_None. unfold bad_block_config.
    intros [?|[?|[?|?]]]; first [done | lia]. }
  clear Hspec. unfold Block.init, mbind, M_bind, mret, M_ret in E.
  unfold block_error.
  pose proof (LayerNorm_init_spec (GPTConfig.n_embd cfg) st) as H1.
  destruct (nn.LayerNorm_init _ st) as [[l1 st1]|e1].
  2:{ injection E as <-. destruct H1 as [-> H1].
      by destruct (Z.ltb_spec (GPTConfig.n_embd cfg) 0); [|lia]. }
  destruct H1 as (Hne & _).
  destruct (Z.ltb_spec (GPTConfig.n_embd cfg) 0); [lia|].
  pose proof (CausalSelfAttention_init_spec cfg st1) as H2. cbv zeta in H2.
  destruct (CausalSelfAttention.init cfg st1) as [[a st2]|e2].
  2:{ injection E as <-.
      destruct H2 as [[Hnh ->]|[(Hnh & Hmod & ->)|(Hnh & Hmod & Hneg & ->)]].
      - by destruct (Z.eqb_spec (GPTConfig.n_head cfg) 0).
      - destruct (Z.eqb_spec (GPTConfig.n_head cfg) 0); [done|].
        by destruct (Z.eqb_spec (GPTConfig.n_embd cfg mod GPTConfig.n_head cfg) 0).
      - destruct (Z.eqb_spec (GPTConfig.n_head cfg) 0); [done|].
        destruct (Z.eqb_spec (GPTConfig.n_embd cfg mod GPTConfig.n_head cfg) 0);
          [|done]. simpl.
        by destruct (Z.ltb_spec (GPTConfig.block_size cfg) 0); [|lia]. }
  pose proof (LayerNorm_init_spec (GPTConfig.n_embd cfg) st2) as H3.
  destruct (nn.LayerNorm_init _ st2) as [[l2 st3]|e3]; [|lia].
  pose proof (MLP_init_spec cfg st3) as H4. cbv zeta in H4.
  destruct (MLP.init cfg st3) as [[m st4]|e4]; [done | lia].
Qed.

(** The outcome of the list comprehension of line 85. *)
Lemma blocks_outcome (cfg : GPTConfig.t) (n : nat) (st : alloc_state) :
  match GPT.blocks cfg n st with
  | Ok _ => n = 0%nat \/ block_error cfg = None
  | Err e => n <> 0%nat /\ block_error cfg = Some e
  end.
Proof.
  revert st. induction n as [|n IH]; intros st; [by left|].
  cbn [GPT.blocks]. unfold mbind, M_bind, mret, M_ret.
  pose proof (Block_init_outcome cfg st) as H1.
  destruct (Block.init cfg st) as [[b st1]|e]; [|by split].
  specialize (IH st1).
  destruct (GPT.blocks cfg n st1) as [[bs st2]|e]; [by right|].
  destruct IH as [_ IH]. by rewrite H1 in IH.
Qed.

(** The outcome of [GPT(config)]. *)
Lemma GPT_init_outcome (cfg : GPTConfig.t) (st : alloc_state) :
  match GPT.init cfg st with
  | Ok _ => model_error cfg = None
  | Err e => model_error cfg = Some e
  end.
Proof.
  unfold GPT.init, mbind, M_bind, mret, M_ret, model_error.
  pose proof (Embedding_init_spec (GPTConfig.vocab_size cfg)
                (GPTConfig.n_embd cfg) st) as H1.
  destruct (nn.Embedding_init _ _ st) as [[e1 st1]|e].
  2:{ destruct H1 as [-> H1].
      destruct (Z.ltb_spec (GPTConfig.vocab_size cfg) 0); [done|].
      destruct (Z.ltb_spec (GPTConfig.n_embd cfg) 0); [done | lia]. }
  destruct H1 as (Hv & Hne & _).
  pose proof (Embedding_init_spec (GPTConfig.block_size cfg)
                (GPTConfig.n_embd cfg) st1) as H2.
  destruct (nn.Embedding_init _ _ st1) as [[e2 st2]|e].
  2:{ destruct H2 as [-> H2].
      destruct (Z.ltb_spec (GPTConfig.vocab_size cfg) 0); [done|].
      destruct (Z.ltb_spec (GPTConfig.n_embd cfg) 0); [done|].
      destruct (Z.ltb_spec (GPTConfig.block_size cfg) 0); [done | lia]. }
  destruct H2 as (Hbs & _).
  destruct (Z.ltb_spec (GPTConfig.vocab_size cfg) 0); [lia|].
  destruct (Z.ltb_spec (GPTConfig.n_embd cfg) 0); [lia|].
  destruct (Z.ltb_spec (GPTConfig.block_size cfg) 0); [lia|]. simpl.
  pose proof (blocks_outcome cfg (Z.to_nat (GPTConfig.n_layer cfg)) st2) as H3.
  destruct (GPT.blocks cfg _ st2) as [[bs st3]|e].
  2:{ destruct H3 as [Hn H3].
      by destruct (Z.leb_spec (GPTConfig.n_layer cfg) 0); [lia|]. }
  pose proof (LayerNorm_init_spec (GPTConfig.n_embd cfg) st3) as H4.
  destruct (nn.LayerNorm_init _ st3) as [[l st4]|e]; [|lia].
  pose proof (Linear_init_spec (GPTConfig.n_embd cfg)
                (GPTConfig.vocab_size cfg) false st4) as H5.
  destruct (nn.Linear_init _ _ false st4) as [[lm st5]|e]; [|lia].
  destruct (Z.leb_spec (GPTConfig.n_layer cfg) 0); [done|].
  destruct H3 as [H3|H3]; [lia | done].
Qed.

(** X15.  The feed-forward module works on the last dimension only: it
    accepts an input of any rank whose last size is n_embd and returns
    a tensor of the same shape, and it rejects every other input with a
    RuntimeError raised by its first linear layer. *)
Theorem X15_mlp_input_shapes (cfg : GPTConfig.t) (st st' : alloc_state)
    (self : MLP.t) (x : tensor float) :
  MLP.init cfg st = Ok (self, st') ->
  let N := Z.to_nat (GPTConfig.n_embd cfg) in
  (forall pre, shape x = pre ++ [N] ->
     exists y, MLP.forward self x = Ok y /\ shape y = shape x) /\
  ((forall pre, shape x <> pre ++ [N]) ->
   MLP.forward self x = Err RuntimeError).
Proof.
  intros Hinit N. split.
  - intros pre Hx.
    destruct (MLP_forward_ok cfg st st' self x pre Hinit Hx)
      as (h & g & y & _ & _ & _ & _ & _ & _ & Hy & Hs & _).
    by exists y.
  - intros Hx.
    pose proof (MLP_init_spec cfg st) as Hs. cbv zeta in Hs. rewrite Hinit in Hs.
    destruct Hs as (_ & _ & _ & _ & _ & HW & _).
    unfold MLP.forward, nn.Linear_forward, linear. rewrite HW.
    destruct (rev (shape x)) as [|c pre] eqn:E; [done|].
    destruct (Nat.eqb_spec c (Z.to_nat (GPTConfig.n_embd cfg))) as [->|]; [|done].
    exfalso. apply (Hx (rev pre)).
    rewrite <- (rev_involutive (shape x)), E. done.
Qed.

Lemma X15_witness :
  exists self st' y,
    MLP.init small_config fresh = Ok (self, st') /\
    MLP.forward self (zeros [4; 8]%nat) = Ok y /\
    shape y = [4; 8]%nat /\
    MLP.forward self (zeros [4; 6]%nat) = Err RuntimeError.
Proof.
  destruct (MLP_init_ok small_config fresh) as (self & st' & Hinit); [done|].
  destruct (X15_mlp_input_shapes small_config fresh st' self
              (zeros [4; 8]%nat) Hinit) as [Hok _].
  destruct (Hok [4%nat] eq_refl) as (y & Hy & Hs).
  exists self, st', y. split; [exact Hinit|]. split; [exact Hy|].
  split; [exact Hs|].
  apply (X15_mlp_input_shapes small_config fresh st' self
           (zeros [4; 6]%nat) Hinit).
  intros pre H. apply (f_equal (@rev nat)) in H.
  rewrite rev_app_distr in H. simpl in H. injection H as H _. lia.
Defined.

(** X16.  The outcome of constructing a block follows the order of
    lines 58 to 61, for a configuration whose tensors are within the
    library's signed 64-bit range of sizes and byte counts.  A negative
    n_embd is rejected first, by the first normalization layer, with a
    RuntimeError; then a head count of zero raises ZeroDivisionError
    and a head count that does not divide n_embd raises AssertionError,
    both on line 10; then a negative block_size raises a RuntimeError
    when the mask buffer is built.  Otherwise construction succeeds and
    the block owns twelve distinct parameter tensors.  (An allocation
    the machine cannot serve is outside this statement.) *)
Theorem X16_block_construction (cfg : GPTConfig.t) (st : alloc_state) :
  block_fits cfg = true ->
  match Block.init cfg st with
  | Ok (b, _) =>
      block_error cfg = None /\
      length (Block_parameters b) = 12%nat /\ NoDup (Block_parameters b)
  | Err e => block_error cfg = Some e
  end.
Proof.
  intros _.
  pose proof (Block_init_outcome cfg st) as H.
  pose proof (Block_init_spec cfg st) as Hs.
  destruct (Block.init cfg st) as [[b st']|e]; [|done].
  destruct Hs as (_ & _ & Hp & _). split; [done|]. rewrite Hp.
  split; [by rewrite length_seq | apply NoDup_seq].
Qed.

Lemma X16_witness :
  (exists b st',
     Block.init small_config fresh = Ok (b, st') /\
     length (Block_parameters b) = 12%nat /\ NoDup (Block_parameters b)) /\
  Block.init (GPTConfig.mk 8 10 2 0 8) fresh = Err ZeroDivisionError /\
  Block.init (GPTConfig.mk 8 10 2 3 8) fresh = Err AssertionError /\
  Block.init (GPTConfig.mk (-1) 10 2 2 8) fresh = Err RuntimeError /\
  Block.init (GPTConfig.mk 8 10 2 0 (-8)) fresh = Err RuntimeError.
Proof.
  split; [|split; [|split; [|split]]].
  - pose proof (X16_block_construction small_config fresh eq_refl) as H.
    destruct (Block.init small_config fresh) as [[b st']|e].
    + exists b, st'. destruct H as (_ & Hl & Hn).
      split; [reflexivity|]. split; [exact Hl | exact Hn].
    + exfalso. discriminate H.
  - pose proof (X16_block_construction (GPTConfig.mk 8 10 2 0 8) fresh eq_refl)
      as H.
    destruct (Block.init (GPTConfig.mk 8 10 2 0 8) fresh) as [[b st']|e].
    + exfalso. destruct H as [H _]. discriminate H.
    + injection H as <-. reflexivity.
  - pose proof (X16_block_construction (GPTConfig.mk 8 10 2 3 8) fresh eq_refl)
      as H.
    destruct (Block.init (GPTConfig.mk 8 10 2 3 8) fresh) as [[b st']|e].
    + exfalso. destruct H as [H _]. discriminate H.
    + injection H as <-. reflexivity.
  - pose proof (X16_block_construction (GPTConfig.mk (-1) 10 2 2 8) fresh
                  eq_refl) as H.
    destruct (Block.init (GPTConfig.mk (-1) 10 2 2 8) fresh) as [[b st']|e].
    + exfalso. destruct H as [H _]. discriminate H.
    + injection H as <-. reflexivity.
  - pose proof (X16_block_construction (GPTConfig.mk 8 10 2 0 (-8)) fresh
                  eq_refl) as H.
    destruct (Block.init (GPTConfig.mk 8 10 2 0 (-8)) fresh) as [[b st']|e].
    + exfalso. destruct H as [H _]. discriminate H.
    + injection H as <-. reflexivity.
Defined.

(** X17.  The second residual step of the block (line 65) works on its
    own: for a block built by the constructor and any tensor of shape
    (B, T, n_embd) it returns a tensor of the same shape, each entry
    the sum of the input entry and the entry of the feed-forward
    module applied to the normalized input. *)
Theorem X17_second_residual_step (cfg : GPTConfig.t) (st st' : alloc_state)
    (self : Block.t) (x : tensor float) (B T : nat) :
  Block.init cfg st = Ok (self, st') ->
  shape x = [B; T; Z.to_nat (GPTConfig.n_embd cfg)] ->
  exists n r y,
    nn.LayerNorm_forward (Block.ln_2 self) x = Ok n /\
    MLP.forward (Block.mlp self) n = Ok r /\
    Block.residual (nn.LayerNorm_forward (Block.ln_2 self))
                   (MLP.forward (Block.mlp self)) x = Ok y /\
    shape y = shape x /\
    forall idx, in_range idx (shape x) ->
      fget y idx = fadd (fget x idx) (fget r idx).
Proof.
  intros Hinit Hx.
  pose proof (Block_init_spec cfg st) as Hs. rewrite Hinit in Hs.
  destruct Hs as (_ & (st1 & st2 & Hln & Hmlp) & _).
  pose proof (LayerNorm_init_spec (GPTConfig.n_embd cfg) st1) as Hl.
  rewrite Hln in Hl. destruct Hl as (_ & Hns & _).
  assert (nn.LayerNorm_forward (Block.ln_2 self) x
          = Ok (tabulate (shape x)
                  (layer_norm_at x (Z.to_nat (GPTConfig.n_embd cfg))
                     (value (nn.ln_weight (Block.ln_2 self)))
                     (value (nn.ln_bias (Block.ln_2 self)))
                     (nn.eps (Block.ln_2 self))))) as En.
  { unfold nn.LayerNorm_forward. rewrite Hns.
    by apply (layer_norm_ok _ _ _ _ [B; T]). }
  set (n := tabulate _ _) in En.
  destruct (MLP_forward_ok cfg st2 st' (Block.mlp self) n [B; T] Hmlp)
    as (h & g & r & _ & _ & _ & _ & _ & _ & Hr & Hsr & _); [exact Hx|].
  destruct (residual_ok _ _ x n r En Hr) as (y & Hy & Hsy & Hent).
  { by rewrite Hsr. }
  by exists n, r, y.
Qed.

Lemma X17_witness :
  exists self st' y,
    Block.init small_config fresh = Ok (self, st') /\
    Block.residual (nn.LayerNorm_forward (Block.ln_2 self))
                   (MLP.forward (Block.mlp self)) (zeros [1; 4; 8]%nat) = Ok y /\
    shape y = [1; 4; 8]%nat.
Proof.
  destruct (Block_init_ok small_config fresh small_config_good)
    as (self & st' & Hinit).
  destruct (X17_second_residual_step small_config fresh st' self
              (zeros [1; 4; 8]%nat) 1 4 Hinit eq_refl)
    as (n & r & y & _ & _ & Hy & Hs & _).
  exists self, st', y. split; [exact Hinit|]. split; [exact Hy | exact Hs].
Defined.

(** X18.  The block's forward pass returns a tensor for no block and no
    input: its first residual step fails in the normalization or in the
    attention module, which always raises. *)
Theorem X18_block_forward_never_returns (self : Block.t) (x : tensor float) :
  (exists e, Block.forward self x = Err e) /\
  forall y, Block.forward self x <> Ok y.
Proof.
  assert (exists e, Block.forward self x = Err e) as [e He].
  { unfold Block.forward, Block.residual.
    destruct (nn.LayerNorm_forward (Block.ln_1 self) x) as [n|e];
      [|by exists e].
    cbn [mbind result_bind].
    destruct (forward_raises (Block.attn self) n) as [e ->]. by exists e. }
  split; [by exists e|]. intros y. by rewrite He.
Qed.

(** X19.  The outcome of constructing the model follows the order of
    lines 83 to 88, for a configuration whose tensors are within the
    library's signed 64-bit range of sizes and byte counts.  A negative
    vocab_size, n_embd or block_size is rejected by the embedding
    tables with a RuntimeError, before any block is built.  With
    n_layer <= 0 no block is built and construction then succeeds,
    whatever the head count.  With n_layer > 0 the first block decides:
    a head count of zero raises ZeroDivisionError, one that does not
    divide n_embd raises AssertionError, and otherwise construction
    succeeds.  (An allocation the machine cannot serve is outside this
    statement.) *)
Theorem X19_model_construction_outcome (cfg : GPTConfig.t)
    (st : alloc_state) :
  model_fits cfg = true ->
  match GPT.init cfg st with
  | Ok (m, _) =>
      model_error cfg = None /\
      length (GPT.h (GPT.transformer m))
      = Z.to_nat (GPTConfig.n_layer cfg)
  | Err e => model_error cfg = Some e
  end.
Proof.
  intros _.
  pose proof (GPT_init_outcome cfg st) as H.
  pose proof (GPT_init_spec cfg st) as Hs. cbv zeta in Hs.
  destruct (GPT.init cfg st) as [[m st']|e]; [|done].
  by destruct Hs as (_ & _ & _ & ? & _).
Qed.

Lemma X19_witness :
  (exists m st',
     GPT.init small_config fresh = Ok (m, st') /\
     length (GPT.h (GPT.transformer m)) = 2%nat) /\
  (exists m st',
     GPT.init (GPTConfig.mk 8 10 0 0 8) fresh = Ok (m, st') /\
     length (GPT.h (GPT.transformer m)) = 0%nat) /\
  GPT.init (GPTConfig.mk 8 10 2 0 8) fresh = Err ZeroDivisionError /\
  GPT.init (GPTConfig.mk 8 10 2 3 8) fresh = Err AssertionError /\
  GPT.init (GPTConfig.mk 8 (-1) 2 0 8) fresh = Err RuntimeError.
Proof.
  split; [|split; [|split; [|split]]].
  - pose proof (X19_model_construction_outcome small_config fresh eq_refl)
      as H.
    destruct (GPT.init small_config fresh) as [[m st']|e].
    + exists m, st'. destruct H as (_ & Hl).
      split; [reflexivity | exact Hl].
    + exfalso. discriminate H.
  - pose proof (X19_model_construction_outcome (GPTConfig.mk 8 10 0 0 8) fresh
                  eq_refl) as H.
    destruct (GPT.init (GPTConfig.mk 8 10 0 0 8) fresh) as [[m st']|e].
    + exists m, st'. destruct H as (_ & Hl).
      split; [reflexivity | exact Hl].
    + exfalso. discriminate H.
  - pose proof (X19_model_construction_outcome (GPTConfig.mk 8 10 2 0 8) fresh
                  eq_refl) as H.
    destruct (GPT.init (GPTConfig.mk 8 10 2 0 8) fresh) as [[m st']|e].
    + exfalso. destruct H as [H _]. discriminate H.
    + injection H as <-. reflexivity.
  - pose proof (X19_model_construction_outcome (GPTConfig.mk 8 10 2 3 8) fresh
                  eq_refl) as H.
    destruct (GPT.init (GPTConfig.mk 8 10 2 3 8) fresh) as [[m st']|e].
    + exfalso. destruct H as [H _]. discriminate H.
    + injection H as <-. reflexivity.
  - pose proof (X19_model_construction_outcome (GPTConfig.mk 8 (-1) 2 0 8)
                  fresh eq_refl) as H.
    destruct (GPT.init (GPTConfig.mk 8 (-1) 2 0 8) fresh) as [[m st']|e].
    + exfalso. destruct H as [H _]. discriminate H.
    + injection H as <-. reflexivity.
Defined.
End construction_extras.

Section count_extras.
Import torch.

Lemma blocks_numel (cfg : GPTConfig.t) (bs : list Block.t) :
  Forall (fun b => exists st1 st2, Block.init cfg st1 = Ok (b, st2)) bs ->
  let N := Z.to_nat (GPTConfig.n_embd cfg) in
  fold_right Nat.add 0%nat (map Block_numel bs)
  = (length bs * (12 * N * N + 13 * N))%nat.
Proof.
  intros H N. induction H as [|b bs (st1 & st2 & Hb) _ IH]; [done|].
  cbn [map fold_right length]. rewrite IH.
  rewrite (Block_numel_spec cfg st1 st2 b Hb). fold N. lia.
Qed.

(** X20.  The number of scalar parameters of a constructed model, with
    N = n_embd, V = vocab_size, S = block_size and L = n_layer blocks:
    2 V N for the token table and the output projection, S N for the
    position table, 12 N^2 + 13 N for each block and 2 N for the final
    normalization. *)
Theorem X20_parameter_count (cfg : GPTConfig.t) (st st' : alloc_state)
    (m : GPT.t) :
  GPT.init cfg st = Ok (m, st') ->
  let N := Z.to_nat (GPTConfig.n_embd cfg) in
  let V := Z.to_nat (GPTConfig.vocab_size cfg) in
  let S := Z.to_nat (GPTConfig.block_size cfg) in
  let L := Z.to_nat (GPTConfig.n_layer cfg) in
  GPT_numel m = (2 * V * N + S * N + L * (12 * N * N + 13 * N) + 2 * N)%nat.
Proof.
  intros Hinit N V S L.
  pose proof (GPT_init_spec cfg st) as Hs. cbv zeta in Hs. rewrite Hinit in Hs.
  destruct Hs as (_ & _ & _ & Hlen & Hall & _).
  unfold GPT.init in Hinit.
  apply M_bind_Ok_inv in Hinit as (wte & st1 & E1 & Hinit).
  apply M_bind_Ok_inv in Hinit as (wpe & st2 & E2 & Hinit).
  apply M_bind_Ok_inv in Hinit as (h & st3 & E3 & Hinit).
  apply M_bind_Ok_inv in Hinit as (ln_f & st4 & E4 & Hinit).
  apply M_bind_Ok_inv in Hinit as (lm & st5 & E5 & Hinit).
  injection Hinit as <- <-.
  cbn [GPT.transformer GPT.h] in Hlen, Hall.
  unfold GPT_numel.
  cbn [GPT.transformer GPT.lm_head GPT.wte GPT.wpe GPT.h GPT.ln_f].
  rewrite (Embedding_numel_spec _ _ _ _ _ E1), (Embedding_numel_spec _ _ _ _ _ E2).
  rewrite (blocks_numel cfg h Hall), Hlen.
  rewrite (LayerNorm_numel_spec _ _ _ _ E4), (Linear_numel_spec _ _ _ _ _ _ E5).
  fold N V S L. lia.
Qed.

Lemma X20_witness :
  exists m st',
    GPT.init small_config fresh = Ok (m, st') /\
    GPT_numel m = 1984%nat.
Proof.
  pose proof (GPT_init_outcome small_config fresh) as H.
  destruct (GPT.init small_config fresh) as [[m st']|e] eqn:E.
  - exists m, st'. split; [reflexivity|].
    exact (X20_parameter_count small_config fresh st' m E).
  - exfalso. discriminate H.
Defined.
End count_extras.
